(** * The interface-binding layer of py_sd_bus ([dbus_proxy.py])

    A shallow embedding of [src/py_sd_bus/dbus_proxy.py]: the name mapper,
    the member descriptors, the bound members with their dual-mode
    dispatch, the class-construction hook [DbusInterfaceMeta.__new__] and
    the instance operations of [DbusInterfaceBase].

    Python objects that the code mutates in place (descriptors, instances,
    signal queues) live in explicit stores and are referred to by address;
    every method is a computation in a state-and-exception monad over
    those stores, so that what a raising call leaves behind is visible. *)

From Stdlib Require Import ZArith Ascii String.
From stdpp Require Import gmap strings list fin_maps.

Set Warnings "-register-all".
Open Scope string_scope.

(** ** Python values, exceptions *)

(** The values that travel through the binding layer.  [PyNone] is the
    value the code tests with [is None] / [is not None]; [PyTuple] is
    what [isinstance(x, tuple)] recognises. *)
Inductive PyValue : Type :=
| PyNone
| PyBool (b : bool)
| PyInt (z : Z)
| PyStr (s : string)
| PyTuple (items : list PyValue).

Definition is_None (v : PyValue) : bool :=
  match v with PyNone => true | _ => false end.

Definition is_tuple (v : PyValue) : bool :=
  match v with PyTuple _ => true | _ => false end.

(** The exceptions the code raises itself ([TypeError], [ValueError],
    failed [assert]), the ones the interpreter raises on its behalf
    (a missing attribute, an unbound local, a generator that runs dry),
    and [Raised] for whatever a user-supplied function throws. *)
Inductive PyExc : Type :=
| TypeError (msg : string)
| ValueError (msg : string)
| AssertionError
| AttributeError (attr : string)
| KeyError (key : string)
| UnboundLocalError (var : string)
| StopIteration
| IndexError
| RuntimeError (msg : string)
| NotImplementedError
| Raised (what : string).

Inductive Result (A : Type) : Type :=
| Ok (a : A)
| Raise (e : PyExc).
Arguments Ok {A} a.
Arguments Raise {A} e.

(** The name of a value's type, as the interpreter's messages give
    it. *)
Definition type_name (v : PyValue) : string :=
  match v with
  | PyNone => "NoneType"
  | PyBool _ => "bool"
  | PyInt _ => "int"
  | PyStr _ => "str"
  | PyTuple _ => "tuple"
  end.

(** A Python string is a sequence of characters; a [string] here is
    its UTF-8 encoding, in which a character is one byte below 128, or
    a lead byte with the continuation bytes (128 to 191) that follow
    it. *)
Definition is_continuation (c : ascii) : bool :=
  (128 <=? nat_of_ascii c)%nat && (nat_of_ascii c <? 192)%nat.

Fixpoint chars (s : string) : list string :=
  match s with
  | EmptyString => []
  | String c rest =>
      let groups := chars rest in
      match rest with
      | String c' _ =>
          if is_continuation c' then
            match groups with
            | group :: groups' => String c group :: groups'
            | [] => [String c EmptyString]
            end
          else String c EmptyString :: groups
      | EmptyString => String c EmptyString :: groups
      end
  end.

(** [v[i]] for an index that is not negative: an element of a tuple, a
    character of a string; the other values cannot be indexed. *)
Definition getitem (v : PyValue) (i : nat) : Result PyValue :=
  match v with
  | PyTuple items =>
      match items !! i with
      | Some x => Ok x
      | None => Raise IndexError
      end
  | PyStr s =>
      match chars s !! i with
      | Some c => Ok (PyStr c)
      | None => Raise IndexError
      end
  | _ => Raise (TypeError ("'" ++ type_name v
                           ++ "' object is not subscriptable"))
  end.

(** ** Name mapper: [_method_name_converter] *)

Module NameMapper.

Definition underscore : ascii := "_"%char.

Definition is_lower (c : ascii) : bool :=
  let n := nat_of_ascii c in (97 <=? n)%nat && (n <=? 122)%nat.

Definition is_upper (c : ascii) : bool :=
  let n := nat_of_ascii c in (65 <=? n)%nat && (n <=? 90)%nat.

Definition is_digit (c : ascii) : bool :=
  let n := nat_of_ascii c in (48 <=? n)%nat && (n <=? 57)%nat.

(** [str.upper()] on one character.  On the characters below 128
    Python's [upper] shifts [a]..[z] to [A]..[Z] and leaves everything
    else alone.  A byte from 128 on is part of the encoding of a
    character beyond ASCII.  Python maps some of these characters to
    others, even to several ([é] to [É], [ß] to [SS]), and that
    mapping is not modelled: what is proved of the mapper is proved for
    names within ASCII.  The bytes stay as they are, which is what
    [upper] does to a character that has no uppercase form. *)
Definition upper (c : ascii) : ascii :=
  if is_lower c then ascii_of_nat (nat_of_ascii c - 32) else c.

(** The [for c in char_iter] loop, with the generator's flag
    [upper_next_one] as an argument and the yielded characters as the
    result. *)
Fixpoint convert_loop (upper_next_one : bool) (char_iter : string) : string :=
  match char_iter with
  | EmptyString => EmptyString
  | String c rest =>
      if negb (Ascii.eqb c underscore) then
        if upper_next_one
        then String (upper c) (convert_loop false rest)
        else String c (convert_loop upper_next_one rest)
      else convert_loop true rest
  end.

(** [''.join(_method_name_converter(python_name))].  On the empty
    string [next(char_iter)] raises [StopIteration] inside the
    generator, which the interpreter turns into a [RuntimeError]. *)
Definition _method_name_converter (python_name : string) : Result string :=
  match python_name with
  | EmptyString => Raise (RuntimeError "generator raised StopIteration")
  | String first_char char_iter =>
      Ok (String (upper first_char) (convert_loop false char_iter))
  end.

(** *** The identifiers the mapper is meant for *)

(** A lowercase word: a lowercase letter followed by lowercase letters
    and digits. *)
Fixpoint all_lower_or_digit (s : string) : bool :=
  match s with
  | EmptyString => true
  | String c rest => (is_lower c || is_digit c) && all_lower_or_digit rest
  end.

Definition lower_word (w : string) : bool :=
  match w with
  | EmptyString => false
  | String c rest => is_lower c && all_lower_or_digit rest
  end.

(** [snake ws] is the identifier whose words are [ws], in order,
    separated by single underscores. *)
Fixpoint snake_tail (ws : list string) : string :=
  match ws with
  | [] => EmptyString
  | w :: ws' => String underscore (w ++ snake_tail ws')
  end.

Definition snake (ws : list string) : string :=
  match ws with
  | [] => EmptyString
  | w :: ws' => w ++ snake_tail ws'
  end.

Definition lower_words (ws : list string) : bool :=
  match ws with
  | [] => false
  | _ => forallb lower_word ws
  end.



(** What the specification asks of the mapper, word by word: every
    word gets its first character capitalised, the separators go. *)
Definition capitalize (w : string) : string :=
  match w with
  | EmptyString => EmptyString
  | String c rest => String (upper c) rest
  end.

Fixpoint camel (ws : list string) : string :=
  match ws with
  | [] => EmptyString
  | w :: ws' => capitalize w ++ camel ws'
  end.

Fixpoint has_underscore (s : string) : bool :=
  match s with
  | EmptyString => false
  | String c rest => Ascii.eqb c underscore || has_underscore rest
  end.

Definition starts_upper (s : string) : bool :=
  match s with
  | EmptyString => false
  | String c _ => is_upper c
  end.

End NameMapper.

(** ** Functions and the bus engine *)

(** Addresses of objects in the stores below. *)
Abbreviation addr := nat (only parsing).

(** What a registered interface hands to the bus engine as an entry
    point: a bound method of a bound member, that is the member's
    descriptor and its owning instance together with the method's name. *)
Inductive Callback : Type :=
| CallFromDbus (dbus_method interface : addr)
| GetSync (dbus_property interface : addr)
| SetSync (dbus_property interface : addr).

(** [SdBusInterface] belongs to the bus engine; here it is the sequence
    of [add_method] / [add_property] / [add_signal] calls made on it. *)
Inductive InterfaceEntry : Type :=
| add_method (method_name input_signature input_args_names
              result_signature : string) (result_args_names : list string)
             (flags : Z) (callback : Callback)
| add_property (property_name property_signature : string)
               (getter : Callback) (setter : option Callback) (flags : Z)
| add_signal (signal_name signature : string) (args_names : list string)
             (flags : Z).

Abbreviation SdBusInterface := (list InterfaceEntry) (only parsing).

(** The per-object state of a [DbusInterfaceBase]: for each attribute,
    what reading it on the object finds, the value assigned to the
    object or, when none was, the value its class holds under the
    name.  An attribute that is found in neither place is [None] at
    the outer level: reading it raises [AttributeError].  The inner
    [option] of the [Optional[...]] fields is Python's [None].
    [user_state] holds whatever attributes the application's own
    methods keep on the object. *)
Record Instance : Type := {
  ob_type : string;
  activated_interfaces : option (list SdBusInterface);
  is_binded : option bool;
  remote_service_name : option (option string);
  remote_object_path : option (option string);
  attached_bus : option (option addr);
  serving_object_path : option (option string);
  _local_signal_queues : option (gmap addr (list addr));
  user_state : gmap string PyValue;
}.

(** A Python function as the binding layer sees it: its [__name__], what
    [inspect.getfullargspec] reports about it, whether it was written
    with [async def] (the [CO_COROUTINE] bit of its code object), and
    what running its body with a receiver, positional and keyword
    arguments does: it returns or raises, and leaves the receiver in a
    new state. *)
Record FunctionType : Type := {
  __name__ : string;
  co_args : list string;
  co_defaults : option (list PyValue);
  co_coroutine : bool;
  body : Instance -> list PyValue -> gmap string PyValue ->
         Result PyValue * Instance;
}.

Module FullArgSpec.
Record t : Type := {
  args : list string;
  defaults : option (list PyValue);
}.
End FullArgSpec.

Definition getfullargspec (f : FunctionType) : FullArgSpec.t :=
  {| FullArgSpec.args := co_args f; FullArgSpec.defaults := co_defaults f |}.

(** Messages of the bus engine: where they go and the [append_data]
    calls made on them, each a signature with its values. *)
Inductive MessageKind : Type :=
| MethodCall | PropertyGet | PropertySet | SignalMessage | Reply.

Record SdBusMessage : Type := {
  msg_kind : MessageKind;
  msg_destination : option string;
  msg_path : string;
  msg_interface : string;
  msg_member : string;
  msg_data : list (string * list PyValue);
  msg_contents : PyValue;
}.

Definition append_data (signature : string) (values : list PyValue)
    (m : SdBusMessage) : SdBusMessage :=
  {| msg_kind := msg_kind m; msg_destination := msg_destination m;
     msg_path := msg_path m; msg_interface := msg_interface m;
     msg_member := msg_member m;
     msg_data := msg_data m ++ [(signature, values)];
     msg_contents := msg_contents m |}.

Definition new_message (kind : MessageKind) (destination : option string)
    (path interface member : string) : SdBusMessage :=
  {| msg_kind := kind; msg_destination := destination; msg_path := path;
     msg_interface := interface; msg_member := member;
     msg_data := []; msg_contents := PyNone |}.

Definition create_reply (request : SdBusMessage) : SdBusMessage :=
  new_message Reply (msg_destination request) (msg_path request)
              (msg_interface request) (msg_member request).

(** What the bus engine was asked to do, oldest request first. *)
Inductive BusAction : Type :=
| call_async (bus : addr) (message : SdBusMessage)
| send (message : SdBusMessage)
| add_interface (bus : addr) (interface : SdBusInterface)
                (object_path interface_name : string)
| get_signal_queue_async (bus : addr) (service_name object_path
                          interface_name signal_name : string).

(** ** Member descriptors *)

Module DbusMethod.
Record t : Type := {
  interface_name : option string;
  serving_enabled : bool;
  original_method : FunctionType;
  args_spec : FullArgSpec.t;
  args_names : list string;
  num_of_args : Z;
  args_defaults : list PyValue;
  default_args_start_at : Z;
  method_name : string;
  input_signature : string;
  input_args_names : string;
  result_signature : string;
  result_args_names : list string;
  flags : Z;
}.

(** [DbusMethod.__init__].  Where [method_name] is [None] the wire name
    comes from the name mapper, whose failure on an empty [__name__]
    fails the construction. *)
Definition __init__ (async_function : FunctionType)
    (method_name : option string) (input_signature result_signature : string)
    (result_args_names : list string) (flags : Z) : Result t :=
  let args_spec := getfullargspec async_function in
  let args_names := tail (FullArgSpec.args args_spec) in
  let num_of_args := Z.of_nat (length args_names) in
  let args_defaults :=
    match FullArgSpec.defaults args_spec with Some d => d | None => [] end in
  let default_args_start_at :=
    (num_of_args - Z.of_nat (length args_defaults))%Z in
  let make name :=
    {| interface_name := None; serving_enabled := true;
       original_method := async_function;
       args_spec := args_spec; args_names := args_names;
       num_of_args := num_of_args; args_defaults := args_defaults;
       default_args_start_at := default_args_start_at;
       method_name := name;
       input_signature := input_signature; input_args_names := "";
       result_signature := result_signature;
       result_args_names := result_args_names; flags := flags |} in
  match method_name with
  | None =>
      match NameMapper._method_name_converter (__name__ async_function) with
      | Ok name => Ok (make name)
      | Raise e => Raise e
      end
  | Some name => Ok (make name)
  end.

Definition with_stamp (name : option string) (enabled : bool) (m : t) : t :=
  {| interface_name := name; serving_enabled := enabled;
     original_method := original_method m;
     args_spec := args_spec m; args_names := args_names m;
     num_of_args := num_of_args m; args_defaults := args_defaults m;
     default_args_start_at := default_args_start_at m;
     method_name := method_name m;
     input_signature := input_signature m;
     input_args_names := input_args_names m;
     result_signature := result_signature m;
     result_args_names := result_args_names m; flags := flags m |}.

Definition with_original_method (f : FunctionType) (m : t) : t :=
  {| interface_name := interface_name m;
     serving_enabled := serving_enabled m;
     original_method := f;
     args_spec := args_spec m; args_names := args_names m;
     num_of_args := num_of_args m; args_defaults := args_defaults m;
     default_args_start_at := default_args_start_at m;
     method_name := method_name m;
     input_signature := input_signature m;
     input_args_names := input_args_names m;
     result_signature := result_signature m;
     result_args_names := result_args_names m; flags := flags m |}.
End DbusMethod.

Module DbusProperty.
Record t : Type := {
  interface_name : option string;
  serving_enabled : bool;
  property_name : string;
  property_signature : string;
  property_get : FunctionType;
  property_set : option FunctionType;
  flags : Z;
}.

Definition __init__ (property_name property_signature : string)
    (property_get : FunctionType) (property_set : option FunctionType)
    (flags : Z) : t :=
  {| interface_name := None; serving_enabled := true;
     property_name := property_name;
     property_signature := property_signature;
     property_get := property_get; property_set := property_set;
     flags := flags |}.

Definition with_stamp (name : option string) (enabled : bool) (p : t) : t :=
  {| interface_name := name; serving_enabled := enabled;
     property_name := property_name p;
     property_signature := property_signature p;
     property_get := property_get p; property_set := property_set p;
     flags := flags p |}.

Definition with_property_set (f : FunctionType) (p : t) : t :=
  {| interface_name := interface_name p;
     serving_enabled := serving_enabled p;
     property_name := property_name p;
     property_signature := property_signature p;
     property_get := property_get p; property_set := Some f;
     flags := flags p |}.
End DbusProperty.

Module DbusSignal.
Record t : Type := {
  interface_name : option string;
  serving_enabled : bool;
  signal_name : string;
  signature : string;
  args_names : list string;
  flags : Z;
}.

Definition __init__ (signal_name signature : string)
    (args_names : list string) (flags : Z) : t :=
  {| interface_name := None; serving_enabled := true;
     signal_name := signal_name; signature := signature;
     args_names := args_names; flags := flags |}.

Definition with_stamp (name : option string) (enabled : bool) (s : t) : t :=
  {| interface_name := name; serving_enabled := enabled;
     signal_name := signal_name s; signature := signature s;
     args_names := args_names s; flags := flags s |}.
End DbusSignal.

(** [DbusSomething] with its three subclasses. *)
Inductive DbusSomething : Type :=
| Method (m : DbusMethod.t)
| Property (p : DbusProperty.t)
| Signal (s : DbusSignal.t).

(** The two assignments [value.interface_name = ...] and
    [value.serving_enabled = ...] of the class-construction hook. *)
Definition stamp (name : option string) (enabled : bool)
    (d : DbusSomething) : DbusSomething :=
  match d with
  | Method m => Method (DbusMethod.with_stamp name enabled m)
  | Property p => Property (DbusProperty.with_stamp name enabled p)
  | Signal s => Signal (DbusSignal.with_stamp name enabled s)
  end.

(** ** The stores and the monad *)

(** [descriptors]: the [DbusSomething] objects; [instances]: the
    [DbusInterfaceBase] objects; [queues]: the [asyncio.Queue] objects
    of local signal subscribers with their pending items, [None] once
    the queue is collected, so that a weak reference is the queue's
    address; [bus_log]: what the bus engine was asked to do;
    [peer_reply]: what the remote peer answers to a request. *)
Record World : Type := {
  descriptors : list DbusSomething;
  instances : list Instance;
  queues : list (option (list PyValue));
  bus_log : list BusAction;
  peer_reply : SdBusMessage -> Result SdBusMessage;
}.

Definition M (A : Type) : Type := World -> Result A * World.

Global Instance M_ret : MRet M := λ A a w, (Ok a, w).

Global Instance M_bind : MBind M := λ A B f m w,
  match m w with
  | (Ok a, w') => f a w'
  | (Raise e, w') => (Raise e, w')
  end.

Definition raise {A} (e : PyExc) : M A := λ w, (Raise e, w).

Definition lift {A} (r : Result A) : M A := λ w, (r, w).

Definition get_world : M World := λ w, (Ok w, w).

Definition put_world (w : World) : M unit := λ _, (Ok tt, w).

(** [assert cond] *)
Definition assert (cond : bool) : M unit :=
  if cond then mret tt else raise AssertionError.

(** [assert x is not None], giving the value. *)
Definition assert_not_None {A} (x : option A) : M A :=
  match x with Some a => mret a | None => raise AssertionError end.

(** A [for] loop whose body may raise. *)
Fixpoint for_each {A} (l : list A) (body : A -> M unit) : M unit :=
  match l with
  | [] => mret tt
  | x :: l' => body x ;; for_each l' body
  end.

Definition set_descriptors (ds : list DbusSomething) (w : World) : World :=
  {| descriptors := ds; instances := instances w; queues := queues w;
     bus_log := bus_log w; peer_reply := peer_reply w |}.

Definition set_instances (objs : list Instance) (w : World) : World :=
  {| descriptors := descriptors w; instances := objs; queues := queues w;
     bus_log := bus_log w; peer_reply := peer_reply w |}.

Definition set_queues (qs : list (option (list PyValue))) (w : World) : World :=
  {| descriptors := descriptors w; instances := instances w; queues := qs;
     bus_log := bus_log w; peer_reply := peer_reply w |}.

Definition set_bus_log (log : list BusAction) (w : World) : World :=
  {| descriptors := descriptors w; instances := instances w;
     queues := queues w; bus_log := log; peer_reply := peer_reply w |}.

(** Following a reference.  A reference to nothing cannot be built in
    Python; the stores being lists, the case has to be given a result. *)
Definition dangling {A} : M A := raise (RuntimeError "dangling reference").

Definition instance_at (obj : addr) : M Instance := λ w,
  match instances w !! obj with
  | Some i => (Ok i, w)
  | None => dangling w
  end.

Definition update_instance (obj : addr) (f : Instance -> Instance) : M unit :=
  λ w, match instances w !! obj with
       | Some i => (Ok tt, set_instances (<[obj := f i]> (instances w)) w)
       | None => dangling w
       end.

Definition descriptor_at (a : addr) : M DbusSomething := λ w,
  match descriptors w !! a with
  | Some d => (Ok d, w)
  | None => dangling w
  end.

Definition method_at (a : addr) : M DbusMethod.t :=
  d ← descriptor_at a;
  match d with Method m => mret m | _ => dangling end.

Definition property_at (a : addr) : M DbusProperty.t :=
  d ← descriptor_at a;
  match d with Property p => mret p | _ => dangling end.

Definition signal_at (a : addr) : M DbusSignal.t :=
  d ← descriptor_at a;
  match d with Signal s => mret s | _ => dangling end.

(** Creating an object: it gets the next free address. *)
Definition new_descriptor (d : DbusSomething) : M addr := λ w,
  (Ok (length (descriptors w)), set_descriptors (descriptors w ++ [d]) w).

Definition new_instance (i : Instance) : M addr := λ w,
  (Ok (length (instances w)), set_instances (instances w ++ [i]) w).

Definition new_queue : M addr := λ w,
  (Ok (length (queues w)), set_queues (queues w ++ [Some []]) w).

(** Reading the attribute [name] of the instance at [obj]. *)
Definition getattr {A} (obj : addr) (name : string)
    (field : Instance -> option A) : M A :=
  i ← instance_at obj;
  match field i with
  | Some a => mret a
  | None => raise (AttributeError name)
  end.

(** Calling a function on the instance at [obj]: the instance is left as
    the function leaves it, also when the function raises. *)
Definition call_function (f : FunctionType) (obj : addr)
    (args : list PyValue) (kwargs : gmap string PyValue) : M PyValue :=
  i ← instance_at obj;
  let '(r, i') := body f i args kwargs in
  update_instance obj (λ _, i') ;;
  lift r.

(** [await] on what calling [f] gave.  A function written with
    [async def] gives a coroutine, and awaiting it gives what its body
    returns; a plain [def] has run by then, and the value it returned
    cannot be awaited. *)
Definition await (f : FunctionType) (returned : PyValue) : M PyValue :=
  if co_coroutine f then mret returned
  else raise (TypeError ("object " ++ type_name returned
                         ++ " can't be used in 'await' expression")).

Definition bus_do (action : BusAction) : M unit := λ w,
  (Ok tt, set_bus_log (bus_log w ++ [action]) w).

(** [await bus.call_async(message)] *)
Definition bus_call_async (bus : addr) (message : SdBusMessage)
    : M SdBusMessage :=
  bus_do (call_async bus message) ;;
  w ← get_world;
  lift (peer_reply w message).

(** ** Bound members *)

Module DbusMethodBinded.
Import DbusMethod.

Record t : Type := {
  dbus_method : addr;
  interface : addr;
}.

(** The body of the coroutine [_call_dbus], run on its arguments. *)
Definition _call_dbus (self : t) (args : list PyValue) : M PyValue :=
  bus ← getattr (interface self) "attached_bus" attached_bus;
  bus ← assert_not_None bus;
  service ← getattr (interface self) "remote_service_name" remote_service_name;
  service ← assert_not_None service;
  path ← getattr (interface self) "remote_object_path" remote_object_path;
  path ← assert_not_None path;
  m ← method_at (dbus_method self);
  name ← assert_not_None (interface_name m);
  let new_call_message :=
    new_message MethodCall (Some service) path name (method_name m) in
  let new_call_message :=
    match args with
    | [] => new_call_message
    | _ => append_data (input_signature m) args new_call_message
    end in
  reply_message ← bus_call_async bus new_call_message;
  mret (msg_contents reply_message).

(** The loop of [_rebuild_args] over
    [enumerate(self.dbus_method.args_spec.args[1:])], with the two
    iterators as the lists of what they have left to give. *)
Fixpoint rebuild_loop (m : DbusMethod.t) (kwargs : gmap string PyValue)
    (i : Z) (names : list string)
    (passed_args_iter default_args_iter new_args_list : list PyValue)
    : Result (list PyValue) :=
  match names with
  | [] => Ok new_args_list
  | a_name :: names' =>
      let '(next_arg, passed_args_iter) :=
        match passed_args_iter with
        | x :: rest => (x, rest)
        | [] => (PyNone, [])
        end in
      let continue next_default_arg default_args_iter :=
        let next_kwarg := default PyNone (kwargs !! a_name) in
        if negb (is_None next_arg) then
          rebuild_loop m kwargs (i + 1) names' passed_args_iter
                       default_args_iter (new_args_list ++ [next_arg])%list
        else if negb (is_None next_kwarg) then
          rebuild_loop m kwargs (i + 1) names' passed_args_iter
                       default_args_iter (new_args_list ++ [next_kwarg])%list
        else if negb (is_None next_default_arg) then
          rebuild_loop m kwargs (i + 1) names' passed_args_iter
                       default_args_iter (new_args_list ++ [next_default_arg])%list
        else Raise (TypeError "Could not flatten the args") in
      if (default_args_start_at m <=? i)%Z then
        match default_args_iter with
        | d :: rest => continue d rest
        | [] => Raise StopIteration
        end
      else continue PyNone default_args_iter
  end.

(** What Python raises when a keyword argument names a parameter that
    already has its value. *)
Definition multiple_values (name : string) : PyExc :=
  TypeError ("DbusMethodBinded._rebuild_args() got multiple values for argument '"
             ++ name ++ "'").

(** [_rebuild_args(self, function, *args, **kwargs)].  The parameters
    are bound before the body runs, so a keyword argument named [self]
    or [function] is refused.  Of two such keywords Python names the
    one given first; the map does not keep that order, and [self] is
    named. *)
Definition _rebuild_args (self : t) (function : FunctionType)
    (args : list PyValue) (kwargs : gmap string PyValue)
    : M (list PyValue) :=
  match kwargs !! "self", kwargs !! "function" with
  | Some _, _ => raise (multiple_values "self")
  | None, Some _ => raise (multiple_values "function")
  | None, None =>
      m ← method_at (dbus_method self);
      lift (rebuild_loop m kwargs 0 (tail (FullArgSpec.args (args_spec m)))
                         args (args_defaults m) [])
  end.

(** [__call__] on positional and keyword arguments, together with the await
    of what it returns.  Nothing touches the bus before
    [_rebuild_args] has returned.  The keyword arguments are those that
    reach the method: a call with a keyword named [self] is refused by
    Python before [__call__] runs. *)
Definition __call__ (self : t) (args : list PyValue)
    (kwargs : gmap string PyValue) : M PyValue :=
  bound ← getattr (interface self) "is_binded" is_binded;
  m ← method_at (dbus_method self);
  if bound : bool then
    if (Z.of_nat (length args) =? num_of_args m)%Z then
      assert (bool_decide (size kwargs = 0%nat)) ;;
      _call_dbus self args
    else
      rebuilt_args ← _rebuild_args self (original_method m) args kwargs;
      _call_dbus self rebuilt_args
  else
    call_function (original_method m) (interface self) args kwargs.

(** The entry point the bus engine calls for an incoming request. *)
Definition _call_from_dbus (self : t) (request_message : SdBusMessage)
    : M unit :=
  let request_data := msg_contents request_message in
  let reply_message := create_reply request_message in
  m ← method_at (dbus_method self);
  let local_method := call_function (original_method m) (interface self) in
  reply_data ←
    match request_data with
    | PyTuple items => local_method items ∅
    | PyNone => local_method [] ∅
    | _ => local_method [request_data] ∅
    end;
  reply_data ← await (original_method m) reply_data;
  let reply_message :=
    match reply_data with
    | PyTuple items => append_data (result_signature m) items reply_message
    | PyNone => reply_message
    | _ => append_data (result_signature m) [reply_data] reply_message
    end in
  bus_do (send reply_message).
End DbusMethodBinded.

Module DbusPropertyBinded.
Import DbusProperty.

Record t : Type := {
  dbus_property : addr;
  interface : addr;
}.

Definition get_sync (self : t) : M PyValue :=
  p ← property_at (dbus_property self);
  call_function (property_get p) (interface self) [] ∅.

Definition set_sync (self : t) (complete_object : PyValue) : M unit :=
  p ← property_at (dbus_property self);
  match property_set p with
  | None => raise (ValueError "Property has no setter")
  | Some property_set =>
      call_function property_set (interface self) [complete_object] ∅ ;;
      mret tt
  end.

Definition get_async (self : t) : M PyValue :=
  bound ← getattr (interface self) "is_binded" is_binded;
  if negb bound then
    p ← property_at (dbus_property self);
    call_function (property_get p) (interface self) [] ∅
  else
    bus ← getattr (interface self) "attached_bus" attached_bus;
    bus ← assert_not_None bus;
    service ← getattr (interface self) "remote_service_name" remote_service_name;
    service ← assert_not_None service;
    path ← getattr (interface self) "remote_object_path" remote_object_path;
    path ← assert_not_None path;
    p ← property_at (dbus_property self);
    name ← assert_not_None (interface_name p);
    let new_call_message :=
      new_message PropertyGet (Some service) path name (property_name p) in
    reply_message ← bus_call_async bus new_call_message;
    lift (getitem (msg_contents reply_message) 1).

Definition set_async (self : t) (complete_object : PyValue) : M unit :=
  bound ← getattr (interface self) "is_binded" is_binded;
  if negb bound then
    p ← property_at (dbus_property self);
    match property_set p with
    | None => raise (ValueError "Property has no setter")
    | Some property_set =>
        call_function property_set (interface self) [complete_object] ∅ ;;
        mret tt
    end
  else
    bus ← getattr (interface self) "attached_bus" attached_bus;
    bus ← assert_not_None bus;
    service ← getattr (interface self) "remote_service_name" remote_service_name;
    service ← assert_not_None service;
    path ← getattr (interface self) "remote_object_path" remote_object_path;
    path ← assert_not_None path;
    p ← property_at (dbus_property self);
    name ← assert_not_None (interface_name p);
    let new_call_message :=
      new_message PropertySet (Some service) path name (property_name p) in
    let new_call_message :=
      append_data "v"
        [PyTuple [PyStr (property_signature p); complete_object]]
        new_call_message in
    bus_call_async bus new_call_message ;;
    mret tt.
End DbusPropertyBinded.

(** [DbusProperty.setter]: [self.property_set = new_set_function], an
    assignment to the descriptor object itself. *)
Definition DbusProperty_setter (self : addr) (new_set_function : FunctionType)
    : M unit :=
  p ← property_at self;
  let updated := Property (DbusProperty.with_property_set new_set_function p) in
  ((λ w, (Ok tt, set_descriptors (<[self := updated]> (descriptors w)) w))
   : M unit).

Module DbusSignalBinded.
Import DbusSignal.

Record t : Type := {
  dbus_signal : addr;
  interface : addr;
}.

(** What iterating over the bound signal listens to. *)
Inductive Source : Type :=
| BusQueue
| LocalQueue (queue : addr).

Definition _get_dbus_queue (self : t) : M unit :=
  bus ← getattr (interface self) "attached_bus" attached_bus;
  bus ← assert_not_None bus;
  service ← getattr (interface self) "remote_service_name" remote_service_name;
  service ← assert_not_None service;
  path ← getattr (interface self) "remote_object_path" remote_object_path;
  path ← assert_not_None path;
  s ← signal_at (dbus_signal self);
  name ← assert_not_None (interface_name s);
  bus_do (get_signal_queue_async bus service path name (signal_name s)).

(** [list.remove]: the first equal element goes. *)
Fixpoint list_remove (x : addr) (l : list addr) : option (list addr) :=
  match l with
  | [] => None
  | y :: l' =>
      if (x =? y)%nat then Some l'
      else match list_remove x l' with
           | Some r => Some (y :: r)
           | None => None
           end
  end.

(** The callback the weak reference runs when its queue is collected. *)
Definition _cleanup_local_queue (self : t) (queue_ref : addr) : M unit :=
  table ← getattr (interface self) "_local_signal_queues" _local_signal_queues;
  match table !! dbus_signal self with
  | None => raise (KeyError "dbus_signal")
  | Some list_of_queues =>
      match list_remove queue_ref list_of_queues with
      | None => raise (ValueError "list.remove(x): x not in list")
      | Some remaining =>
          update_instance (interface self) (λ i,
            {| ob_type := ob_type i;
               activated_interfaces := activated_interfaces i;
               is_binded := is_binded i;
               remote_service_name := remote_service_name i;
               remote_object_path := remote_object_path i;
               attached_bus := attached_bus i;
               serving_object_path := serving_object_path i;
               _local_signal_queues :=
                 Some (<[dbus_signal self := remaining]> table);
               user_state := user_state i |})
      end
  end.

Definition _get_local_queue (self : t) : M addr :=
  table ← getattr (interface self) "_local_signal_queues" _local_signal_queues;
  let list_of_queues := default [] (table !! dbus_signal self) in
  new_queue ← new_queue;
  update_instance (interface self) (λ i,
    {| ob_type := ob_type i;
       activated_interfaces := activated_interfaces i;
       is_binded := is_binded i;
       remote_service_name := remote_service_name i;
       remote_object_path := remote_object_path i;
       attached_bus := attached_bus i;
       serving_object_path := serving_object_path i;
       _local_signal_queues :=
         Some (<[dbus_signal self := (list_of_queues ++ [new_queue])%list]> table);
       user_state := user_state i |}) ;;
  mret new_queue.

(** [__aiter__] up to its first wait for an item. *)
Definition __aiter__ (self : t) : M Source :=
  bound ← getattr (interface self) "is_binded" is_binded;
  if bound : bool then
    _get_dbus_queue self ;; mret BusQueue
  else
    data_queue ← _get_local_queue self;
    mret (LocalQueue data_queue).

Definition starts_with_paren (signature : string) : bool :=
  match signature with
  | String c _ => Ascii.eqb c "("%char
  | EmptyString => false
  end.

Definition _emit_message (self : t) (args : PyValue) : M unit :=
  bus ← getattr (interface self) "attached_bus" attached_bus;
  _ ← assert_not_None bus;
  path ← getattr (interface self) "serving_object_path" serving_object_path;
  path ← assert_not_None path;
  s ← signal_at (dbus_signal self);
  name ← assert_not_None (interface_name s);
  let signal_message :=
    new_message SignalMessage None path name (signal_name s) in
  let signal_message :=
    match args with
    | PyTuple items =>
        if negb (starts_with_paren (signature s))
        then append_data (signature s) items signal_message
        else append_data (signature s) [args] signal_message
    | _ => append_data (signature s) [args] signal_message
    end in
  bus_do (send signal_message).

(** Calling a weak reference: the queue if it is still there. *)
Definition weak_ref_call (queue_ref : addr) : M (option addr) := λ w,
  match queues w !! queue_ref with
  | Some (Some _) => (Ok (Some queue_ref), w)
  | _ => (Ok None, w)
  end.

(** [Queue.put_nowait] on a queue without a size limit. *)
Definition put_nowait (queue : addr) (item : PyValue) : M unit := λ w,
  match queues w !! queue with
  | Some (Some items) =>
      (Ok tt, set_queues (<[queue := Some (items ++ [item])%list]> (queues w)) w)
  | _ => dangling w
  end.

Definition emit (self : t) (args : PyValue) : M unit :=
  activated ←
    getattr (interface self) "activated_interfaces" activated_interfaces;
  match activated with
  | [] => mret tt
  | _ => _emit_message self args
  end ;;
  table ← getattr (interface self) "_local_signal_queues" _local_signal_queues;
  match table !! dbus_signal self with
  | None => mret tt
  | Some list_of_queues =>
      for_each list_of_queues (λ local_queue_ref,
        local_queue ← weak_ref_call local_queue_ref;
        local_queue ← assert_not_None local_queue;
        put_nowait local_queue args)
  end.

(** The garbage collector reclaiming the queue behind [queue_ref]: the
    queue is gone, then the weak reference's callback runs. *)
Definition collect (self : t) (queue_ref : addr) : M unit :=
  (λ w, (Ok tt, set_queues (<[queue_ref := None]> (queues w)) w)) ;;
  _cleanup_local_queue self queue_ref.
End DbusSignalBinded.

(** ** Class construction: [DbusInterfaceMeta] *)

(** What a class body can bind a name to, as far as the hook tells the
    cases apart: a [DbusSomething] object, a plain function, a function
    wrapped by [dbus_overload] (the marker is a decorator, so what it
    wraps is a function), anything else.  Among the rest, two kinds of
    object that a class can hold under the name of an instance
    attribute of [DbusInterfaceBase] are kept apart: a list of
    interface registrations and a dict of subscriber queues. *)
Inductive NsValue : Type :=
| NsDbus (a : addr)
| NsFunction (f : FunctionType)
| NsOverload (original : FunctionType)
| NsOther (v : PyValue)
| NsInterfaces (l : list SdBusInterface)
| NsQueues (table : gmap addr (list addr)).

(** A class: its name, its direct bases, the namespace it was built
    from, and the three entries the hook adds to that namespace.
    [_dbus_declared_interfaces] is [None] on a class the hook did not
    build. *)
Inductive PyClass : Type := MkClass {
  cls_name : string;
  cls_bases : list PyClass;
  cls_dict : list (string * NsValue);
  _dbus_declared_interfaces : option (gset string);
  _dbus_interface_name : option string;
  _dbus_serving_enabled : bool;
}.

(** [issubclass(c, DbusInterfaceBase)]: the class is the root class of
    the framework, known by its name, or one of its bases is a
    subclass. *)
Fixpoint issubclass_DbusInterfaceBase (c : PyClass) : bool :=
  match c with
  | MkClass name bases _ _ _ _ =>
      String.eqb name "DbusInterfaceBase"
      || existsb issubclass_DbusInterfaceBase bases
  end.

Fixpoint ns_lookup (key : string) (namespace : list (string * NsValue))
    : option NsValue :=
  match namespace with
  | [] => None
  | (k, v) :: rest => if String.eqb k key then Some v else ns_lookup key rest
  end.

(** What looking [name] up on the class finds: the binding of the
    class itself, else that of its bases.  The bases are gone through
    in their order, each with its own bases first, which is Python's
    resolution order in a hierarchy where no class is reached along
    two paths. *)
Fixpoint class_attr (name : string) (c : PyClass) : option NsValue :=
  match c with
  | MkClass _ bases namespace _ _ _ =>
      match ns_lookup name namespace with
      | Some v => Some v
      | None =>
          (fix first_of_bases (bases : list PyClass) : option NsValue :=
             match bases with
             | [] => None
             | base :: rest =>
                 match class_attr name base with
                 | Some v => Some v
                 | None => first_of_bases rest
                 end
             end) bases
      end
  end.

(** The value of a class attribute read as one of the instance
    attributes of [DbusInterfaceBase]. *)
Definition as_interfaces (v : option NsValue)
    : option (list SdBusInterface) :=
  match v with Some (NsInterfaces l) => Some l | _ => None end.

Definition as_queues (v : option NsValue) : option (gmap addr (list addr)) :=
  match v with Some (NsQueues table) => Some table | _ => None end.

Definition as_bool (v : option NsValue) : option bool :=
  match v with Some (NsOther (PyBool b)) => Some b | _ => None end.

Definition as_optional_str (v : option NsValue) : option (option string) :=
  match v with
  | Some (NsOther PyNone) => Some None
  | Some (NsOther (PyStr s)) => Some (Some s)
  | _ => None
  end.

Definition as_optional_bus (v : option NsValue) : option (option addr) :=
  match v with Some (NsOther PyNone) => Some None | _ => None end.

(** [namespace[key] = value] for a key the namespace has: the entry
    keeps its place. *)
Fixpoint ns_update (key : string) (value : NsValue)
    (namespace : list (string * NsValue)) : list (string * NsValue) :=
  match namespace with
  | [] => []
  | (k, v) :: rest =>
      if String.eqb k key then (k, value) :: rest
      else (k, v) :: ns_update key value rest
  end.

Definition is_overload (v : NsValue) : bool :=
  match v with NsOverload _ => true | _ => false end.

Definition update_descriptor (a : addr) (f : DbusSomething -> DbusSomething)
    : M unit := λ w,
  match descriptors w !! a with
  | Some d => (Ok tt, set_descriptors (<[a := f d]> (descriptors w)) w)
  | None => dangling w
  end.

Module DbusInterfaceMeta.

(** The first loop: stamp what the class body declares. *)
Fixpoint stamp_loop (items : list (string * NsValue))
    (interface_name : option string) (serving_enabled : bool)
    (declared_interfaces : gset string) : M (gset string) :=
  match items with
  | [] => mret declared_interfaces
  | (key, value) :: rest =>
      match value with
      | NsDbus a =>
          update_descriptor a (stamp interface_name serving_enabled) ;;
          stamp_loop rest interface_name serving_enabled
                     (declared_interfaces ∪ {[key]})
      | _ =>
          stamp_loop rest interface_name serving_enabled declared_interfaces
      end
  end.

(** The second loop: what the direct bases declared. *)
Fixpoint super_loop (bases : list PyClass)
    (super_declared_interfaces : gset string) : M (gset string) :=
  match bases with
  | [] => mret super_declared_interfaces
  | base :: rest =>
      if issubclass_DbusInterfaceBase base then
        match _dbus_declared_interfaces base with
        | Some declared =>
            super_loop rest (super_declared_interfaces ∪ declared)
        | None => raise (AttributeError "_dbus_declared_interfaces")
        end
      else super_loop rest super_declared_interfaces
  end.

(** [for base in bases: try: sc_dbus_def = base.__dict__[key]; break] *)
Fixpoint first_base_with (key : string) (bases : list PyClass)
    : option NsValue :=
  match bases with
  | [] => None
  | base :: rest =>
      match ns_lookup key (cls_dict base) with
      | Some v => Some v
      | None => first_base_with key rest
      end
  end.

Definition overload_message : string :=
  "Attempted to overload dbus defenition without using @dbus_overload decorator".

(** The third loop, over the keys of the namespace that a base
    declared.  Python walks the intersection of a set and the keys in
    an order of its own; here it is the order of the namespace.  The
    local [sc_dbus_def] outlives an iteration, so it is carried
    along. *)
Fixpoint overload_loop (bases : list PyClass) (keys : list string)
    (namespace : list (string * NsValue)) (declared_interfaces : gset string)
    (sc_dbus_def : option NsValue)
    : M (list (string * NsValue) * gset string) :=
  match keys with
  | [] => mret (namespace, declared_interfaces)
  | key :: rest =>
      match ns_lookup key namespace with
      | Some (NsOverload original) =>
          let sc_dbus_def :=
            match first_base_with key bases with
            | Some v => Some v
            | None => sc_dbus_def
            end in
          match sc_dbus_def with
          | None => raise (UnboundLocalError "sc_dbus_def")
          | Some (NsDbus a) =>
              d ← descriptor_at a;
              new_dbus_def ← new_descriptor d;
              match d with
              | Method m =>
                  update_descriptor new_dbus_def (λ _,
                    Method (DbusMethod.with_original_method original m)) ;;
                  overload_loop bases rest
                    (ns_update key (NsDbus new_dbus_def) namespace)
                    (declared_interfaces ∪ {[key]}) sc_dbus_def
              | _ => raise (TypeError "")
              end
          | Some _ => raise AssertionError
          end
      | _ => raise (TypeError overload_message)
      end
  end.

(** The hook.  Its last step, [super().__new__(cls, name, bases,
    namespace)], belongs to the interpreter, which builds the class or
    refuses the bases (a duplicate base, bases it cannot linearise);
    here the class is built.  What is proved of class statements that
    get that far is proved of those that return a class. *)
Definition __new__ (name : string) (bases : list PyClass)
    (namespace : list (string * NsValue)) (interface_name : option string)
    (serving_enabled : bool) : M PyClass :=
  declared_interfaces ←
    stamp_loop namespace interface_name serving_enabled ∅;
  super_declared_interfaces ← super_loop bases ∅;
  let keys :=
    filter (λ key, key ∈ super_declared_interfaces) (namespace.*1) in
  '(namespace, declared_interfaces) ←
    overload_loop bases keys namespace declared_interfaces None;
  mret {| cls_name := name; cls_bases := bases; cls_dict := namespace;
          _dbus_declared_interfaces := Some declared_interfaces;
          _dbus_interface_name := interface_name;
          _dbus_serving_enabled := serving_enabled |}.

End DbusInterfaceMeta.

(** The decorators, which create the descriptor objects. *)
Definition dbus_method (method_name : option string)
    (input_signature result_signature : string)
    (result_args_names : list string) (flags : Z)
    (async_function : FunctionType) : M addr :=
  new_wrapper ← lift (DbusMethod.__init__ async_function method_name
                        input_signature result_signature
                        result_args_names flags);
  new_descriptor (Method new_wrapper).

Definition dbus_property (property_signature : string)
    (property_name : option string) (flags : Z) (function : FunctionType)
    : M addr :=
  property_name ←
    match property_name with
    | None => lift (NameMapper._method_name_converter (__name__ function))
    | Some name => mret name
    end;
  new_descriptor
    (Property (DbusProperty.__init__ property_name property_signature
                                     function None flags)).

Definition dbus_overload (new_function : FunctionType) : NsValue :=
  NsOverload new_function.

(** ** The base interface object: [DbusInterfaceBase] *)

(** What attribute access on an instance yields for a class attribute:
    the descriptors' [__get__] wrap themselves with the instance. *)
Inductive Member : Type :=
| MethodMember (b : DbusMethodBinded.t)
| PropertyMember (b : DbusPropertyBinded.t)
| SignalMember (b : DbusSignalBinded.t)
| OtherMember.

Definition __get__ (self obj : addr) : M Member :=
  d ← descriptor_at self;
  mret match d with
       | Method _ =>
           MethodMember {| DbusMethodBinded.dbus_method := self;
                           DbusMethodBinded.interface := obj |}
       | Property _ =>
           PropertyMember {| DbusPropertyBinded.dbus_property := self;
                             DbusPropertyBinded.interface := obj |}
       | Signal _ =>
           SignalMember {| DbusSignalBinded.dbus_signal := self;
                           DbusSignalBinded.interface := obj |}
       end.

(** [inspect.getmembers(obj)] given [attrs], the attributes the object
    has through its class, in the order of their names. *)
Fixpoint getmembers (attrs : list (string * NsValue)) (obj : addr)
    : M (list (string * Member)) :=
  match attrs with
  | [] => mret []
  | (key, NsDbus a) :: rest =>
      value ← __get__ a obj;
      members ← getmembers rest obj;
      mret ((key, value) :: members)
  | (key, _) :: rest =>
      members ← getmembers rest obj;
      mret ((key, OtherMember) :: members)
  end.

Module DbusInterfaceBase.

(** An object to which nothing was assigned yet.  Reading an
    attribute of it finds what the class holds under that name, if the
    class holds something: the record has what the object sees.  (An
    object that changes a list or dict of its class in place changes
    it for the other objects of the class as well; the record follows
    the one object.) *)
Definition fresh_object (cls : PyClass) : Instance :=
  {| ob_type := cls_name cls;
     activated_interfaces :=
       as_interfaces (class_attr "activated_interfaces" cls);
     is_binded := as_bool (class_attr "is_binded" cls);
     remote_service_name :=
       as_optional_str (class_attr "remote_service_name" cls);
     remote_object_path :=
       as_optional_str (class_attr "remote_object_path" cls);
     attached_bus := as_optional_bus (class_attr "attached_bus" cls);
     serving_object_path :=
       as_optional_str (class_attr "serving_object_path" cls);
     _local_signal_queues :=
       as_queues (class_attr "_local_signal_queues" cls);
     user_state := ∅ |}.


(** [cls.__new__(cls)]: an object with no attribute set. *)
Definition object__new__ (cls : PyClass) : M addr :=
  new_instance (fresh_object cls).

Definition __init__ (self : addr) : M unit :=
  update_instance self (λ i,
    {| ob_type := ob_type i;
       activated_interfaces := Some [];
       is_binded := Some false;
       remote_service_name := Some None;
       remote_object_path := Some None;
       attached_bus := Some None;
       serving_object_path := Some None;
       _local_signal_queues := Some ∅;
       user_state := user_state i |}).

(** [cls()] *)
Definition construct (cls : PyClass) : M addr :=
  self ← object__new__ cls;
  __init__ self ;;
  mret self.

Fixpoint map_lookup {V} (key : string) (m : list (string * V)) : option V :=
  match m with
  | [] => None
  | (k, v) :: rest => if String.eqb k key then Some v else map_lookup key rest
  end.

(** [interface_map[interface_name].append(value)], the list being created
    at the end of the dict when the key is new. *)
Fixpoint map_append (key : string) (value : Member)
    (m : list (string * list Member)) : list (string * list Member) :=
  match m with
  | [] => [(key, [value])]
  | (k, l) :: rest =>
      if String.eqb k key then (k, (l ++ [value])%list) :: rest
      else (k, l) :: map_append key value rest
  end.

(** The first loop of [start_serving]. *)
Fixpoint group_loop (members : list (string * Member))
    (interface_map : list (string * list Member))
    : M (list (string * list Member)) :=
  match members with
  | [] => mret interface_map
  | (key, value) :: rest =>
      match value with
      | MethodMember b =>
          m ← method_at (DbusMethodBinded.dbus_method b);
          if negb (DbusMethod.serving_enabled m) then
            group_loop rest interface_map
          else
            interface_name ← assert_not_None (DbusMethod.interface_name m);
            group_loop rest (map_append interface_name value interface_map)
      | PropertyMember b =>
          p ← property_at (DbusPropertyBinded.dbus_property b);
          if negb (DbusProperty.serving_enabled p) then
            group_loop rest interface_map
          else
            interface_name ← assert_not_None (DbusProperty.interface_name p);
            group_loop rest (map_append interface_name value interface_map)
      | _ => group_loop rest interface_map
      end
  end.

(** The inner loop of the second loop: one [add_...] per member. *)
Fixpoint fill_interface (member_list : list Member)
    (new_interface : SdBusInterface) : M SdBusInterface :=
  match member_list with
  | [] => mret new_interface
  | dbus_something :: rest =>
      match dbus_something with
      | MethodMember b =>
          m ← method_at (DbusMethodBinded.dbus_method b);
          fill_interface rest
            (new_interface ++
             [add_method (DbusMethod.method_name m)
                (DbusMethod.input_signature m)
                (DbusMethod.input_args_names m)
                (DbusMethod.result_signature m)
                (DbusMethod.result_args_names m)
                (DbusMethod.flags m)
                (CallFromDbus (DbusMethodBinded.dbus_method b)
                              (DbusMethodBinded.interface b))])%list
      | PropertyMember b =>
          p ← property_at (DbusPropertyBinded.dbus_property b);
          fill_interface rest
            (new_interface ++
             [add_property (DbusProperty.property_name p)
                (DbusProperty.property_signature p)
                (GetSync (DbusPropertyBinded.dbus_property b)
                         (DbusPropertyBinded.interface b))
                (match DbusProperty.property_set p with
                 | Some _ =>
                     Some (SetSync (DbusPropertyBinded.dbus_property b)
                                   (DbusPropertyBinded.interface b))
                 | None => None
                 end)
                (DbusProperty.flags p)])%list
      | SignalMember b =>
          s ← signal_at (DbusSignalBinded.dbus_signal b);
          fill_interface rest
            (new_interface ++
             [add_signal (DbusSignal.signal_name s)
                (DbusSignal.signature s)
                (DbusSignal.args_names s)
                (DbusSignal.flags s)])%list
      | OtherMember => raise (TypeError "")
      end
  end.

Definition append_activated (self : addr) (new_interface : SdBusInterface)
    : M unit :=
  activated ← getattr self "activated_interfaces" activated_interfaces;
  update_instance self (λ i,
    {| ob_type := ob_type i;
       activated_interfaces := Some (activated ++ [new_interface])%list;
       is_binded := is_binded i;
       remote_service_name := remote_service_name i;
       remote_object_path := remote_object_path i;
       attached_bus := attached_bus i;
       serving_object_path := serving_object_path i;
       _local_signal_queues := _local_signal_queues i;
       user_state := user_state i |}).

(** The second loop of [start_serving]. *)
Fixpoint register_loop (self bus : addr) (object_path : string)
    (interface_map : list (string * list Member)) : M unit :=
  match interface_map with
  | [] => mret tt
  | (interface_name, member_list) :: rest =>
      new_interface ← fill_interface member_list [];
      bus_do (add_interface bus new_interface object_path interface_name) ;;
      append_activated self new_interface ;;
      register_loop self bus object_path rest
  end.

(** [start_serving], with [attrs] what [getmembers(self)] goes through. *)
Definition start_serving (self : addr) (attrs : list (string * NsValue))
    (bus : addr) (object_path : string) : M unit :=
  update_instance self (λ i,
    {| ob_type := ob_type i;
       activated_interfaces := activated_interfaces i;
       is_binded := is_binded i;
       remote_service_name := remote_service_name i;
       remote_object_path := remote_object_path i;
       attached_bus := Some (Some bus);
       serving_object_path := Some (Some object_path);
       _local_signal_queues := _local_signal_queues i;
       user_state := user_state i |}) ;;
  members ← getmembers attrs self;
  interface_map ← group_loop members [];
  register_loop self bus object_path interface_map.

Definition _connect (self bus : addr) (service_name object_path : string)
    : M unit :=
  update_instance self (λ i,
    {| ob_type := ob_type i;
       activated_interfaces := activated_interfaces i;
       is_binded := Some true;
       remote_service_name := Some (Some service_name);
       remote_object_path := Some (Some object_path);
       attached_bus := Some (Some bus);
       serving_object_path := serving_object_path i;
       _local_signal_queues := _local_signal_queues i;
       user_state := user_state i |}).

(** The class method [new_connect].  Its second assertion,
    [isinstance(new_object, cls)], holds of what [cls.__new__(cls)]
    returns. *)
Definition new_connect (cls : PyClass) (bus : addr)
    (service_name object_path : string) : M addr :=
  new_object ← object__new__ cls;
  assert (issubclass_DbusInterfaceBase cls) ;;
  _connect new_object bus service_name object_path ;;
  mret new_object.

End DbusInterfaceBase.

(** ** What the specification asks of the dispatch entry point *)


(** The arguments [_call_from_dbus] calls the local method with. *)
Definition request_args (request_data : PyValue) : list PyValue :=
  match request_data with
  | PyTuple items => items
  | PyNone => []
  | _ => [request_data]
  end.

(** ** What the specification asks of argument reconstruction *)

Module ArgumentSpec.
Import DbusMethod.

(** The default the function declares for the parameter in slot [i],
    slots counted from the first parameter after the receiver. *)
Definition declared_default (m : DbusMethod.t) (i : nat) : option PyValue :=
  if (default_args_start_at m <=? Z.of_nat i)%Z
  then args_defaults m !! (i - Z.to_nat (default_args_start_at m))%nat
  else None.

Definition first_of (a b c : option PyValue) : option PyValue :=
  match a with
  | Some v => Some v
  | None => match b with Some v => Some v | None => c end
  end.

(** The slot as the claim words it: the supplied positional argument,
    else the supplied keyword argument, else the declared default. *)
Definition claimed_slot (m : DbusMethod.t) (args : list PyValue)
    (kwargs : gmap string PyValue) (i : nat) (a_name : string)
    : option PyValue :=
  first_of (args !! i) (kwargs !! a_name) (declared_default m i).

(** The same with a candidate that is [None] counted as missing. *)
Definition not_None (v : option PyValue) : option PyValue :=
  match v with
  | Some PyNone => None
  | _ => v
  end.

Definition resolved_slot (m : DbusMethod.t) (args : list PyValue)
    (kwargs : gmap string PyValue) (i : nat) (a_name : string)
    : option PyValue :=
  first_of (not_None (args !! i)) (not_None (kwargs !! a_name))
           (not_None (declared_default m i)).

(** All slots from [i] on, or [None] when one of them has nothing. *)
Fixpoint all_slots (slot : nat -> string -> option PyValue) (i : nat)
    (names : list string) : option (list PyValue) :=
  match names with
  | [] => Some []
  | a_name :: rest =>
      match slot i a_name, all_slots slot (S i) rest with
      | Some v, Some l => Some (v :: l)
      | _, _ => None
      end
  end.

Definition claimed_args (m : DbusMethod.t) (args : list PyValue)
    (kwargs : gmap string PyValue) : option (list PyValue) :=
  all_slots (claimed_slot m args kwargs) 0 (args_names m).

Definition resolved_args (m : DbusMethod.t) (args : list PyValue)
    (kwargs : gmap string PyValue) : option (list PyValue) :=
  all_slots (resolved_slot m args kwargs) 0 (args_names m).

(** The claim about a call whose argument count is not the full one:
    the list sent is the claimed one, and there is an error when the
    claimed resolution has none. *)
Definition rebuilds_as_claimed (m : DbusMethod.t) (args : list PyValue)
    (kwargs : gmap string PyValue) (r : Result (list PyValue)) : Prop :=
  match claimed_args m args kwargs with
  | Some l => r = Ok l
  | None => ∃ e, r = Raise e
  end.

(** The descriptor's derived fields as [DbusMethod.__init__] sets them
    from a function whose receiver has no default. *)
Definition derived_fields (m : DbusMethod.t) : Prop :=
  args_names m = tail (FullArgSpec.args (args_spec m))
  ∧ num_of_args m = Z.of_nat (length (args_names m))
  ∧ default_args_start_at m
    = (num_of_args m - Z.of_nat (length (args_defaults m)))%Z
  ∧ (0 <= default_args_start_at m)%Z.

(** The request a proxy sends for a call with the positional list
    [l]. *)
Definition call_message (m : DbusMethod.t) (service path name : string)
    (l : list PyValue) : SdBusMessage :=
  let message := new_message MethodCall (Some service) path name
                             (method_name m) in
  match l with
  | [] => message
  | _ => append_data (input_signature m) l message
  end.

(** What sending [message] over [bus] and awaiting the reply comes to:
    the peer's answer, and one more request in the log. *)
Definition request_outcome (w : World) (bus : addr)
    (message : SdBusMessage) : Result PyValue * World :=
  (match peer_reply w message with
   | Ok reply => Ok (msg_contents reply)
   | Raise e => Raise e
   end,
   set_bus_log (bus_log w ++ [call_async bus message])%list w).

(** What a proxy's call with the positional list [l] comes to: the
    request goes out when the method has an interface name, and the
    call fails an assertion, nothing sent, when it has none. *)
Definition proxy_outcome (w : World) (m : DbusMethod.t) (bus : addr)
    (service path : string) (l : list PyValue) : Result PyValue * World :=
  match interface_name m with
  | Some name => request_outcome w bus (call_message m service path name l)
  | None => (Raise AssertionError, w)
  end.

(** An instance connected as a proxy. *)
Definition proxy_bound (i : Instance) (bus : addr) (service path : string)
    : Prop :=
  is_binded i = Some true
  ∧ attached_bus i = Some (Some bus)
  ∧ remote_service_name i = Some (Some service)
  ∧ remote_object_path i = Some (Some path).

End ArgumentSpec.

(** ** What the specification asks of signal emission *)

Module EmitSpec.
Import DbusSignal DbusSignalBinded.

(** The queue at [q] has not been collected. *)
Definition live (qs : list (option (list PyValue))) (q : addr) : Prop :=
  ∃ items, qs !! q = Some (Some items).

(** The signal message [_emit_message] builds. *)
Definition signal_message (s : DbusSignal.t) (path name : string)
    (args : PyValue) : SdBusMessage :=
  let message := new_message SignalMessage None path name (signal_name s) in
  match args with
  | PyTuple items =>
      if negb (starts_with_paren (signature s))
      then append_data (signature s) items message
      else append_data (signature s) [args] message
  | _ => append_data (signature s) [args] message
  end.

(** One more item at the end of each listed queue, once for every time
    the queue is listed. *)
Fixpoint deliver (args : PyValue) (refs : list addr)
    (qs : list (option (list PyValue))) : list (option (list PyValue)) :=
  match refs with
  | [] => qs
  | r :: rest =>
      deliver args rest
        match qs !! r with
        | Some (Some items) => <[r := Some (items ++ [args])%list]> qs
        | _ => qs
        end
  end.

(** The claim about one emission: a signal message goes out exactly
    when the instance has an active registration, and whatever the
    activation every live queue subscribed to the signal receives the
    value. *)
Definition emits_as_claimed (self : DbusSignalBinded.t) (args : PyValue)
    (w : World) : Prop :=
  ∀ i activated table,
    instances w !! interface self = Some i ->
    activated_interfaces i = Some activated ->
    _local_signal_queues i = Some table ->
    let w' := snd (emit self args w) in
    (activated ≠ [] ↔ ∃ message, bus_log w' = (bus_log w ++ [send message])%list)
    ∧ ∀ q items,
        q ∈ default [] (table !! dbus_signal self) ->
        queues w !! q = Some (Some items) ->
        ∃ items', queues w' !! q = Some (Some (items ++ args :: items')%list).

(** What reaches the bus engine in one emission. *)
Definition emitted (activated : list SdBusInterface) (s : DbusSignal.t)
    (path name : string) (args : PyValue) : list BusAction :=
  match activated with
  | [] => []
  | _ => [send (signal_message s path name args)]
  end.

(** How many times [q] is listed in [refs]. *)
Definition occurrences (q : addr) (refs : list addr) : nat :=
  length (filter (λ r, r = q) refs).

(** The local subscriptions of the object at [obj] are in order: every
    listed weak reference is live, no list has a reference twice, and
    no reference is in the lists of two signals. *)
Definition subscribers_live (w : World) (obj : addr) : Prop :=
  ∃ i table,
    instances w !! obj = Some i
    ∧ _local_signal_queues i = Some table
    ∧ (∀ signal refs, table !! signal = Some refs ->
         NoDup refs ∧ Forall (live (queues w)) refs)
    ∧ (∀ s1 s2 r1 r2 q,
         table !! s1 = Some r1 -> table !! s2 = Some r2 ->
         q ∈ r1 -> q ∈ r2 -> s1 = s2).

(** [q] is listed for [signal] on the object at [obj]. *)
Definition subscribed (w : World) (obj signal q : addr) : Prop :=
  ∃ i table refs,
    instances w !! obj = Some i
    ∧ _local_signal_queues i = Some table
    ∧ table !! signal = Some refs
    ∧ q ∈ refs.

(** The computation changes no object, collects no queue and revives
    none. *)
Definition gentle {A} (m : M A) : Prop :=
  ∀ w, instances (snd (m w)) = instances w
       ∧ (∀ q, live (queues w) q -> live (queues (snd (m w))) q)
       ∧ (∀ q, queues w !! q = Some None ->
               queues (snd (m w)) !! q = Some None).

End EmitSpec.

(** ** What the specification asks of serving *)

Module ServeSpec.

Definition is_signal_entry (entry : InterfaceEntry) : bool :=
  match entry with
  | add_signal _ _ _ _ => true
  | _ => false
  end.

Definition is_signal_member (member : Member) : bool :=
  match member with
  | SignalMember _ => true
  | _ => false
  end.

(** The registrations among the requests made to the bus engine. *)
Definition registered (log : list BusAction) : list SdBusInterface :=
  omap (λ action,
          match action with
          | add_interface _ interface _ _ => Some interface
          | _ => None
          end) log.

(** A registered interface that carries a signal. *)
Definition registers_a_signal (log : list BusAction) : bool :=
  existsb (existsb is_signal_entry) (registered log).

Definition signal_free (interface : SdBusInterface) : Prop :=
  existsb is_signal_entry interface = false.

Definition no_signal_member (member_list : list Member) : Prop :=
  existsb is_signal_member member_list = false.

End ServeSpec.

(** ** The operations of the layer *)

(** What application code and the bus engine can do once classes exist:
    the operations of the bound members and of the instances, the
    garbage collector's reclaiming of a subscriber's queue, the
    decorators and a further class statement, and [DbusProperty.setter]. *)
Inductive Operation : Type :=
| OpCall (self : DbusMethodBinded.t) (args : list PyValue)
         (kwargs : gmap string PyValue)
| OpCallFromDbus (self : DbusMethodBinded.t) (request_message : SdBusMessage)
| OpGetSync (self : DbusPropertyBinded.t)
| OpSetSync (self : DbusPropertyBinded.t) (complete_object : PyValue)
| OpGetAsync (self : DbusPropertyBinded.t)
| OpSetAsync (self : DbusPropertyBinded.t) (complete_object : PyValue)
| OpIterate (self : DbusSignalBinded.t)
| OpEmit (self : DbusSignalBinded.t) (args : PyValue)
| OpCollect (self : DbusSignalBinded.t) (queue_ref : addr)
| OpConstruct (cls : PyClass)
| OpStartServing (self : addr) (attrs : list (string * NsValue)) (bus : addr)
                 (object_path : string)
| OpConnect (self bus : addr) (service_name object_path : string)
| OpNewConnect (cls : PyClass) (bus : addr) (service_name object_path : string)
| OpDbusMethod (method_name : option string)
               (input_signature result_signature : string)
               (result_args_names : list string) (flags : Z)
               (async_function : FunctionType)
| OpDbusProperty (property_signature : string) (property_name : option string)
                 (flags : Z) (function : FunctionType)
| OpClass (name : string) (bases : list PyClass)
          (namespace : list (string * NsValue))
          (interface_name : option string) (serving_enabled : bool)
| OpSetter (self : addr) (new_set_function : FunctionType).

(** An operation for its effect, whatever it returns. *)
Definition discard {A} (m : M A) : M unit := m ;; mret tt.

Definition run (op : Operation) : M unit :=
  match op with
  | OpCall self args kwargs =>
      discard (DbusMethodBinded.__call__ self args kwargs)
  | OpCallFromDbus self request_message =>
      DbusMethodBinded._call_from_dbus self request_message
  | OpGetSync self => discard (DbusPropertyBinded.get_sync self)
  | OpSetSync self complete_object =>
      DbusPropertyBinded.set_sync self complete_object
  | OpGetAsync self => discard (DbusPropertyBinded.get_async self)
  | OpSetAsync self complete_object =>
      DbusPropertyBinded.set_async self complete_object
  | OpIterate self => discard (DbusSignalBinded.__aiter__ self)
  | OpEmit self args => DbusSignalBinded.emit self args
  | OpCollect self queue_ref => DbusSignalBinded.collect self queue_ref
  | OpConstruct cls => discard (DbusInterfaceBase.construct cls)
  | OpStartServing self attrs bus object_path =>
      DbusInterfaceBase.start_serving self attrs bus object_path
  | OpConnect self bus service_name object_path =>
      DbusInterfaceBase._connect self bus service_name object_path
  | OpNewConnect cls bus service_name object_path =>
      discard (DbusInterfaceBase.new_connect cls bus service_name object_path)
  | OpDbusMethod method_name input_signature result_signature
                 result_args_names flags async_function =>
      discard (dbus_method method_name input_signature result_signature
                           result_args_names flags async_function)
  | OpDbusProperty property_signature property_name flags function =>
      discard (dbus_property property_signature property_name flags function)
  | OpClass name bases namespace interface_name serving_enabled =>
      discard (DbusInterfaceMeta.__new__ name bases namespace interface_name
                                         serving_enabled)
  | OpSetter self new_set_function =>
      DbusProperty_setter self new_set_function
  end.

(** The class body binds a name to the descriptor at [a]. *)
Definition binds (namespace : list (string * NsValue)) (a : addr) : bool :=
  existsb (λ entry, match entry.2 with
                    | NsDbus a' => (a' =? a)%nat
                    | _ => false
                    end) namespace.

(** The operations that assign to a field of the descriptor at [a]: the
    class statement whose body declares it, and [setter] on it. *)
Definition assigns_to (op : Operation) (a : addr) : bool :=
  match op with
  | OpClass _ _ namespace _ _ => binds namespace a
  | OpSetter self _ => (self =? a)%nat
  | _ => false
  end.

(** The computation leaves every descriptor that exists as it is; it
    leaves the descriptor at [a] as it is. *)
Definition keeps {A} (m : M A) : Prop :=
  ∀ w a d, descriptors w !! a = Some d ->
           descriptors (snd (m w)) !! a = Some d.

Definition keeps_at {A} (a : addr) (m : M A) : Prop :=
  ∀ w d, descriptors w !! a = Some d ->
         descriptors (snd (m w)) !! a = Some d.

(** The claim that no operation changes a descriptor that exists. *)
Definition descriptors_frozen (w : World) : Prop :=
  ∀ op a d,
    descriptors w !! a = Some d ->
    descriptors (snd (run op w)) !! a = Some d.

(** ** Sample objects *)

Module Samples.

Definition no_peer : SdBusMessage -> Result SdBusMessage :=
  λ request, Ok (create_reply request).

(** [def test_method(self): raise NotImplementedError] *)
Definition test_method : FunctionType :=
  {| __name__ := "test_method"; co_args := ["self"]; co_defaults := None;
     co_coroutine := false;
     body := λ i _ _, (Raise NotImplementedError, i) |}.

(** [def test_property(self): return "test"] *)
Definition test_property : FunctionType :=
  {| __name__ := "test_property"; co_args := ["self"]; co_defaults := None;
     co_coroutine := false;
     body := λ i _ _, (Ok (PyStr "test"), i) |}.

(** [async def double(self, x): self.last = x; return 2 * x] *)
Definition double : FunctionType :=
  {| __name__ := "double"; co_args := ["self"; "x"]; co_defaults := None;
     co_coroutine := true;
     body := λ i args _,
       match args with
       | [PyInt x] =>
           (Ok (PyInt (2 * x)),
            {| ob_type := ob_type i;
               activated_interfaces := activated_interfaces i;
               is_binded := is_binded i;
               remote_service_name := remote_service_name i;
               remote_object_path := remote_object_path i;
               attached_bus := attached_bus i;
               serving_object_path := serving_object_path i;
               _local_signal_queues := _local_signal_queues i;
               user_state := <["last" := PyInt x]> (user_state i) |})
       | _ => (Raise (TypeError "double() takes one int"), i)
       end |}.

Definition method_of (f : FunctionType) (name : string) : DbusMethod.t :=
  {| DbusMethod.interface_name := Some "org.example.Test";
     DbusMethod.serving_enabled := true;
     DbusMethod.original_method := f;
     DbusMethod.args_spec := getfullargspec f;
     DbusMethod.args_names := tail (co_args f);
     DbusMethod.num_of_args := Z.of_nat (length (tail (co_args f)));
     DbusMethod.args_defaults := default [] (co_defaults f);
     DbusMethod.default_args_start_at :=
       (Z.of_nat (length (tail (co_args f)))
        - Z.of_nat (length (default [] (co_defaults f))))%Z;
     DbusMethod.method_name := name;
     DbusMethod.input_signature := ""; DbusMethod.input_args_names := "";
     DbusMethod.result_signature := ""; DbusMethod.result_args_names := [];
     DbusMethod.flags := 0 |}.

Definition read_only_property : DbusProperty.t :=
  {| DbusProperty.interface_name := Some "org.example.Test";
     DbusProperty.serving_enabled := true;
     DbusProperty.property_name := "TestProperty";
     DbusProperty.property_signature := "s";
     DbusProperty.property_get := test_property;
     DbusProperty.property_set := None;
     DbusProperty.flags := 0 |}.

(** An object as [__init__] leaves it. *)
Definition unbound_object : Instance :=
  {| ob_type := "GoodDbusInterface";
     activated_interfaces := Some []; is_binded := Some false;
     remote_service_name := Some None; remote_object_path := Some None;
     attached_bus := Some None; serving_object_path := Some None;
     _local_signal_queues := Some ∅; user_state := ∅ |}.

(** Descriptors: 0 [test_method], 1 [test_property], 2 [double];
    one object, unbound. *)
Definition local_world : World :=
  {| descriptors := [Method (method_of test_method "TestMethod");
                     Property read_only_property;
                     Method (method_of double "Double")];
     instances := [unbound_object];
     queues := []; bus_log := []; peer_reply := no_peer |}.


Definition bound_test_property : DbusPropertyBinded.t :=
  {| DbusPropertyBinded.dbus_property := 1;
     DbusPropertyBinded.interface := 0 |}.

Definition bound_double : DbusMethodBinded.t :=
  {| DbusMethodBinded.dbus_method := 2; DbusMethodBinded.interface := 0 |}.

(** [async def four(self, a, b, c=1, d=2)] *)
Definition four : FunctionType :=
  {| __name__ := "four"; co_args := ["self"; "a"; "b"; "c"; "d"];
     co_defaults := Some [PyInt 1; PyInt 2]; co_coroutine := true;
     body := λ i _ _, (Ok PyNone, i) |}.

(** [async def opt(self, a, b=None)] *)
Definition opt : FunctionType :=
  {| __name__ := "opt"; co_args := ["self"; "a"; "b"];
     co_defaults := Some [PyNone]; co_coroutine := true;
     body := λ i _ _, (Ok PyNone, i) |}.

(** An object as [new_connect] leaves it. *)
Definition proxy_object : Instance :=
  {| ob_type := "GoodDbusInterface";
     activated_interfaces := None; is_binded := Some true;
     remote_service_name := Some (Some "org.example");
     remote_object_path := Some (Some "/");
     attached_bus := Some (Some 0%nat); serving_object_path := None;
     _local_signal_queues := None; user_state := ∅ |}.

(** Descriptors: 0 [four], 1 [opt]; one object, a proxy. *)
Definition proxy_world : World :=
  {| descriptors := [Method (method_of four "Four");
                     Method (method_of opt "Opt")];
     instances := [proxy_object];
     queues := []; bus_log := []; peer_reply := no_peer |}.

Definition bound_four : DbusMethodBinded.t :=
  {| DbusMethodBinded.dbus_method := 0; DbusMethodBinded.interface := 0 |}.

Definition bound_opt : DbusMethodBinded.t :=
  {| DbusMethodBinded.dbus_method := 1; DbusMethodBinded.interface := 0 |}.

(** An attribute whose value plays no part in class construction. *)
Definition some_attribute : NsValue := NsOther PyNone.

(** The root class of the framework. *)
Definition DbusInterfaceBase_class : PyClass :=
  {| cls_name := "DbusInterfaceBase"; cls_bases := [];
     cls_dict := [("__init__", some_attribute);
                  ("start_serving", some_attribute);
                  ("_connect", some_attribute);
                  ("new_connect", some_attribute)];
     _dbus_declared_interfaces := Some ∅;
     _dbus_interface_name := None;
     _dbus_serving_enabled := true |}.

(** [class ServedBase(DbusInterfaceBase, interface_name='org.example.Test')]
    declares the method [double], the signal [changed] and the property
    [test_property]; [class Served(ServedBase)], which is given no
    interface name, adds the signal [orphan]. *)
Definition changed_signal : DbusSignal.t :=
  {| DbusSignal.interface_name := Some "org.example.Test";
     DbusSignal.serving_enabled := true;
     DbusSignal.signal_name := "Changed";
     DbusSignal.signature := "i";
     DbusSignal.args_names := ["value"];
     DbusSignal.flags := 0 |}.

Definition orphan_signal : DbusSignal.t :=
  {| DbusSignal.interface_name := None;
     DbusSignal.serving_enabled := true;
     DbusSignal.signal_name := "Orphan";
     DbusSignal.signature := "i";
     DbusSignal.args_names := ["value"];
     DbusSignal.flags := 0 |}.

Definition ServedBase_class : PyClass :=
  {| cls_name := "ServedBase"; cls_bases := [DbusInterfaceBase_class];
     cls_dict := [("double", NsDbus 0); ("changed", NsDbus 1);
                  ("test_property", NsDbus 3)];
     _dbus_declared_interfaces :=
       Some (∅ ∪ {["double"]} ∪ {["changed"]} ∪ {["test_property"]});
     _dbus_interface_name := Some "org.example.Test";
     _dbus_serving_enabled := true |}.

Definition Served_class : PyClass :=
  {| cls_name := "Served"; cls_bases := [ServedBase_class];
     cls_dict := [("orphan", NsDbus 2)];
     _dbus_declared_interfaces := Some (∅ ∪ {["orphan"]});
     _dbus_interface_name := None;
     _dbus_serving_enabled := true |}.

(** The statements that declare the two classes. *)
Definition declare_served : M PyClass :=
  base ← DbusInterfaceMeta.__new__ "DbusInterfaceBase" []
           [("__init__", some_attribute);
            ("start_serving", some_attribute);
            ("_connect", some_attribute);
            ("new_connect", some_attribute)] None true;
  double ← dbus_method None "" "" [] 0 double;
  changed ← new_descriptor (Signal (DbusSignal.__init__ "Changed" "i" ["value"] 0));
  orphan ← new_descriptor (Signal (DbusSignal.__init__ "Orphan" "i" ["value"] 0));
  test_property ← dbus_property "s" None 0 test_property;
  served_base ← DbusInterfaceMeta.__new__ "ServedBase" [base]
           [("double", NsDbus double); ("changed", NsDbus changed);
            ("test_property", NsDbus test_property)]
           (Some "org.example.Test") true;
  DbusInterfaceMeta.__new__ "Served" [served_base] [("orphan", NsDbus orphan)]
    None true.

(** The world they leave.  Descriptors: 0 [double], 1 [changed],
    2 [orphan], 3 [test_property]; no object yet. *)
Definition declared_world : World :=
  {| descriptors := [Method (method_of double "Double");
                     Signal changed_signal;
                     Signal orphan_signal;
                     Property read_only_property];
     instances := []; queues := []; bus_log := [];
     peer_reply := no_peer |}.

(** What [getmembers] goes through on an object of the class. *)
Definition served_attrs : list (string * NsValue) :=
  [("activated_interfaces", some_attribute);
   ("changed", NsDbus 1);
   ("double", NsDbus 0);
   ("orphan", NsDbus 2);
   ("test_property", NsDbus 3)].

(** [obj = Served(); await obj.start_serving(bus, '/obj')] *)
Definition serve : M addr :=
  obj ← DbusInterfaceBase.construct Served_class;
  DbusInterfaceBase.start_serving obj served_attrs 0 "/obj" ;;
  mret obj.

Definition bound_changed : DbusSignalBinded.t :=
  {| DbusSignalBinded.dbus_signal := 1; DbusSignalBinded.interface := 0 |}.

Definition bound_orphan : DbusSignalBinded.t :=
  {| DbusSignalBinded.dbus_signal := 2; DbusSignalBinded.interface := 0 |}.

(** The same, followed by one local subscription to each signal. *)
Definition serve_and_subscribe : M unit :=
  serve ;;
  DbusSignalBinded._get_local_queue bound_changed ;;
  DbusSignalBinded._get_local_queue bound_orphan ;;
  mret tt.

Definition serving_world : World := snd (serve_and_subscribe declared_world).

(** [obj = Served()] and one local subscription to [changed], without
    any serving. *)
Definition subscribe_only : M unit :=
  DbusInterfaceBase.construct Served_class ;;
  DbusSignalBinded._get_local_queue bound_changed ;;
  mret tt.

Definition listening_world : World := snd (subscribe_only declared_world).

(** The object of [listening_world] and of [serving_world]. *)
Definition listening_object : Instance :=
  {| ob_type := "Served";
     activated_interfaces := Some [];
     is_binded := Some false;
     remote_service_name := Some None;
     remote_object_path := Some None;
     attached_bus := Some None;
     serving_object_path := Some None;
     _local_signal_queues := Some {[1%nat := [0%nat]]};
     user_state := ∅ |}.

Definition served_interface : SdBusInterface :=
  [add_method "Double" "" "" "" [] 0 (CallFromDbus 0 0);
   add_property "TestProperty" "s" (GetSync 3 0) None 0].

Definition serving_object : Instance :=
  {| ob_type := "Served";
     activated_interfaces := Some [served_interface];
     is_binded := Some false;
     remote_service_name := Some None;
     remote_object_path := Some None;
     attached_bus := Some (Some 0%nat);
     serving_object_path := Some (Some "/obj");
     _local_signal_queues :=
       Some (<[2%nat := [1%nat]]> {[1%nat := [0%nat]]});
     user_state := ∅ |}.

(** [async def name(self): raise NotImplementedError] and
    [def name(self): return None] *)
Definition not_implemented (name : string) : FunctionType :=
  {| __name__ := name; co_args := ["self"]; co_defaults := None;
     co_coroutine := true;
     body := λ i _ _, (Raise NotImplementedError, i) |}.

Definition plain (name : string) : FunctionType :=
  {| __name__ := name; co_args := ["self"]; co_defaults := None;
     co_coroutine := false;
     body := λ i _ _, (Ok PyNone, i) |}.

Definition blank_world : World :=
  {| descriptors := []; instances := []; queues := []; bus_log := [];
     peer_reply := no_peer |}.

(** The class statements of [dbus_proxy.py], in order, giving
    [DbusInterfaceCommon]. *)
Definition library_classes : M PyClass :=
  base ← DbusInterfaceMeta.__new__ "DbusInterfaceBase" []
           [("__init__", some_attribute);
            ("start_serving", some_attribute);
            ("_connect", some_attribute);
            ("new_connect", some_attribute)] None true;
  ping ← dbus_method None "" "" [] 0 (not_implemented "ping");
  get_machine_id ←
    dbus_method None "" "" [] 0 (not_implemented "get_machine_id");
  peer ← DbusInterfaceMeta.__new__ "DbusPeerInterface" [base]
           [("ping", NsDbus ping); ("get_machine_id", NsDbus get_machine_id)]
           (Some "org.freedesktop.DBus.Peer") false;
  introspect ← dbus_method None "" "" [] 0 (not_implemented "introspect");
  introspectable ← DbusInterfaceMeta.__new__ "DbusIntrospectable" [base]
           [("introspect", NsDbus introspect)]
           (Some "org.freedesktop.DBus.Introspectable") false;
  DbusInterfaceMeta.__new__ "DbusInterfaceCommon" [peer; introspectable]
    [] None true.

(** [GoodDbusInterface] of [test_sdbus_block_bad_class.py]. *)
Definition good_interface : M PyClass :=
  common ← library_classes;
  method ← dbus_method None "" "" [] 0 test_method;
  property ← dbus_property "s" None 0 test_property;
  DbusInterfaceMeta.__new__ "GoodDbusInterface" [common]
    [("test_method", NsDbus method); ("test_property", NsDbus property)]
    None true.

(** [class name(GoodDbusInterface)] with a body that binds [key] to a
    plain function, to a new dbus method, to a new dbus property. *)
Definition subclass_with_function (name key : string) : M PyClass :=
  good ← good_interface;
  DbusInterfaceMeta.__new__ name [good] [(key, NsFunction (plain key))]
    None true.

Definition subclass_with_dbus_method (name key : string) : M PyClass :=
  good ← good_interface;
  method ← dbus_method None "" "" [] 0 (plain key);
  DbusInterfaceMeta.__new__ name [good] [(key, NsDbus method)] None true.

Definition subclass_with_dbus_property (name key : string) : M PyClass :=
  good ← good_interface;
  property ← dbus_property "s" None 0 (plain key);
  DbusInterfaceMeta.__new__ name [good] [(key, NsDbus property)] None true.

(** [class name(DbusInterfaceCommon)] with a body that binds [key] to
    a plain function. *)
Definition common_subclass_with_function (name key : string) : M PyClass :=
  common ← library_classes;
  DbusInterfaceMeta.__new__ name [common] [(key, NsFunction (plain key))]
    None true.

(** [obj = GoodDbusInterface()] *)
Definition good_object : M addr :=
  good ← good_interface;
  DbusInterfaceBase.construct good.

(** How a class statement ended. *)
Inductive Outcome : Type :=
| Constructed (bound_to : option NsValue)
| Failed (e : PyExc).

Definition outcome (key : string) (r : Result PyClass) : Outcome :=
  match r with
  | Ok cls => Constructed (ns_lookup key (cls_dict cls))
  | Raise e => Failed e
  end.

(** What the direct bases of a class bind [key] to. *)
Definition bases_binding (key : string) (r : Result PyClass)
    : list (string * option NsValue) :=
  match r with
  | Ok cls =>
      map (λ base, (cls_name base, ns_lookup key (cls_dict base)))
          (cls_bases cls)
  | Raise _ => []
  end.


End Samples.

(** ** The default bus: [get_bus] *)

Module GetBus.

(** The module's global [DEFAULT_BUS], [None] until the first call, and
    the handles [sd_bus_open] has given out so far; the bus engine's
    [sd_bus_open] gives out the next one. *)
Record State : Type := {
  DEFAULT_BUS : option addr;
  opened : list addr;
}.

Definition sd_bus_open (s : State) : addr * State :=
  (length (opened s),
   {| DEFAULT_BUS := DEFAULT_BUS s;
      opened := (opened s ++ [length (opened s)])%list |}).

Definition get_bus (s : State) : addr * State :=
  let old_bus := DEFAULT_BUS s in
  match old_bus with
  | None =>
      let '(new_bus, s) := sd_bus_open s in
      (new_bus, {| DEFAULT_BUS := Some new_bus; opened := opened s |})
  | Some old_bus => (old_bus, s)
  end.

(** [n] calls in a row, with what each returned. *)
Fixpoint calls (n : nat) (s : State) : list addr * State :=
  match n with
  | O => ([], s)
  | S n' =>
      let '(bus, s) := get_bus s in
      let '(buses, s) := calls n' s in
      (bus :: buses, s)
  end.

End GetBus.

(** ** More on the name mapper's input *)

Module NameShape.
Import NameMapper.

(** The characters of [s] that are not underscores. *)
Fixpoint letters (s : string) : nat :=
  match s with
  | EmptyString => 0
  | String c rest =>
      if Ascii.eqb c underscore then letters rest else S (letters rest)
  end.

Definition starts_with_underscore (s : string) : bool :=
  match s with
  | String c _ => Ascii.eqb c underscore
  | EmptyString => false
  end.

(** A name within ASCII: on its characters [upper] is [str.upper], and
    a character is a byte. *)
Definition is_ascii (c : ascii) : bool := (nat_of_ascii c <? 128)%nat.

Fixpoint ascii_name (s : string) : bool :=
  match s with
  | EmptyString => true
  | String c rest => is_ascii c && ascii_name rest
  end.


End NameShape.

(** ** More sample objects *)

Module MoreSamples.

(** A peer that answers a property-get with the pair of the signature
    and the value. *)
Definition answering_world : World :=
  {| descriptors := [Property Samples.read_only_property];
     instances := [Samples.proxy_object];
     queues := []; bus_log := [];
     peer_reply := λ request,
       Ok {| msg_kind := Reply; msg_destination := None;
             msg_path := msg_path request;
             msg_interface := msg_interface request;
             msg_member := msg_member request; msg_data := [];
             msg_contents := PyTuple [PyStr "s"; PyStr "remote"] |} |}.

(** [async def four(self, a, b, c=7, d=8)]: [four] written again, with
    other defaults, for an override. *)
Definition four_again : FunctionType :=
  {| __name__ := "four"; co_args := ["self"; "a"; "b"; "c"; "d"];
     co_defaults := Some [PyInt 7; PyInt 8]; co_coroutine := true;
     body := λ i _ _, (Ok PyNone, i) |}.

(** The proxy's world with, at 2, the copy of the descriptor of [four]
    that the hook makes for [dbus_overload(four_again)]. *)
Definition overriding_world : World :=
  {| descriptors :=
       [Method (Samples.method_of Samples.four "Four");
        Method (Samples.method_of Samples.opt "Opt");
        Method (DbusMethod.with_original_method four_again
                  (Samples.method_of Samples.four "Four"))];
     instances := [Samples.proxy_object];
     queues := []; bus_log := []; peer_reply := Samples.no_peer |}.


End MoreSamples.

(** ** A class that holds state of its own *)

Module ConnectSamples.
Import Samples.




End ConnectSamples.

(** ** The life of an object's local subscriptions *)

(** What can happen, one after the other, to the local subscriptions of
    the object at [obj]: a subscription to one of its signals, an
    emission of one of them, the collection of a subscribed queue. *)
Inductive lifecycle (obj : addr) : World -> World -> Prop :=
| lifecycle_done w : lifecycle obj w w
| lifecycle_subscribe signal w w' :
    lifecycle obj
      (snd (DbusSignalBinded._get_local_queue
              {| DbusSignalBinded.dbus_signal := signal;
                 DbusSignalBinded.interface := obj |} w)) w' ->
    lifecycle obj w w'
| lifecycle_emit signal args w w' :
    lifecycle obj
      (snd (DbusSignalBinded.emit
              {| DbusSignalBinded.dbus_signal := signal;
                 DbusSignalBinded.interface := obj |} args w)) w' ->
    lifecycle obj w w'
| lifecycle_collect signal q w w' :
    EmitSpec.subscribed w obj signal q ->
    lifecycle obj
      (snd (DbusSignalBinded.collect
              {| DbusSignalBinded.dbus_signal := signal;
                 DbusSignalBinded.interface := obj |} q w)) w' ->
    lifecycle obj w w'.

(** ** What a class statement declares *)

Module ClassShape.

(** The keys that a class body binds to [DbusSomething] objects, and
    the objects. *)
Definition declared_keys (namespace : list (string * NsValue))
    : list string :=
  omap (λ entry, match entry.2 with
                 | NsDbus _ => Some entry.1
                 | _ => None
                 end) namespace.

Definition declared_addrs (namespace : list (string * NsValue))
    : list addr :=
  omap (λ entry, match entry.2 with
                 | NsDbus a => Some a
                 | _ => None
                 end) namespace.

(** Every object the class body names exists. *)
Definition objects_exist (w : World) (namespace : list (string * NsValue))
    : Prop :=
  Forall (λ a, is_Some (descriptors w !! a)) (declared_addrs namespace).

(** The direct bases under [DbusInterfaceBase] were built by the
    hook. *)
Definition built_by_hook (bases : list PyClass) : Prop :=
  Forall (λ base, issubclass_DbusInterfaceBase base = true ->
                  is_Some (_dbus_declared_interfaces base)) bases.

(** What the direct bases declared, each its own keys. *)
Definition super_declared (bases : list PyClass) : gset string :=
  foldl (λ acc base,
           if issubclass_DbusInterfaceBase base
           then acc ∪ default ∅ (_dbus_declared_interfaces base)
           else acc) ∅ bases.

(** The world grew by descriptors only. *)
Definition extends (w w' : World) : Prop :=
  (∃ extra, descriptors w' = (descriptors w ++ extra)%list)
  ∧ instances w' = instances w
  ∧ queues w' = queues w
  ∧ bus_log w' = bus_log w.

Definition is_method (d : DbusSomething) : bool :=
  match d with Method _ => true | _ => false end.

Definition is_dbus (v : NsValue) : bool :=
  match v with NsDbus _ => true | _ => false end.

End ClassShape.

Module ClassSamples.
Import Samples.

(** [class Quiet(ServedBase, interface_name='org.example.Quiet')] whose
    body is [double = dbus_overload(double)] with a new function. *)
Definition quiet_body : list (string * NsValue) :=
  [("double", dbus_overload (plain "double"))].

Definition quiet : M PyClass :=
  DbusInterfaceMeta.__new__ "Quiet" [ServedBase_class] quiet_body
    (Some "org.example.Quiet") true.

(** The same with the marker on the property and on the signal. *)
Definition quiet_property : M PyClass :=
  DbusInterfaceMeta.__new__ "Quiet" [ServedBase_class]
    [("test_property", dbus_overload (plain "test_property"))] None true.

(** A class that is not a dbus interface and has a [double] of its
    own. *)
Definition Mixin_class : PyClass :=
  {| cls_name := "Mixin"; cls_bases := [];
     cls_dict := [("double", NsFunction (plain "double"))];
     _dbus_declared_interfaces := None;
     _dbus_interface_name := None;
     _dbus_serving_enabled := true |}.

(** The body of [ServedBase], and a body that binds the new key
    [extra] to the descriptor of [orphan]. *)
Definition served_base_body : list (string * NsValue) :=
  [("double", NsDbus 0); ("changed", NsDbus 1); ("test_property", NsDbus 3)].

Definition extra_body : list (string * NsValue) :=
  [("extra", NsDbus 2); ("helper", NsFunction (plain "helper"))].

(** A body that binds [double] anew, to the descriptor of [orphan]. *)
Definition clash_body : list (string * NsValue) :=
  [("double", NsDbus 2)].

End ClassSamples.

(** ** What serving registers *)

Module ServeShape.

(** What attribute access on the object at [obj] gives for a class
    attribute, the descriptors being [ds]. *)
Definition member_of (ds : list DbusSomething) (obj : addr) (v : NsValue)
    : Member :=
  match v with
  | NsDbus a =>
      match ds !! a with
      | Some (Method _) =>
          MethodMember {| DbusMethodBinded.dbus_method := a;
                          DbusMethodBinded.interface := obj |}
      | Some (Property _) =>
          PropertyMember {| DbusPropertyBinded.dbus_property := a;
                            DbusPropertyBinded.interface := obj |}
      | Some (Signal _) =>
          SignalMember {| DbusSignalBinded.dbus_signal := a;
                          DbusSignalBinded.interface := obj |}
      | None => OtherMember
      end
  | _ => OtherMember
  end.

Definition members_of (ds : list DbusSomething) (obj : addr)
    (attrs : list (string * NsValue)) : list (string * Member) :=
  map (λ attr, (attr.1, member_of ds obj attr.2)) attrs.

(** Every dbus object among the attributes exists. *)
Definition attrs_exist (ds : list DbusSomething)
    (attrs : list (string * NsValue)) : Prop :=
  ∀ key a, (key, NsDbus a) ∈ attrs -> is_Some (ds !! a).

(** Where the first loop of [start_serving] puts a member: nowhere
    ([None]) for a signal and for a method or property whose serving is
    disabled; else under its interface name, which may be missing. *)
Definition serving_name (d : DbusSomething) : option (option string) :=
  match d with
  | Method m =>
      if DbusMethod.serving_enabled m
      then Some (DbusMethod.interface_name m) else None
  | Property p =>
      if DbusProperty.serving_enabled p
      then Some (DbusProperty.interface_name p) else None
  | Signal _ => None
  end.

(** The [add_...] call of the second loop for the descriptor [d], at
    address [a], of the object at [obj]. *)
Definition registration (obj a : addr) (d : DbusSomething) : InterfaceEntry :=
  match d with
  | Method m =>
      add_method (DbusMethod.method_name m) (DbusMethod.input_signature m)
        (DbusMethod.input_args_names m) (DbusMethod.result_signature m)
        (DbusMethod.result_args_names m) (DbusMethod.flags m)
        (CallFromDbus a obj)
  | Property p =>
      add_property (DbusProperty.property_name p)
        (DbusProperty.property_signature p) (GetSync a obj)
        (match DbusProperty.property_set p with
         | Some _ => Some (SetSync a obj)
         | None => None
         end)
        (DbusProperty.flags p)
  | Signal s =>
      add_signal (DbusSignal.signal_name s) (DbusSignal.signature s)
        (DbusSignal.args_names s) (DbusSignal.flags s)
  end.

(** The same for a bound member. *)
Definition entry_of (ds : list DbusSomething) (member : Member)
    : option InterfaceEntry :=
  match member with
  | MethodMember b =>
      match ds !! DbusMethodBinded.dbus_method b with
      | Some (Method m) =>
          Some (registration (DbusMethodBinded.interface b)
                             (DbusMethodBinded.dbus_method b) (Method m))
      | _ => None
      end
  | PropertyMember b =>
      match ds !! DbusPropertyBinded.dbus_property b with
      | Some (Property p) =>
          Some (registration (DbusPropertyBinded.interface b)
                             (DbusPropertyBinded.dbus_property b) (Property p))
      | _ => None
      end
  | SignalMember b =>
      match ds !! DbusSignalBinded.dbus_signal b with
      | Some (Signal s) =>
          Some (registration (DbusSignalBinded.interface b)
                             (DbusSignalBinded.dbus_signal b) (Signal s))
      | _ => None
      end
  | OtherMember => None
  end.

(** [entry] is the registration of an attribute of the object that is
    served under the interface [name]. *)
Definition served_under (ds : list DbusSomething) (obj : addr)
    (attrs : list (string * NsValue)) (name : string)
    (entry : InterfaceEntry) : Prop :=
  ∃ key a d,
    (key, NsDbus a) ∈ attrs
    ∧ ds !! a = Some d
    ∧ serving_name d = Some (Some name)
    ∧ entry = registration obj a d.

(** [member] is in the list of [name] in the interface map. *)
Definition listed (interface_map : list (string * list Member))
    (name : string) (member : Member) : Prop :=
  ∃ member_list, (name, member_list) ∈ interface_map ∧ member ∈ member_list.

(** The object after the two assignments that open [start_serving]. *)
Definition attached (bus : addr) (object_path : string) (i : Instance)
    : Instance :=
  {| ob_type := ob_type i;
     activated_interfaces := activated_interfaces i;
     is_binded := is_binded i;
     remote_service_name := remote_service_name i;
     remote_object_path := remote_object_path i;
     attached_bus := Some (Some bus);
     serving_object_path := Some (Some object_path);
     _local_signal_queues := _local_signal_queues i;
     user_state := user_state i |}.

End ServeShape.

Module ServeSamples.
Import Samples.

(** [obj = DbusInterfaceCommon()], after the class statements of the
    library: descriptors 0 [ping], 1 [get_machine_id], 2 [introspect],
    all with serving disabled. *)
Definition common_world : World :=
  snd ((common ← library_classes; DbusInterfaceBase.construct common)
         blank_world).

Definition common_attrs : list (string * NsValue) :=
  [("activated_interfaces", some_attribute);
   ("get_machine_id", NsDbus 1);
   ("introspect", NsDbus 2);
   ("ping", NsDbus 0)].

Definition common_object : Instance :=
  {| ob_type := "DbusInterfaceCommon";
     activated_interfaces := Some [];
     is_binded := Some false;
     remote_service_name := Some None;
     remote_object_path := Some None;
     attached_bus := Some None;
     serving_object_path := Some None;
     _local_signal_queues := Some ∅;
     user_state := ∅ |}.

(** [obj = Served()] before any serving; its attribute [orphan]
    replaced by a method which its class, given no interface name,
    declares itself. *)
Definition constructed_world : World :=
  snd (DbusInterfaceBase.construct Served_class declared_world).

Definition constructed_object : Instance :=
  {| ob_type := "Served";
     activated_interfaces := Some [];
     is_binded := Some false;
     remote_service_name := Some None;
     remote_object_path := Some None;
     attached_bus := Some None;
     serving_object_path := Some None;
     _local_signal_queues := Some ∅;
     user_state := ∅ |}.

Definition nameless_world : World :=
  snd ((method ← dbus_method None "" "" [] 0 (plain "nameless");
        DbusInterfaceMeta.__new__ "Nameless" [Served_class]
          [("nameless", NsDbus method)] None true)
         constructed_world).

Definition nameless_attrs : list (string * NsValue) :=
  [("double", NsDbus 0); ("nameless", NsDbus 4)].

End ServeSamples.

(** * Properties *)

(** ** Name mapper *)

Module NameMapperFacts.
Import NameMapper.

Ltac by_cases_on_char c :=
  destruct c as [[] [] [] [] [] [] [] []]; vm_compute; intuition congruence.

Lemma lower_is_not_underscore c :
  is_lower c || is_digit c = true -> Ascii.eqb c underscore = false.
Proof. by_cases_on_char c. Qed.

Lemma upper_of_lower c :
  is_lower c = true ->
  is_upper (upper c) = true /\ Ascii.eqb (upper c) underscore = false.
Proof. by_cases_on_char c. Qed.

(** A run of letters and digits goes through the loop untouched once
    the flag is down. *)
Lemma convert_loop_plain w rest :
  all_lower_or_digit w = true ->
  convert_loop false (w ++ rest) = (w ++ convert_loop false rest)%string.
Proof.
  induction w as [|c w IH]; simpl; [reflexivity|].
  intros [Hc Hw]%andb_prop.
  rewrite (lower_is_not_underscore c Hc). simpl.
  now rewrite IH.
Qed.

(** A word met with the flag up comes out capitalised. *)
Lemma convert_loop_word w rest :
  lower_word w = true ->
  convert_loop true (w ++ rest) = (capitalize w ++ convert_loop false rest)%string.
Proof.
  destruct w as [|c w]; simpl; [discriminate|].
  intros [Hc Hw]%andb_prop.
  rewrite lower_is_not_underscore by (rewrite Hc; reflexivity). simpl.
  now rewrite convert_loop_plain.
Qed.

Lemma convert_loop_snake_tail ws :
  forallb lower_word ws = true ->
  convert_loop false (snake_tail ws) = camel ws.
Proof.
  induction ws as [|w ws IH]; simpl; [reflexivity|].
  intros [Hw Hws]%andb_prop.
  rewrite convert_loop_word by assumption.
  now rewrite IH.
Qed.

Lemma has_underscore_app s t :
  has_underscore (s ++ t) = has_underscore s || has_underscore t.
Proof.
  induction s as [|c s IH]; simpl; [reflexivity|].
  now rewrite IH, orb_assoc.
Qed.

Lemma plain_has_no_underscore w :
  all_lower_or_digit w = true -> has_underscore w = false.
Proof.
  induction w as [|c w IH]; simpl; [reflexivity|].
  intros [Hc Hw]%andb_prop.
  now rewrite (lower_is_not_underscore c Hc), IH.
Qed.

Lemma capitalize_has_no_underscore w :
  lower_word w = true -> has_underscore (capitalize w) = false.
Proof.
  destruct w as [|c w]; simpl; [discriminate|].
  intros [Hc Hw]%andb_prop.
  destruct (upper_of_lower c Hc) as [_ ->].
  now rewrite plain_has_no_underscore.
Qed.

Lemma camel_has_no_underscore ws :
  forallb lower_word ws = true -> has_underscore (camel ws) = false.
Proof.
  induction ws as [|w ws IH]; simpl; [reflexivity|].
  intros [Hw Hws]%andb_prop.
  now rewrite has_underscore_app, capitalize_has_no_underscore, IH.
Qed.

Lemma camel_starts_upper ws :
  lower_words ws = true -> starts_upper (camel ws) = true.
Proof.
  destruct ws as [|w ws]; simpl; [discriminate|].
  intros [Hw Hws]%andb_prop.
  destruct w as [|c w]; simpl in *; [discriminate|].
  apply andb_prop in Hw as [Hc _].
  now destruct (upper_of_lower c Hc).
Qed.








End NameMapperFacts.

(** ** Running the monad *)

Ltac unfold_monad :=
  unfold call_function, bus_call_async, getattr, method_at, property_at,
    signal_at in *;
  unfold instance_at, descriptor_at, update_instance, update_descriptor,
    bus_do, get_world, assert_not_None, assert in *;
  unfold dangling in *;
  unfold raise, lift, mbind, M_bind, mret, M_ret in *;
  cbv beta in *.

Lemma bind_ok {A B} (m : M A) (f : A -> M B) w a w' :
  m w = (Ok a, w') -> (m ≫= f) w = f a w'.
Proof. intros H. unfold mbind, M_bind. now rewrite H. Qed.

Lemma bind_raise {A B} (m : M A) (f : A -> M B) w e w' :
  m w = (Raise e, w') -> (m ≫= f) w = (Raise e, w').
Proof. intros H. unfold mbind, M_bind. now rewrite H. Qed.

Lemma getattr_set {A} obj name (field : Instance -> option A) w i a :
  instances w !! obj = Some i -> field i = Some a ->
  getattr obj name field w = (Ok a, w).
Proof. intros Hi Ha. unfold_monad. now rewrite Hi, Ha. Qed.


Lemma method_at_ok a w m :
  descriptors w !! a = Some (Method m) -> method_at a w = (Ok m, w).
Proof. intros H. unfold_monad. now rewrite H. Qed.

Lemma property_at_ok a w p :
  descriptors w !! a = Some (Property p) -> property_at a w = (Ok p, w).
Proof. intros H. unfold_monad. now rewrite H. Qed.

Lemma signal_at_ok a w s :
  descriptors w !! a = Some (Signal s) -> signal_at a w = (Ok s, w).
Proof. intros H. unfold_monad. now rewrite H. Qed.

(** ** Properties without a setter *)

Module PropertyFacts.
Import DbusProperty DbusPropertyBinded.

(** C7: on a property descriptor without a setter, [set_sync] raises
    the no-setter error whatever the binding mode, and [set_async]
    raises it on an instance that is not proxy-bound; in both cases
    nothing has changed, neither the instance nor anything else. *)
Theorem set_without_setter (w : World) (self : DbusPropertyBinded.t)
    (p : DbusProperty.t) (complete_object : PyValue) :
  descriptors w !! dbus_property self = Some (Property p) ->
  property_set p = None ->
  set_sync self complete_object w
    = (Raise (ValueError "Property has no setter"), w)
  /\ (forall i, instances w !! interface self = Some i ->
                is_binded i = Some false ->
                set_async self complete_object w
                  = (Raise (ValueError "Property has no setter"), w)).
Proof.
  intros Hp Hset. split.
  - unfold set_sync.
    rewrite (bind_ok _ _ _ _ _ (property_at_ok _ _ _ Hp)).
    now rewrite Hset.
  - intros i Hi Hb. unfold set_async.
    rewrite (bind_ok _ _ _ _ _ (getattr_set _ _ _ _ _ _ Hi Hb)). simpl.
    rewrite (bind_ok _ _ _ _ _ (property_at_ok _ _ _ Hp)).
    now rewrite Hset.
Qed.

End PropertyFacts.

Module PropertyWitness.
Import DbusProperty DbusPropertyBinded Samples.

Lemma set_without_setter_witness :
  set_sync bound_test_property (PyStr "new") local_world
    = (Raise (ValueError "Property has no setter"), local_world)
  /\ set_async bound_test_property (PyStr "new") local_world
    = (Raise (ValueError "Property has no setter"), local_world).
Proof.
  destruct (PropertyFacts.set_without_setter local_world bound_test_property
              read_only_property (PyStr "new") eq_refl eq_refl) as [Hs Ha].
  split; [exact Hs|].
  exact (Ha unbound_object eq_refl eq_refl).
Defined.
End PropertyWitness.

(** ** Bound methods *)

Lemma call_function_run f obj args kwargs w i :
  instances w !! obj = Some i ->
  call_function f obj args kwargs w
  = (fst (body f i args kwargs),
     set_instances (<[obj := snd (body f i args kwargs)]> (instances w)) w).
Proof.
  intros Hi. unfold_monad. rewrite Hi.
  destruct (body f i args kwargs) as [r i']. simpl.
  rewrite Hi. now destruct r.
Qed.

Module MethodFacts.
Import DbusMethod DbusMethodBinded.

(** C8: a method call on an instance that is not proxy-bound is the
    call of the descriptor's function on that instance with the
    caller's arguments: its result is the function's, the instance is
    as the function leaves it, and the bus engine is not asked for
    anything. *)
Theorem local_call_bypasses_bus (w : World) (self : DbusMethodBinded.t)
    (m : DbusMethod.t) (i : Instance) (args : list PyValue)
    (kwargs : gmap string PyValue) :
  descriptors w !! dbus_method self = Some (Method m) ->
  instances w !! interface self = Some i ->
  is_binded i = Some false ->
  let outcome := body (original_method m) i args kwargs in
  let after := snd (__call__ self args kwargs w) in
  fst (__call__ self args kwargs w) = fst outcome
  /\ instances after = <[interface self := snd outcome]> (instances w)
  /\ bus_log after = bus_log w
  /\ descriptors after = descriptors w
  /\ queues after = queues w.
Proof.
  intros Hm Hi Hb. cbv zeta. unfold __call__.
  rewrite (bind_ok _ _ _ _ _ (getattr_set _ _ _ _ _ _ Hi Hb)).
  rewrite (bind_ok _ _ _ _ _ (method_at_ok _ _ _ Hm)).
  rewrite (call_function_run _ _ _ _ _ _ Hi). simpl. auto.
Qed.


End MethodFacts.

Module MethodWitness.
Import DbusMethod DbusMethodBinded Samples.

Lemma local_call_bypasses_bus_witness :
  fst (__call__ bound_double [PyInt 21] ∅ local_world) = Ok (PyInt 42)
  /\ bus_log (snd (__call__ bound_double [PyInt 21] ∅ local_world)) = [].
Proof.
  destruct (MethodFacts.local_call_bypasses_bus local_world bound_double
              (method_of double "Double") unbound_object [PyInt 21] ∅
              eq_refl eq_refl eq_refl) as (Hr & _ & Hb & _).
  split; [exact Hr | exact Hb].
Defined.


End MethodWitness.

(** ** Argument reconstruction *)

Module RebuildFacts.
Import DbusMethod DbusMethodBinded ArgumentSpec.

Lemma drop_lookup_cons {A} (l : list A) i x :
  l !! i = Some x -> drop i l = x :: drop (S i) l.
Proof.
  revert i. induction l as [|y l IH]; intros [|i]; simpl; try discriminate.
  - now intros [= ->].
  - apply IH.
Qed.

Lemma drop_lookup_nil {A} (l : list A) i :
  l !! i = None -> drop i l = [].
Proof. intros H. apply drop_ge. now apply lookup_ge_None. Qed.

(** One step of the loop is settled once the rest of the loop is. *)
Ltac rest_of_loop IH Hnext :=
  rewrite IH by exact Hnext;
  match goal with
  | |- context [all_slots ?slot ?i ?names] =>
      destruct (all_slots slot i names);
      [now rewrite <- app_assoc | reflexivity]
  end.

(** The loop against the slot-by-slot resolution, from any slot on. *)
Lemma rebuild_loop_resolved (m : DbusMethod.t) (args : list PyValue)
    (kwargs : gmap string PyValue) (names : list string) :
  (0 <= default_args_start_at m)%Z ->
  ∀ (i : nat) (new_args_list : list PyValue),
    (Z.of_nat (i + length names)
     = default_args_start_at m + Z.of_nat (length (args_defaults m)))%Z ->
    rebuild_loop m kwargs (Z.of_nat i) names (drop i args)
      (drop (i - Z.to_nat (default_args_start_at m)) (args_defaults m))
      new_args_list
    = match all_slots (resolved_slot m args kwargs) i names with
      | Some l => Ok (new_args_list ++ l)%list
      | None => Raise (TypeError "Could not flatten the args")
      end.
Proof.
  intros Hstart. induction names as [|a_name names IH]; intros i acc Hlen.
  - simpl. now rewrite app_nil_r.
  - simpl in Hlen.
    assert (Hnext : (Z.of_nat (S i + length names)
              = default_args_start_at m
                + Z.of_nat (length (args_defaults m)))%Z) by lia.
    specialize (IH (S i)).
    cbn [rebuild_loop all_slots].
    unfold resolved_slot at 1, declared_default.
    assert (Hpassed :
      (match drop i args with x :: rest => (x, rest) | [] => (PyNone, []) end)
      = (default PyNone (args !! i), drop (S i) args)).
    { destruct (args !! i) as [x|] eqn:Hx.
      - now rewrite (drop_lookup_cons _ _ _ Hx).
      - rewrite (drop_lookup_nil _ _ Hx). simpl. f_equal.
        symmetry. apply drop_ge. apply lookup_ge_None in Hx. lia. }
    rewrite Hpassed. clear Hpassed.
    replace (Z.of_nat i + 1)%Z with (Z.of_nat (S i)) by lia.
    destruct (default_args_start_at m <=? Z.of_nat i)%Z eqn:Hge.
    + (* the slot has a declared default *)
      apply Z.leb_le in Hge.
      assert (Hlt : (i - Z.to_nat (default_args_start_at m)
                     < length (args_defaults m))%nat) by lia.
      destruct (lookup_lt_is_Some_2 _ _ Hlt) as [d Hd].
      rewrite (drop_lookup_cons _ _ _ Hd), Hd.
      replace (S (i - Z.to_nat (default_args_start_at m)))%nat
        with (S i - Z.to_nat (default_args_start_at m))%nat by lia.
      destruct (args !! i) as [[]|]; simpl; try rest_of_loop IH Hnext;
        (destruct (kwargs !! a_name) as [[]|]; simpl;
         try rest_of_loop IH Hnext;
         destruct d; simpl; try rest_of_loop IH Hnext; reflexivity).
    + (* the slot has none *)
      apply Z.leb_gt in Hge.
      replace (i - Z.to_nat (default_args_start_at m))%nat with 0%nat
        in * by lia.
      replace (drop 0 (args_defaults m)) with
        (drop (S i - Z.to_nat (default_args_start_at m)) (args_defaults m))
        by (replace (S i - Z.to_nat (default_args_start_at m))%nat
              with 0%nat by lia; reflexivity).
      destruct (args !! i) as [[]|]; simpl; try rest_of_loop IH Hnext;
        (destruct (kwargs !! a_name) as [[]|]; simpl;
         try rest_of_loop IH Hnext; reflexivity).
Qed.

Lemma rebuild_args_resolved (w : World) (self : DbusMethodBinded.t)
    (m : DbusMethod.t) (args : list PyValue) (kwargs : gmap string PyValue) :
  descriptors w !! dbus_method self = Some (Method m) ->
  derived_fields m ->
  kwargs !! "self" = None ->
  kwargs !! "function" = None ->
  _rebuild_args self (original_method m) args kwargs w
  = (match resolved_args m args kwargs with
     | Some l => Ok l
     | None => Raise (TypeError "Could not flatten the args")
     end, w).
Proof.
  intros Hm (Hnames & Hnum & Hstart & Hpos) Hself Hfunction.
  unfold _rebuild_args. rewrite Hself, Hfunction.
  rewrite (bind_ok _ _ _ _ _ (method_at_ok _ _ _ Hm)).
  unfold lift, resolved_args. rewrite <- Hnames. f_equal.
  pose proof (rebuild_loop_resolved m args kwargs (args_names m) Hpos
                0%nat []) as Hloop.
  apply Hloop. simpl. lia.
Qed.

Lemma call_dbus_run (w : World) (self : DbusMethodBinded.t)
    (m : DbusMethod.t) (i : Instance) (bus : addr)
    (service path name : string) (l : list PyValue) :
  descriptors w !! dbus_method self = Some (Method m) ->
  instances w !! interface self = Some i ->
  proxy_bound i bus service path ->
  interface_name m = Some name ->
  _call_dbus self l w
  = request_outcome w bus (call_message m service path name l).
Proof.
  intros Hm Hi (_ & Hbus & Hservice & Hpath) Hname.
  unfold _call_dbus, request_outcome, call_message. unfold_monad.
  repeat (progress
            (rewrite ?Hi, ?Hbus, ?Hservice, ?Hpath, ?Hm, ?Hname;
             cbn beta iota)).
  simpl. now destruct (peer_reply w _).
Qed.

Lemma call_dbus_outcome (w : World) (self : DbusMethodBinded.t)
    (m : DbusMethod.t) (i : Instance) (bus : addr)
    (service path : string) (l : list PyValue) :
  descriptors w !! dbus_method self = Some (Method m) ->
  instances w !! interface self = Some i ->
  proxy_bound i bus service path ->
  _call_dbus self l w = proxy_outcome w m bus service path l.
Proof.
  intros Hm Hi Hproxy. unfold proxy_outcome.
  destruct (interface_name m) as [name|] eqn:Hname.
  - now apply call_dbus_run with (i := i).
  - destruct Hproxy as (_ & Hbus & Hservice & Hpath).
    unfold _call_dbus. unfold_monad.
    repeat (progress
              (rewrite ?Hi, ?Hbus, ?Hservice, ?Hpath, ?Hm, ?Hname;
               cbn beta iota)).
    reflexivity.
Qed.

(** C1, as the code has it.  On a proxy-bound instance, for keyword
    arguments as they reach [__call__] (none is named [self]): a call
    with exactly the full count of positional arguments and no keyword
    argument sends those arguments as they are; a call with any other
    count sends the list rebuilt slot by slot from the positional
    argument, else the keyword argument of the parameter's name, else
    the declared default, where a candidate that is [None] counts as
    missing; when a slot has no candidate the call raises [TypeError]
    and nothing is sent; a call with another count and a keyword
    argument named [function] raises the [TypeError] of a parameter
    given twice, nothing sent; a call with the full count and a
    keyword argument fails the assertion, nothing sent either; and
    where a list is to be sent, it is sent when the method has an
    interface name, the call failing an assertion with nothing sent
    when it has none. *)
Theorem call_on_proxy (w : World) (self : DbusMethodBinded.t)
    (m : DbusMethod.t) (i : Instance) (bus : addr)
    (service path : string) (args : list PyValue)
    (kwargs : gmap string PyValue) :
  descriptors w !! dbus_method self = Some (Method m) ->
  instances w !! interface self = Some i ->
  proxy_bound i bus service path ->
  derived_fields m ->
  kwargs !! "self" = None ->
  (length args = length (args_names m) -> kwargs = ∅ ->
   __call__ self args kwargs w = proxy_outcome w m bus service path args)
  ∧ (length args ≠ length (args_names m) ->
     kwargs !! "function" = None ->
     __call__ self args kwargs w
     = match resolved_args m args kwargs with
       | Some l => proxy_outcome w m bus service path l
       | None => (Raise (TypeError "Could not flatten the args"), w)
       end)
  ∧ (length args ≠ length (args_names m) ->
     is_Some (kwargs !! "function") ->
     __call__ self args kwargs w = (Raise (multiple_values "function"), w))
  ∧ (length args = length (args_names m) -> kwargs ≠ ∅ ->
     __call__ self args kwargs w = (Raise AssertionError, w)).
Proof.
  intros Hm Hi Hproxy Hderived Hself.
  pose proof Hproxy as (Hbound & _).
  pose proof Hderived as (_ & Hnum & _).
  split; [|split; [|split]].
  - intros Hcount ->. unfold __call__.
    rewrite (bind_ok _ _ _ _ _ (getattr_set _ _ _ _ _ _ Hi Hbound)).
    rewrite (bind_ok _ _ _ _ _ (method_at_ok _ _ _ Hm)).
    rewrite Hnum, Hcount, Z.eqb_refl.
    unfold_monad. simpl.
    apply (call_dbus_outcome w self m i bus service path args Hm Hi Hproxy).
  - intros Hcount Hfunction. unfold __call__.
    rewrite (bind_ok _ _ _ _ _ (getattr_set _ _ _ _ _ _ Hi Hbound)).
    rewrite (bind_ok _ _ _ _ _ (method_at_ok _ _ _ Hm)).
    replace (Z.of_nat (length args) =? num_of_args m)%Z with false
      by (symmetry; apply Z.eqb_neq; lia).
    destruct (resolved_args m args kwargs) as [l|] eqn:Hres.
    + erewrite bind_ok
        by (rewrite rebuild_args_resolved, Hres by assumption; reflexivity).
      now apply call_dbus_outcome with (i := i).
    + erewrite bind_raise
        by (rewrite rebuild_args_resolved, Hres by assumption; reflexivity).
      reflexivity.
  - intros Hcount [v Hfunction]. unfold __call__.
    rewrite (bind_ok _ _ _ _ _ (getattr_set _ _ _ _ _ _ Hi Hbound)).
    rewrite (bind_ok _ _ _ _ _ (method_at_ok _ _ _ Hm)).
    replace (Z.of_nat (length args) =? num_of_args m)%Z with false
      by (symmetry; apply Z.eqb_neq; lia).
    unfold _rebuild_args. now rewrite Hself, Hfunction.
  - intros Hcount Hkwargs. unfold __call__.
    rewrite (bind_ok _ _ _ _ _ (getattr_set _ _ _ _ _ _ Hi Hbound)).
    rewrite (bind_ok _ _ _ _ _ (method_at_ok _ _ _ Hm)).
    rewrite Hnum, Hcount, Z.eqb_refl.
    rewrite bool_decide_eq_false_2; [reflexivity|].
    intros Hsize. now apply map_size_empty_iff in Hsize.
Qed.

End RebuildFacts.

Module RebuildWitness.
Import DbusMethod DbusMethodBinded ArgumentSpec Samples.

Lemma four_derived : derived_fields (method_of four "Four").
Proof. repeat split; vm_compute; congruence. Qed.

Lemma proxy_object_bound : proxy_bound proxy_object 0 "org.example" "/".
Proof. repeat split. Qed.

(** The calls of the specification's example, [(a, b, c=1, d=2)]. *)
Lemma call_on_proxy_witness :
  __call__ bound_four [PyInt 10; PyInt 20] ∅ proxy_world
  = request_outcome proxy_world 0
      (call_message (method_of four "Four") "org.example" "/"
         "org.example.Test" [PyInt 10; PyInt 20; PyInt 1; PyInt 2])
  ∧ __call__ bound_four [PyInt 10] {["c" := PyInt 99]} proxy_world
    = (Raise (TypeError "Could not flatten the args"), proxy_world).
Proof.
  split.
  - refine (proj1 (proj2 (RebuildFacts.call_on_proxy proxy_world bound_four
             (method_of four "Four") proxy_object 0 "org.example" "/"
             [PyInt 10; PyInt 20] ∅ eq_refl eq_refl
             proxy_object_bound four_derived eq_refl)) _ eq_refl).
    vm_compute. congruence.
  - refine (proj1 (proj2 (RebuildFacts.call_on_proxy proxy_world bound_four
             (method_of four "Four") proxy_object 0 "org.example" "/"
             [PyInt 10] {["c" := PyInt 99]} eq_refl
             eq_refl proxy_object_bound four_derived eq_refl)) _ eq_refl).
    vm_compute. congruence.
Defined.

(** C1 as stated fails on [def opt(self, a, b=None)] called with
    [(10,)]: the claimed list is [[10, None]], the code raises. *)
Lemma rebuild_not_as_claimed :
  claimed_args (method_of opt "Opt") [PyInt 10] ∅
    = Some [PyInt 10; PyNone]
  ∧ fst (__call__ bound_opt [PyInt 10] ∅ proxy_world)
    = Raise (TypeError "Could not flatten the args")
  ∧ ¬ rebuilds_as_claimed (method_of opt "Opt") [PyInt 10] ∅
        (fst (_rebuild_args bound_opt opt [PyInt 10] ∅ proxy_world)).
Proof.
  split; [reflexivity|]. split; [reflexivity|].
  unfold rebuilds_as_claimed.
  change (claimed_args (method_of opt "Opt") [PyInt 10] ∅)
    with (Some [PyInt 10; PyNone]).
  vm_compute. discriminate.
Qed.
End RebuildWitness.

(** ** Connecting as a proxy *)

Module ConnectFacts.
Import DbusInterfaceBase DbusSignalBinded.



End ConnectFacts.

Module ConnectWitness.
Import DbusInterfaceBase DbusSignalBinded Samples.



End ConnectWitness.

(** ** Signal emission *)

Module EmitFacts.
Import DbusSignal DbusSignalBinded EmitSpec.

Lemma set_queues_twice qs1 qs2 w :
  set_queues qs2 (set_queues qs1 w) = set_queues qs2 w.
Proof. reflexivity. Qed.

Lemma live_insert qs r items q :
  live qs q -> live (<[r := Some items]> qs) q.
Proof.
  intros [old Hq]. destruct (decide (r = q)) as [->|Hne].
  - exists items. apply list_lookup_insert_eq.
    apply lookup_lt_Some in Hq. exact Hq.
  - exists old. now rewrite list_lookup_insert_ne.
Qed.

(** The fan-out loop of [emit] over references that are all live. *)
Lemma emit_loop_run (args : PyValue) (refs : list addr) :
  ∀ w, Forall (live (queues w)) refs ->
    for_each refs (λ local_queue_ref,
      local_queue ← weak_ref_call local_queue_ref;
      local_queue ← assert_not_None local_queue;
      put_nowait local_queue args) w
    = (Ok tt, set_queues (deliver args refs (queues w)) w).
Proof.
  induction refs as [|r refs IH]; intros w Hlive.
  - destruct w; reflexivity.
  - apply Forall_cons in Hlive as [[items Hr] Hrest].
    cbn [for_each deliver]. unfold weak_ref_call, put_nowait.
    unfold_monad. rewrite Hr. cbn beta iota. rewrite Hr.
    rewrite IH.
    + reflexivity.
    + cbn [queues set_queues].
      eapply Forall_impl; [exact Hrest|].
      intros q Hq. now apply live_insert.
Qed.

(** What [deliver] leaves in each queue. *)
Lemma deliver_lookup (args : PyValue) (refs : list addr) :
  ∀ qs q,
    deliver args refs qs !! q
    = (λ slot : option (list PyValue),
         (λ items, items ++ replicate (occurrences q refs) args)%list
           <$> slot) <$> qs !! q.
Proof.
  unfold occurrences.
  induction refs as [|r refs IH]; intros qs q.
  - simpl. destruct (qs !! q) as [[items|]|]; simpl; try reflexivity.
    now rewrite app_nil_r.
  - cbn [deliver]. rewrite IH. rewrite filter_cons.
    destruct (qs !! r) as [[items|]|] eqn:Hr.
    + destruct (decide (r = q)) as [->|Hne].
      * rewrite list_lookup_insert_eq by (now apply lookup_lt_Some in Hr).
        rewrite Hr. simpl. now rewrite <- app_assoc.
      * now rewrite list_lookup_insert_ne.
    + destruct (decide (r = q)) as [->|Hne]; [|reflexivity].
      now rewrite Hr.
    + destruct (decide (r = q)) as [->|Hne]; [|reflexivity].
      now rewrite Hr.
Qed.

Lemma occurrences_elem q refs :
  q ∈ refs -> (1 <= occurrences q refs)%nat.
Proof.
  unfold occurrences. intros Hin.
  assert (Hq : q ∈ filter (λ r, r = q) refs)
    by (apply list_elem_of_filter; auto).
  destruct (filter (λ r, r = q) refs); [inversion Hq | simpl; lia].
Qed.

Lemma occurrences_not_elem q refs :
  q ∉ refs -> occurrences q refs = 0%nat.
Proof.
  unfold occurrences. intros Hnot.
  destruct (filter (λ r, r = q) refs) as [|x l] eqn:Hf; [reflexivity|].
  assert (Hx : x ∈ filter (λ r, r = q) refs) by (rewrite Hf; left).
  apply list_elem_of_filter in Hx as [-> Hin]. contradiction.
Qed.

Lemma occurrences_NoDup q refs :
  NoDup refs -> q ∈ refs -> occurrences q refs = 1%nat.
Proof.
  unfold occurrences. induction 1 as [|x l Hx Hl IH]; intros Hin.
  - inversion Hin.
  - rewrite filter_cons. destruct (decide (x = q)) as [->|Hne].
    + simpl. f_equal. now apply occurrences_not_elem.
    + apply IH. apply elem_of_cons in Hin as [Heq|Hin]; congruence.
Qed.

(** C3, as the code has it.  On an object that went through
    [__init__], with every listed weak reference live, and, when the
    object has active registrations, with the bus and path
    [start_serving] has set and a signal whose class was given an
    interface name: [emit] returns normally; it sends exactly one
    signal message if the object has an active registration and none
    otherwise; and, whatever the activation, it appends the value to
    every queue subscribed to the signal, once for each time the
    queue is listed, and leaves every other queue as it was. *)
Theorem emit_outcome (w : World) (self : DbusSignalBinded.t)
    (s : DbusSignal.t) (i : Instance) (activated : list SdBusInterface)
    (table : gmap addr (list addr)) (bus : addr) (path name : string)
    (args : PyValue) :
  descriptors w !! dbus_signal self = Some (Signal s) ->
  instances w !! interface self = Some i ->
  activated_interfaces i = Some activated ->
  _local_signal_queues i = Some table ->
  Forall (live (queues w)) (default [] (table !! dbus_signal self)) ->
  (activated ≠ [] ->
   attached_bus i = Some (Some bus)
   ∧ serving_object_path i = Some (Some path)
   ∧ interface_name s = Some name) ->
  let subscribers := default [] (table !! dbus_signal self) in
  let w' := snd (emit self args w) in
  fst (emit self args w) = Ok tt
  ∧ bus_log w' = (bus_log w ++ emitted activated s path name args)%list
  ∧ (∀ q items,
       queues w !! q = Some (Some items) ->
       queues w' !! q
       = Some (Some (items ++ replicate (occurrences q subscribers) args)%list))
  ∧ (∀ q items,
       q ∈ subscribers -> queues w !! q = Some (Some items) ->
       ∃ items', queues w' !! q = Some (Some (items ++ args :: items')%list))
  ∧ (∀ q, q ∉ subscribers -> queues w' !! q = queues w !! q)
  ∧ instances w' = instances w
  ∧ descriptors w' = descriptors w.
Proof.
  intros Hs Hi Hact Htable Hlive Hserving subscribers w'.
  assert (Hrun : emit self args w
    = (Ok tt,
       set_queues (deliver args subscribers (queues w))
         (set_bus_log (bus_log w ++ emitted activated s path name args) w))).
  { unfold emit.
    rewrite (bind_ok _ _ _ _ _ (getattr_set _ _ _ _ _ _ Hi Hact)).
    assert (Hmsg :
      match activated with [] => mret tt | _ => _emit_message self args end w
      = (Ok tt,
         set_bus_log (bus_log w ++ emitted activated s path name args) w)).
    { destruct activated as [|a rest].
      - unfold emitted. rewrite app_nil_r. unfold_monad.
        destruct w; reflexivity.
      - destruct Hserving as (Hbus & Hpath & Hname); [discriminate|].
        unfold _emit_message, emitted, signal_message. unfold_monad.
        repeat (progress (rewrite ?Hi, ?Hbus, ?Hpath, ?Hs, ?Hname;
                          cbn beta iota)).
        reflexivity. }
    rewrite (bind_ok _ _ _ _ _ Hmsg).
    erewrite bind_ok
      by (apply getattr_set with (i := i); [exact Hi | exact Htable]).
    fold subscribers in Hlive. subst subscribers.
    destruct (table !! dbus_signal self) as [refs|]; cbn [default] in *.
    - now rewrite emit_loop_run.
    - unfold_monad. simpl.
      destruct w; reflexivity. }
  subst w'. rewrite Hrun. cbn [fst snd].
  cbn [queues bus_log instances descriptors set_queues set_bus_log].
  assert (Hq : ∀ q items, queues w !! q = Some (Some items) ->
    deliver args subscribers (queues w) !! q
    = Some (Some (items ++ replicate (occurrences q subscribers) args)%list)).
  { intros q items Hitems. now rewrite deliver_lookup, Hitems. }
  repeat split; try reflexivity.
  - exact Hq.
  - intros q items Hin Hitems. rewrite (Hq q items Hitems).
    pose proof (occurrences_elem q subscribers Hin) as Hocc.
    destruct (occurrences q subscribers) as [|n]; [lia|].
    exists (replicate n args). reflexivity.
  - intros q Hnot. rewrite deliver_lookup.
    rewrite (occurrences_not_elem _ _ Hnot).
    destruct (queues w !! q) as [[items|]|]; simpl; try reflexivity.
    now rewrite app_nil_r.
Qed.

End EmitFacts.

Module EmitWitness.
Import DbusSignal DbusSignalBinded EmitSpec Samples.

Lemma listening_subscribers_live :
  Forall (live (queues listening_world))
    (default [] (({[1%nat := [0%nat]]} : gmap addr (list addr))
                 !! dbus_signal bound_changed)).
Proof.
  change (Forall (live [Some []]) [0%nat]).
  constructor; [exists []; reflexivity | constructor].
Qed.

Lemma serving_subscribers_live :
  Forall (live (queues serving_world))
    (default [] ((<[2%nat := [1%nat]]> {[1%nat := [0%nat]]}
                  : gmap addr (list addr)) !! dbus_signal bound_changed)).
Proof.
  change (Forall (live [Some []; Some []]) [0%nat]).
  constructor; [exists []; reflexivity | constructor].
Qed.

(** The two situations of the specification: no registration and one
    local subscriber; an active registration and a local subscriber. *)
Lemma emit_outcome_witness :
  (bus_log (snd (emit bound_changed (PyInt 7) listening_world)) = []
   ∧ queues (snd (emit bound_changed (PyInt 7) listening_world)) !! 0%nat
     = Some (Some [PyInt 7]))
  ∧ (bus_log (snd (emit bound_changed (PyInt 7) serving_world))
     = (bus_log serving_world
        ++ [send (signal_message changed_signal "/obj" "org.example.Test"
                                 (PyInt 7))])%list
     ∧ queues (snd (emit bound_changed (PyInt 7) serving_world)) !! 0%nat
       = Some (Some [PyInt 7])).
Proof.
  split.
  - destruct (EmitFacts.emit_outcome listening_world bound_changed
                changed_signal listening_object [] {[1%nat := [0%nat]]}
                0%nat "" "" (PyInt 7)
                eq_refl eq_refl eq_refl eq_refl listening_subscribers_live
                (λ H, False_ind _ (H eq_refl)))
      as (_ & Hlog & Hqueues & _).
    split.
    + rewrite Hlog. reflexivity.
    + exact (Hqueues 0%nat [] eq_refl).
  - destruct (EmitFacts.emit_outcome serving_world bound_changed
                changed_signal serving_object [served_interface]
                (<[2%nat := [1%nat]]> {[1%nat := [0%nat]]})
                0%nat "/obj" "org.example.Test" (PyInt 7)
                eq_refl eq_refl eq_refl eq_refl serving_subscribers_live
                (λ _, conj eq_refl (conj eq_refl eq_refl)))
      as (_ & Hlog & Hqueues & _).
    split.
    + exact Hlog.
    + exact (Hqueues 0%nat [] eq_refl).
Defined.

(** C3 as stated fails on the signal [orphan], whose class was given
    no interface name, on an object that serves another interface and
    has a local subscriber: there is an active registration and a
    live queue, and [emit] fails an assertion of [_emit_message]
    before anything is sent or delivered. *)
Lemma emit_not_as_claimed :
  fst (emit bound_orphan (PyInt 7) serving_world) = Raise AssertionError
  ∧ ¬ emits_as_claimed bound_orphan (PyInt 7) serving_world.
Proof.
  split; [vm_compute; reflexivity|].
  intros Hclaim.
  edestruct Hclaim as [[Hsent _] _];
    [vm_compute; reflexivity ..|].
  destruct Hsent as [message Hlog]; [discriminate|].
  vm_compute in Hlog. discriminate Hlog.
Qed.
End EmitWitness.

(** ** Serving *)

Lemma bind_inv_ok {A B} (m : M A) (f : A -> M B) w b w' :
  (m ≫= f) w = (Ok b, w') ->
  ∃ a w1, m w = (Ok a, w1) ∧ f a w1 = (Ok b, w').
Proof.
  unfold mbind, M_bind. destruct (m w) as [[a|e] w1]; intros H.
  - now exists a, w1.
  - discriminate H.
Qed.

Module ServeFacts.
Import DbusInterfaceBase ServeSpec.

Lemma map_append_no_signal key value interface_map :
  is_signal_member value = false ->
  Forall (λ entry, no_signal_member entry.2) interface_map ->
  Forall (λ entry, no_signal_member entry.2)
         (map_append key value interface_map).
Proof.
  intros Hvalue. induction 1 as [|[k l] rest Hl Hrest IH]; simpl.
  - constructor; [|constructor]. unfold no_signal_member. simpl.
    now rewrite Hvalue.
  - destruct (String.eqb k key).
    + constructor; [|exact Hrest]. unfold no_signal_member in *. simpl in *.
      rewrite existsb_app, Hl. simpl. now rewrite Hvalue.
    + constructor; [exact Hl | exact IH].
Qed.

(** The first loop never puts a bound signal into the map. *)
Lemma group_loop_no_signal members :
  ∀ interface_map w result w',
    group_loop members interface_map w = (Ok result, w') ->
    Forall (λ entry, no_signal_member entry.2) interface_map ->
    w' = w ∧ Forall (λ entry, no_signal_member entry.2) result.
Proof.
  induction members as [|[key value] members IH];
    intros interface_map w result w' Hrun Hmap.
  - injection Hrun as <- <-. auto.
  - cbn [group_loop] in Hrun. destruct value as [b|b|b|].
    + apply bind_inv_ok in Hrun as (m & w1 & Hm & Hrun).
      assert (w1 = w) as ->.
      { unfold_monad. destruct (descriptors w !! _) as [[]|];
          congruence. }
      destruct (negb (DbusMethod.serving_enabled m)).
      * now apply IH in Hrun.
      * apply bind_inv_ok in Hrun as (name & w2 & Hname & Hrun).
        assert (w2 = w) as ->.
        { unfold_monad. destruct (DbusMethod.interface_name m);
            congruence. }
        apply IH in Hrun; [exact Hrun|].
        now apply map_append_no_signal.
    + apply bind_inv_ok in Hrun as (p & w1 & Hp & Hrun).
      assert (w1 = w) as ->.
      { unfold_monad. destruct (descriptors w !! _) as [[]|];
          congruence. }
      destruct (negb (DbusProperty.serving_enabled p)).
      * now apply IH in Hrun.
      * apply bind_inv_ok in Hrun as (name & w2 & Hname & Hrun).
        assert (w2 = w) as ->.
        { unfold_monad. destruct (DbusProperty.interface_name p);
            congruence. }
        apply IH in Hrun; [exact Hrun|].
        now apply map_append_no_signal.
    + now apply IH in Hrun.
    + now apply IH in Hrun.
Qed.

(** Without a bound signal in the list, no [add_signal] is made. *)
Lemma fill_interface_signal_free member_list :
  ∀ new_interface w result w',
    fill_interface member_list new_interface w = (Ok result, w') ->
    no_signal_member member_list ->
    signal_free new_interface ->
    w' = w ∧ signal_free result.
Proof.
  unfold no_signal_member, signal_free.
  induction member_list as [|member member_list IH];
    intros new_interface w result w' Hrun Hmembers Hfree.
  - injection Hrun as <- <-. auto.
  - cbn [fill_interface] in Hrun. simpl in Hmembers.
    apply orb_false_elim in Hmembers as [Hmember Hmembers].
    destruct member as [b|b|b|]; try discriminate.
    + apply bind_inv_ok in Hrun as (m & w1 & Hm & Hrun).
      assert (w1 = w) as ->.
      { unfold_monad. destruct (descriptors w !! _) as [[]|];
          congruence. }
      apply IH in Hrun; [exact Hrun | exact Hmembers |].
      rewrite existsb_app, Hfree. reflexivity.
    + apply bind_inv_ok in Hrun as (p & w1 & Hp & Hrun).
      assert (w1 = w) as ->.
      { unfold_monad. destruct (descriptors w !! _) as [[]|];
          congruence. }
      apply IH in Hrun; [exact Hrun | exact Hmembers |].
      rewrite existsb_app, Hfree. reflexivity.
Qed.

Lemma registered_app log1 log2 :
  registered (log1 ++ log2) = (registered log1 ++ registered log2)%list.
Proof. unfold registered. apply omap_app. Qed.

Lemma registers_a_signal_app log1 log2 :
  registers_a_signal (log1 ++ log2)
  = registers_a_signal log1 || registers_a_signal log2.
Proof.
  unfold registers_a_signal. now rewrite registered_app, existsb_app.
Qed.

(** The second loop registers what the map holds. *)
Lemma register_loop_signal_free self bus object_path interface_map :
  ∀ w w',
    register_loop self bus object_path interface_map w = (Ok tt, w') ->
    Forall (λ entry, no_signal_member entry.2) interface_map ->
    registers_a_signal (bus_log w') = registers_a_signal (bus_log w).
Proof.
  induction interface_map as [|[name member_list] rest IH];
    intros w w' Hrun Hmap.
  - now injection Hrun as <-.
  - apply Forall_cons in Hmap as [Hlist Hrest].
    cbn [register_loop] in Hrun.
    apply bind_inv_ok in Hrun as (new_interface & w1 & Hfill & Hrun).
    apply fill_interface_signal_free in Hfill as [-> Hfree];
      [|exact Hlist|reflexivity].
    apply bind_inv_ok in Hrun as ([] & w2 & Hbus & Hrun).
    apply bind_inv_ok in Hrun as ([] & w3 & Happend & Hrun).
    apply IH in Hrun; [|exact Hrest]. rewrite Hrun.
    assert (Hlog : bus_log w3
      = (bus_log w ++ [add_interface bus new_interface object_path name])%list).
    { unfold bus_do in Hbus. injection Hbus as <-.
      unfold append_activated in Happend. unfold_monad.
      cbn [instances set_bus_log] in Happend.
      destruct (instances w !! self) as [i|]; [|discriminate].
      destruct (activated_interfaces i); [|discriminate].
      cbn [instances set_bus_log] in Happend.
      destruct (instances w !! self); [|discriminate].
      now injection Happend as <-. }
    rewrite Hlog, registers_a_signal_app.
    unfold registers_a_signal at 2. simpl.
    unfold signal_free in Hfree. rewrite Hfree. simpl.
    apply orb_false_r.
Qed.

(** Whatever the object and its members, a [start_serving] that
    returns has registered no interface with a signal in it. *)
Lemma start_serving_registers_no_signal (w : World) (self : addr)
    (attrs : list (string * NsValue)) (bus : addr) (object_path : string)
    (w' : World) :
  start_serving self attrs bus object_path w = (Ok tt, w') ->
  registers_a_signal (bus_log w') = registers_a_signal (bus_log w).
Proof.
  unfold start_serving. intros Hrun.
  apply bind_inv_ok in Hrun as ([] & w1 & Hset & Hrun).
  apply bind_inv_ok in Hrun as (members & w2 & Hmembers & Hrun).
  apply bind_inv_ok in Hrun as (interface_map & w3 & Hgroup & Hrun).
  apply group_loop_no_signal in Hgroup as [-> Hmap]; [|constructor].
  apply register_loop_signal_free in Hrun; [|exact Hmap].
  rewrite Hrun. clear Hrun Hmap.
  assert (Hlog1 : bus_log w1 = bus_log w).
  { unfold_monad. destruct (instances w !! self); [|discriminate].
    now injection Hset as <-. }
  rewrite <- Hlog1. f_equal. clear Hset Hlog1.
  revert w1 members w2 Hmembers.
  induction attrs as [|[key value] attrs IH]; intros w1 members w2 Hrun.
  - now injection Hrun as _ <-.
  - cbn [getmembers] in Hrun. destruct value as [a|f|f|v|l|t].
    + apply bind_inv_ok in Hrun as (value & w3 & Hget & Hrun).
      assert (w3 = w1) as ->.
      { unfold __get__ in Hget. unfold_monad.
        destruct (descriptors w1 !! a); congruence. }
      apply bind_inv_ok in Hrun as (rest & w4 & Hrest & Hrun).
      injection Hrun as _ <-. now apply IH in Hrest.
    + apply bind_inv_ok in Hrun as (rest & w4 & Hrest & Hrun).
      injection Hrun as _ <-. now apply IH in Hrest.
    + apply bind_inv_ok in Hrun as (rest & w4 & Hrest & Hrun).
      injection Hrun as _ <-. now apply IH in Hrest.
    + apply bind_inv_ok in Hrun as (rest & w4 & Hrest & Hrun).
      injection Hrun as _ <-. now apply IH in Hrest.
    + apply bind_inv_ok in Hrun as (rest & w4 & Hrest & Hrun).
      injection Hrun as _ <-. now apply IH in Hrest.
    + apply bind_inv_ok in Hrun as (rest & w4 & Hrest & Hrun).
      injection Hrun as _ <-. now apply IH in Hrest.
Qed.

Import Samples.

(** C2 at an object whose class declares, on the interface
    [org.example.Test] and with serving enabled, the method [double],
    the property [test_property] and the signal [changed]:
    [start_serving] returns, the one interface it registers and
    records holds the method and the property, and the signal is in
    none. *)
Theorem start_serving_leaves_signal_out :
  descriptors declared_world !! 1%nat = Some (Signal changed_signal)
  ∧ DbusSignal.serving_enabled changed_signal = true
  ∧ DbusSignal.interface_name changed_signal = Some "org.example.Test"
  ∧ fst (serve declared_world) = Ok 0%nat
  ∧ bus_log (snd (serve declared_world))
    = [add_interface 0 served_interface "/obj" "org.example.Test"]
  ∧ activated_interfaces <$> instances (snd (serve declared_world)) !! 0%nat
    = Some (Some [served_interface])
  ∧ registers_a_signal (bus_log (snd (serve declared_world))) = false.
Proof. repeat split; vm_compute; reflexivity. Qed.

End ServeFacts.

(** ** Class construction *)

Module MetaFacts.
Import DbusInterfaceMeta.

Lemma ns_lookup_key key namespace v :
  ns_lookup key namespace = Some v -> key ∈ namespace.*1.
Proof.
  induction namespace as [|[k x] rest IH]; simpl; [discriminate|].
  destruct (String.eqb_spec k key) as [->|Hne].
  - intros _. left.
  - intros H. right. now apply IH.
Qed.

Lemma ns_lookup_of_key key namespace :
  key ∈ namespace.*1 -> ∃ v, ns_lookup key namespace = Some v.
Proof.
  induction namespace as [|[k x] rest IH]; simpl.
  - intros H. inversion H.
  - intros H. destruct (String.eqb_spec k key) as [->|Hne]; [eauto|].
    apply elem_of_cons in H as [Heq|Hin]; [congruence|]. now apply IH.
Qed.

(** The third loop stops at a key that is not bound to the marker. *)
Lemma overload_loop_rejects bases key rest namespace declared sc w v :
  ns_lookup key namespace = Some v ->
  is_overload v = false ->
  overload_loop bases (key :: rest) namespace declared sc w
  = (Raise (TypeError overload_message), w).
Proof.
  intros Hv Hplain. cbn [overload_loop]. rewrite Hv.
  now destruct v.
Qed.

(** Redeclaring a key that a direct base declared, in a class body
    that uses no marker on such keys, fails with the [TypeError] of
    the hook. *)
Lemma redeclaration_of_base_member_rejected (w w1 : World) (name : string)
    (bases : list PyClass) (namespace : list (string * NsValue))
    (interface_name : option string) (serving_enabled : bool)
    (declared super_declared : gset string) (key : string) (v : NsValue) :
  stamp_loop namespace interface_name serving_enabled ∅ w
    = (Ok declared, w1) ->
  super_loop bases ∅ w1 = (Ok super_declared, w1) ->
  (∀ k x, k ∈ super_declared -> ns_lookup k namespace = Some x ->
          is_overload x = false) ->
  key ∈ super_declared ->
  ns_lookup key namespace = Some v ->
  __new__ name bases namespace interface_name serving_enabled w
  = (Raise (TypeError overload_message), w1).
Proof.
  intros Hstamp Hsuper Hplain Hkey Hv. unfold __new__.
  rewrite (bind_ok _ _ _ _ _ Hstamp), (bind_ok _ _ _ _ _ Hsuper).
  assert (Hin : key ∈ filter (λ k, k ∈ super_declared) (namespace.*1)).
  { apply list_elem_of_filter. split; [exact Hkey|].
    now apply ns_lookup_key in Hv. }
  destruct (filter (λ k, k ∈ super_declared) (namespace.*1))
    as [|k rest] eqn:Hkeys; [inversion Hin|].
  assert (Hk : k ∈ filter (λ k, k ∈ super_declared) (namespace.*1))
    by (rewrite Hkeys; left).
  apply list_elem_of_filter in Hk as [Hk_super Hk_ns].
  destruct (ns_lookup_of_key _ _ Hk_ns) as [x Hx].
  erewrite bind_raise; [reflexivity|].
  apply overload_loop_rejects with (v := x); [exact Hx|].
  now apply (Hplain k x).
Qed.

(** A class body none of whose keys was declared by a direct base is
    accepted as it is. *)
Lemma new_members_accepted (w w1 : World) (name : string)
    (bases : list PyClass) (namespace : list (string * NsValue))
    (interface_name : option string) (serving_enabled : bool)
    (declared super_declared : gset string) :
  stamp_loop namespace interface_name serving_enabled ∅ w
    = (Ok declared, w1) ->
  super_loop bases ∅ w1 = (Ok super_declared, w1) ->
  (∀ k, k ∈ namespace.*1 -> k ∉ super_declared) ->
  __new__ name bases namespace interface_name serving_enabled w
  = (Ok {| cls_name := name; cls_bases := bases; cls_dict := namespace;
           _dbus_declared_interfaces := Some declared;
           _dbus_interface_name := interface_name;
           _dbus_serving_enabled := serving_enabled |}, w1).
Proof.
  intros Hstamp Hsuper Hnew. unfold __new__.
  rewrite (bind_ok _ _ _ _ _ Hstamp), (bind_ok _ _ _ _ _ Hsuper).
  replace (filter (λ k, k ∈ super_declared) (namespace.*1)) with (@nil string).
  - reflexivity.
  - symmetry. induction (namespace.*1) as [|k l IH]; [reflexivity|].
    rewrite filter_cons. destruct (decide (k ∈ super_declared)) as [Hk|Hk].
    + exfalso. apply (Hnew k); [left | exact Hk].
    + apply IH. intros k' Hk'. apply Hnew. now right.
Qed.

(** What the second loop collects: the sets of the direct bases, each
    base's own. *)
Lemma super_loop_run bases :
  ∀ acc w,
    Forall (λ base, issubclass_DbusInterfaceBase base = true ->
                    is_Some (_dbus_declared_interfaces base)) bases ->
    super_loop bases acc w
    = (Ok (foldl (λ acc base,
                    if issubclass_DbusInterfaceBase base
                    then acc ∪ default ∅ (_dbus_declared_interfaces base)
                    else acc) acc bases), w).
Proof.
  induction bases as [|base bases IH]; intros acc w Hbases; [reflexivity|].
  apply Forall_cons in Hbases as [Hbase Hbases].
  cbn [super_loop foldl].
  destruct (issubclass_DbusInterfaceBase base).
  - destruct (Hbase eq_refl) as [declared Hdeclared].
    rewrite Hdeclared. cbn [default]. now apply IH.
  - now apply IH.
Qed.

Import Samples.

(** C5 at [ping], the dbus method that [DbusInterfaceCommon] has from
    its base [DbusPeerInterface] and [GoodDbusInterface] from
    [DbusInterfaceCommon].  The four class
    statements of the test that redeclare a member of the direct base
    fail with [TypeError] and the one that adds [new_method] succeeds;
    but a class statement that binds [ping] to a plain function, under
    [GoodDbusInterface] or under [DbusInterfaceCommon] itself, succeeds
    too and leaves the plain function in the place of the dbus
    method. *)
Theorem inherited_member_shadowed :
  bases_binding "ping" (fst (library_classes blank_world))
    = [("DbusPeerInterface", Some (NsDbus 0));
       ("DbusIntrospectable", None)]
  ∧ outcome "test_method"
    (fst (subclass_with_function "BadMethodOverrideClass" "test_method"
                                 blank_world))
    = Failed (TypeError overload_message)
  ∧ outcome "test_method"
      (fst (subclass_with_dbus_method "BadDbusMethodOverrideClass"
                                      "test_method" blank_world))
    = Failed (TypeError overload_message)
  ∧ outcome "test_property"
      (fst (subclass_with_function "BadPropertyOverrideClass"
                                   "test_property" blank_world))
    = Failed (TypeError overload_message)
  ∧ outcome "test_property"
      (fst (subclass_with_dbus_property "BadDbusPropertyOverrideClass"
                                        "test_property" blank_world))
    = Failed (TypeError overload_message)
  ∧ outcome "new_method"
      (fst (subclass_with_function "GoodSubclass" "new_method" blank_world))
    = Constructed (Some (NsFunction (plain "new_method")))
  ∧ outcome "ping"
      (fst (subclass_with_function "Shadow" "ping" blank_world))
    = Constructed (Some (NsFunction (plain "ping")))
  ∧ outcome "ping"
      (fst (common_subclass_with_function "Shadow" "ping" blank_world))
    = Constructed (Some (NsFunction (plain "ping"))).
Proof. repeat split; vm_compute; reflexivity. Qed.

End MetaFacts.

(** ** Descriptors under the operations *)

Module DescriptorFacts.

Lemma keeps_ret {A} (x : A) : keeps (mret x).
Proof. intros w a d H. exact H. Qed.

Lemma keeps_raise {A} e : keeps (@raise A e).
Proof. intros w a d H. exact H. Qed.

Lemma keeps_lift {A} (r : Result A) : keeps (lift r).
Proof. intros w a d H. exact H. Qed.

Lemma keeps_bind {A B} (m : M A) (f : A -> M B) :
  keeps m -> (∀ x, keeps (f x)) -> keeps (m ≫= f).
Proof.
  intros Hm Hf w a d H. unfold mbind, M_bind.
  specialize (Hm w a d H). destruct (m w) as [[x|e] w1]; simpl in *.
  - now apply Hf.
  - exact Hm.
Qed.

Lemma keeps_dangling {A} : keeps (@dangling A).
Proof. apply keeps_raise. Qed.

Lemma keeps_instance_at obj : keeps (instance_at obj).
Proof.
  intros w a d H. unfold instance_at.
  now destruct (instances w !! obj).
Qed.

Lemma keeps_update_instance obj f : keeps (update_instance obj f).
Proof.
  intros w a d H. unfold update_instance.
  now destruct (instances w !! obj).
Qed.

Lemma keeps_descriptor_at x : keeps (descriptor_at x).
Proof.
  intros w a d H. unfold descriptor_at.
  now destruct (descriptors w !! x).
Qed.

Lemma keeps_get_world : keeps get_world.
Proof. intros w a d H. exact H. Qed.

Lemma keeps_bus_do action : keeps (bus_do action).
Proof. intros w a d H. exact H. Qed.

Lemma keeps_new_instance i : keeps (new_instance i).
Proof. intros w a d H. exact H. Qed.

Lemma keeps_new_queue : keeps new_queue.
Proof. intros w a d H. exact H. Qed.

Lemma keeps_new_descriptor x : keeps (new_descriptor x).
Proof.
  intros w a d H. unfold new_descriptor. cbn [snd descriptors set_descriptors].
  now apply lookup_app_l_Some.
Qed.

Lemma keeps_put_nowait q item : keeps (DbusSignalBinded.put_nowait q item).
Proof.
  intros w a d H. unfold DbusSignalBinded.put_nowait.
  now destruct (queues w !! q) as [[]|].
Qed.

Lemma keeps_weak_ref_call r : keeps (DbusSignalBinded.weak_ref_call r).
Proof.
  intros w a d H. unfold DbusSignalBinded.weak_ref_call.
  now destruct (queues w !! r) as [[]|].
Qed.

Create HintDb keeps.
#[local] Hint Resolve keeps_ret keeps_raise keeps_lift keeps_dangling
  keeps_instance_at keeps_update_instance keeps_descriptor_at
  keeps_get_world keeps_bus_do keeps_new_instance keeps_new_queue
  keeps_new_descriptor keeps_put_nowait keeps_weak_ref_call : keeps.

(** Goes through a computation built from the pieces above. *)
Ltac keeps_step :=
  match goal with
  | |- keeps (_ ≫= _) => apply keeps_bind; [|intros ?]
  | |- keeps (match ?x with _ => _ end) => destruct x
  | |- keeps (if ?b then _ else _) => destruct b
  | |- keeps (let '(_, _) := ?x in _) => destruct x
  | |- keeps _ => solve [auto with keeps]
  end.

Ltac keeps_all := repeat keeps_step.

Lemma keeps_getattr {A} obj name (field : Instance -> option A) :
  keeps (getattr obj name field).
Proof. unfold getattr. keeps_all. Qed.

Lemma keeps_assert b : keeps (assert b).
Proof. unfold assert. keeps_all. Qed.

Lemma keeps_assert_not_None {A} (x : option A) : keeps (assert_not_None x).
Proof. unfold assert_not_None. keeps_all. Qed.

Lemma keeps_method_at x : keeps (method_at x).
Proof. unfold method_at. keeps_all. Qed.

Lemma keeps_property_at x : keeps (property_at x).
Proof. unfold property_at. keeps_all. Qed.

Lemma keeps_signal_at x : keeps (signal_at x).
Proof. unfold signal_at. keeps_all. Qed.

Lemma keeps_call_function f obj args kwargs :
  keeps (call_function f obj args kwargs).
Proof. unfold call_function. keeps_all. Qed.

Lemma keeps_bus_call_async bus message : keeps (bus_call_async bus message).
Proof. unfold bus_call_async. keeps_all. Qed.

Lemma keeps_await f returned : keeps (await f returned).
Proof. unfold await. keeps_all. Qed.

#[local] Hint Resolve keeps_getattr keeps_assert keeps_assert_not_None
  keeps_method_at keeps_property_at keeps_signal_at keeps_call_function
  keeps_bus_call_async keeps_await : keeps.

Lemma keeps_for_each {A} (l : list A) (body : A -> M unit) :
  (∀ x, keeps (body x)) -> keeps (for_each l body).
Proof.
  intros Hbody. induction l as [|x l IH]; simpl; [auto with keeps|].
  apply keeps_bind; [apply Hbody | intros _; exact IH].
Qed.

Lemma keeps_discard {A} (m : M A) : keeps m -> keeps (discard m).
Proof. intros H. unfold discard. apply keeps_bind; auto with keeps. Qed.

(** The bound members *)

Lemma keeps_call_dbus self args : keeps (DbusMethodBinded._call_dbus self args).
Proof. unfold DbusMethodBinded._call_dbus. keeps_all. Qed.

Lemma keeps_rebuild_args self f args kwargs :
  keeps (DbusMethodBinded._rebuild_args self f args kwargs).
Proof. unfold DbusMethodBinded._rebuild_args. keeps_all. Qed.

#[local] Hint Resolve keeps_call_dbus keeps_rebuild_args : keeps.

Lemma keeps_call self args kwargs :
  keeps (DbusMethodBinded.__call__ self args kwargs).
Proof. unfold DbusMethodBinded.__call__. keeps_all. Qed.

Lemma keeps_call_from_dbus self request_message :
  keeps (DbusMethodBinded._call_from_dbus self request_message).
Proof. unfold DbusMethodBinded._call_from_dbus. keeps_all. Qed.

Lemma keeps_get_sync self : keeps (DbusPropertyBinded.get_sync self).
Proof. unfold DbusPropertyBinded.get_sync. keeps_all. Qed.

Lemma keeps_set_sync self v : keeps (DbusPropertyBinded.set_sync self v).
Proof. unfold DbusPropertyBinded.set_sync. keeps_all. Qed.

Lemma keeps_get_async self : keeps (DbusPropertyBinded.get_async self).
Proof. unfold DbusPropertyBinded.get_async. keeps_all. Qed.

Lemma keeps_set_async self v : keeps (DbusPropertyBinded.set_async self v).
Proof. unfold DbusPropertyBinded.set_async. keeps_all. Qed.

Lemma keeps_get_dbus_queue self : keeps (DbusSignalBinded._get_dbus_queue self).
Proof. unfold DbusSignalBinded._get_dbus_queue. keeps_all. Qed.

Lemma keeps_get_local_queue self :
  keeps (DbusSignalBinded._get_local_queue self).
Proof. unfold DbusSignalBinded._get_local_queue. keeps_all. Qed.

Lemma keeps_cleanup_local_queue self r :
  keeps (DbusSignalBinded._cleanup_local_queue self r).
Proof. unfold DbusSignalBinded._cleanup_local_queue. keeps_all. Qed.

Lemma keeps_emit_message self args :
  keeps (DbusSignalBinded._emit_message self args).
Proof. unfold DbusSignalBinded._emit_message. keeps_all. Qed.

#[local] Hint Resolve keeps_get_dbus_queue keeps_get_local_queue
  keeps_cleanup_local_queue keeps_emit_message : keeps.

Lemma keeps_aiter self : keeps (DbusSignalBinded.__aiter__ self).
Proof. unfold DbusSignalBinded.__aiter__. keeps_all. Qed.

Lemma keeps_emit self args : keeps (DbusSignalBinded.emit self args).
Proof.
  unfold DbusSignalBinded.emit.
  apply keeps_bind; [auto with keeps | intros activated].
  apply keeps_bind; [destruct activated; auto with keeps | intros _].
  apply keeps_bind; [auto with keeps | intros table].
  destruct (table !! _); [|auto with keeps].
  apply keeps_for_each. intros r. keeps_all.
Qed.

Lemma keeps_collect self r : keeps (DbusSignalBinded.collect self r).
Proof.
  unfold DbusSignalBinded.collect.
  apply keeps_bind; [|intros _; auto with keeps].
  intros w a d H. exact H.
Qed.

(** The instances *)

Lemma keeps_getmembers attrs obj : keeps (getmembers attrs obj).
Proof.
  induction attrs as [|[key value] attrs IH]; simpl; [auto with keeps|].
  destruct value; try (apply keeps_bind; [exact IH | intros ?; auto with keeps]).
  apply keeps_bind; [unfold __get__; keeps_all|intros ?].
  apply keeps_bind; [exact IH | intros ?; auto with keeps].
Qed.

Lemma keeps_group_loop members :
  ∀ interface_map, keeps (DbusInterfaceBase.group_loop members interface_map).
Proof.
  induction members as [|[key value] members IH]; intros interface_map;
    simpl; [auto with keeps|].
  destruct value; try apply IH.
  - apply keeps_bind; [auto with keeps|intros m].
    destruct (negb _); [apply IH|].
    apply keeps_bind; [auto with keeps|intros ?; apply IH].
  - apply keeps_bind; [auto with keeps|intros p].
    destruct (negb _); [apply IH|].
    apply keeps_bind; [auto with keeps|intros ?; apply IH].
Qed.

Lemma keeps_fill_interface member_list :
  ∀ new_interface,
    keeps (DbusInterfaceBase.fill_interface member_list new_interface).
Proof.
  induction member_list as [|member member_list IH]; intros new_interface;
    simpl; [auto with keeps|].
  destruct member; try (apply keeps_bind; [auto with keeps|intros ?; apply IH]).
  auto with keeps.
Qed.

Lemma keeps_append_activated self new_interface :
  keeps (DbusInterfaceBase.append_activated self new_interface).
Proof. unfold DbusInterfaceBase.append_activated. keeps_all. Qed.

Lemma keeps_register_loop self bus object_path interface_map :
  keeps (DbusInterfaceBase.register_loop self bus object_path interface_map).
Proof.
  induction interface_map as [|[name member_list] rest IH]; simpl;
    [auto with keeps|].
  apply keeps_bind; [apply keeps_fill_interface|intros ?].
  apply keeps_bind; [auto with keeps|intros ?].
  apply keeps_bind; [apply keeps_append_activated|intros ?].
  exact IH.
Qed.

Lemma keeps_start_serving self attrs bus object_path :
  keeps (DbusInterfaceBase.start_serving self attrs bus object_path).
Proof.
  unfold DbusInterfaceBase.start_serving.
  apply keeps_bind; [auto with keeps|intros ?].
  apply keeps_bind; [apply keeps_getmembers|intros ?].
  apply keeps_bind; [apply keeps_group_loop|intros ?].
  apply keeps_register_loop.
Qed.

Lemma keeps_connect self bus service_name object_path :
  keeps (DbusInterfaceBase._connect self bus service_name object_path).
Proof. unfold DbusInterfaceBase._connect. auto with keeps. Qed.

Lemma keeps_construct cls : keeps (DbusInterfaceBase.construct cls).
Proof.
  unfold DbusInterfaceBase.construct, DbusInterfaceBase.object__new__,
    DbusInterfaceBase.__init__.
  keeps_all.
Qed.

Lemma keeps_new_connect cls bus service_name object_path :
  keeps (DbusInterfaceBase.new_connect cls bus service_name object_path).
Proof.
  unfold DbusInterfaceBase.new_connect, DbusInterfaceBase.object__new__.
  apply keeps_bind; [auto with keeps|intros ?].
  apply keeps_bind; [auto with keeps|intros ?].
  apply keeps_bind; [apply keeps_connect|intros ?].
  auto with keeps.
Qed.

(** The decorators only create *)

Lemma keeps_dbus_method method_name input_signature result_signature
    result_args_names flags async_function :
  keeps (dbus_method method_name input_signature result_signature
                     result_args_names flags async_function).
Proof. unfold dbus_method. keeps_all. Qed.

Lemma keeps_dbus_property property_signature property_name flags function :
  keeps (dbus_property property_signature property_name flags function).
Proof. unfold dbus_property. keeps_all. Qed.

(** The class statement *)

Lemma keeps_super_loop bases : ∀ acc, keeps (DbusInterfaceMeta.super_loop bases acc).
Proof.
  induction bases as [|base bases IH]; intros acc; simpl; [auto with keeps|].
  destruct (issubclass_DbusInterfaceBase base); [|apply IH].
  destruct (_dbus_declared_interfaces base); [apply IH|auto with keeps].
Qed.

Lemma keeps_at_update_descriptor a x f :
  x ≠ a -> keeps_at a (update_descriptor x f).
Proof.
  intros Hne w d H. unfold update_descriptor.
  destruct (descriptors w !! x); [|exact H].
  cbn [snd descriptors set_descriptors].
  now rewrite list_lookup_insert_ne.
Qed.

Lemma keeps_at_bind {A B} a (m : M A) (f : A -> M B) :
  keeps_at a m -> (∀ x, keeps_at a (f x)) -> keeps_at a (m ≫= f).
Proof.
  intros Hm Hf w d H. unfold mbind, M_bind.
  specialize (Hm w d H). destruct (m w) as [[x|e] w1]; simpl in *.
  - now apply Hf.
  - exact Hm.
Qed.

Lemma keeps_keeps_at {A} a (m : M A) : keeps m -> keeps_at a m.
Proof. intros H w d. apply H. Qed.

(** Stamping reaches the descriptors the class body binds, no other. *)
Lemma keeps_at_stamp_loop a items interface_name serving_enabled :
  binds items a = false ->
  ∀ declared,
    keeps_at a (DbusInterfaceMeta.stamp_loop items interface_name
                                             serving_enabled declared).
Proof.
  unfold binds.
  induction items as [|[key value] items IH]; intros Hbinds declared; simpl.
  - apply keeps_keeps_at. auto with keeps.
  - simpl in Hbinds. apply orb_false_elim in Hbinds as [Hvalue Hitems].
    destruct value as [x|f|f|v|l|t]; try (now apply IH).
    apply keeps_at_bind.
    + apply keeps_at_update_descriptor. now apply Nat.eqb_neq in Hvalue.
    + intros _. now apply IH.
Qed.

(** An override writes to the copy it has just made. *)
Lemma keeps_copy_then_update {B} x (f : DbusSomething -> DbusSomething)
    (k : addr -> M B) :
  (∀ n, keeps (k n)) ->
  keeps (new_dbus_def ← new_descriptor x;
         update_descriptor new_dbus_def f ;; k new_dbus_def).
Proof.
  intros Hk w a d H. unfold new_descriptor, update_descriptor.
  unfold mbind, M_bind. cbn [descriptors set_descriptors].
  rewrite list_lookup_middle by reflexivity.
  apply Hk. cbn [descriptors set_descriptors].
  pose proof (lookup_lt_Some _ _ _ H) as Hlt.
  rewrite list_lookup_insert_ne by lia.
  now apply lookup_app_l_Some.
Qed.

Lemma keeps_overload_loop bases keys :
  ∀ namespace declared sc_dbus_def,
    keeps (DbusInterfaceMeta.overload_loop bases keys namespace declared
                                           sc_dbus_def).
Proof.
  induction keys as [|key keys IH]; intros namespace declared sc;
    simpl; [auto with keeps|].
  destruct (ns_lookup key namespace) as [[x|f|original|v|l|t]|];
    auto with keeps.
  destruct (match DbusInterfaceMeta.first_base_with key bases with
            | Some v => Some v
            | None => sc
            end) as [[x|f|f|v|l|t]|]; auto with keeps.
  apply keeps_bind; [auto with keeps|intros d].
  destruct d as [m|p|s].
  - apply (keeps_copy_then_update _ _
             (λ n, DbusInterfaceMeta.overload_loop bases keys
                     (ns_update key (NsDbus n) namespace)
                     (declared ∪ {[key]}) (Some (NsDbus x)))).
    intros n. apply IH.
  - apply keeps_bind; auto with keeps.
  - apply keeps_bind; auto with keeps.
Qed.

Lemma keeps_at_new a name bases namespace interface_name serving_enabled :
  binds namespace a = false ->
  keeps_at a (DbusInterfaceMeta.__new__ name bases namespace interface_name
                                        serving_enabled).
Proof.
  intros Hbinds. unfold DbusInterfaceMeta.__new__.
  apply keeps_at_bind; [now apply keeps_at_stamp_loop|intros declared].
  apply keeps_keeps_at.
  apply keeps_bind; [apply keeps_super_loop|intros super_declared].
  apply keeps_bind; [apply keeps_overload_loop|intros [ns ds]].
  auto with keeps.
Qed.

Lemma keeps_at_setter a self new_set_function :
  self ≠ a -> keeps_at a (DbusProperty_setter self new_set_function).
Proof.
  intros Hne. unfold DbusProperty_setter.
  apply keeps_at_bind; [apply keeps_keeps_at; auto with keeps|intros p].
  intros w d H. cbn [snd descriptors set_descriptors].
  now rewrite list_lookup_insert_ne.
Qed.

(** C9, as the code has it.  A descriptor that exists is left as it is
    by every operation, apart from the two that assign to its fields:
    the class statement whose body binds a name to it, which stamps
    its interface name and serving flag, and [DbusProperty.setter] on
    it, which replaces [property_set] and can be called at any time.
    An override works on a copy. *)
Theorem descriptors_kept (op : Operation) (w : World) (a : addr)
    (d : DbusSomething) :
  descriptors w !! a = Some d ->
  assigns_to op a = false ->
  descriptors (snd (run op w)) !! a = Some d.
Proof.
  intros Hd Hop. revert w d Hd. change (keeps_at a (run op)).
  destruct op; cbn [run assigns_to] in *;
    try (apply keeps_keeps_at;
         first [ apply keeps_discard | idtac ];
         first [ apply keeps_call | apply keeps_call_from_dbus
               | apply keeps_get_sync | apply keeps_set_sync
               | apply keeps_get_async | apply keeps_set_async
               | apply keeps_aiter | apply keeps_emit | apply keeps_collect
               | apply keeps_construct | apply keeps_start_serving
               | apply keeps_connect | apply keeps_new_connect
               | apply keeps_dbus_method | apply keeps_dbus_property ]).
  - unfold discard. apply keeps_at_bind; [now apply keeps_at_new|].
    intros _. apply keeps_keeps_at. auto with keeps.
  - apply keeps_at_setter. now apply Nat.eqb_neq in Hop.
Qed.

End DescriptorFacts.

Module DescriptorWitness.
Import Samples.

(** Emitting, serving and subclassing leave [test_property] of
    [GoodDbusInterface] alone. *)
Lemma descriptors_kept_witness :
  descriptors (snd (good_interface blank_world)) !! 4%nat
    = Some (Property (DbusProperty.__init__ "TestProperty" "s"
                                            test_property None 0))
  ∧ descriptors
      (snd (run (OpClass "Child" [] [("extra", NsFunction (plain "extra"))]
                         None true)
                (snd (good_interface blank_world)))) !! 4%nat
    = Some (Property (DbusProperty.__init__ "TestProperty" "s"
                                            test_property None 0)).
Proof.
  assert (Hbefore :
    descriptors (snd (good_interface blank_world)) !! 4%nat
    = Some (Property (DbusProperty.__init__ "TestProperty" "s"
                                            test_property None 0)))
    by (vm_compute; reflexivity).
  split; [exact Hbefore|].
  exact (DescriptorFacts.descriptors_kept
           (OpClass "Child" [] [("extra", NsFunction (plain "extra"))]
                    None true)
           (snd (good_interface blank_world)) 4%nat _ Hbefore eq_refl).
Defined.

(** C9 as stated fails: after [GoodDbusInterface] has been
    constructed, [setter] on the descriptor of [test_property] gives
    it a setter it did not have, and a bound member of any instance
    sees the change: [set_sync], which raised, now goes through. *)
Lemma setter_changes_descriptor :
  ¬ descriptors_frozen (snd (good_interface blank_world))
  ∧ (let w := snd (good_object blank_world) in
     let member := {| DbusPropertyBinded.dbus_property := 4;
                      DbusPropertyBinded.interface := 0 |} in
     fst (DbusPropertyBinded.set_sync member (PyStr "x") w)
       = Raise (ValueError "Property has no setter")
     ∧ fst (DbusPropertyBinded.set_sync member (PyStr "x")
              (snd (DbusProperty_setter 4 (plain "set_it") w)))
       = Ok tt).
Proof.
  split.
  - intros Hfrozen.
    specialize (Hfrozen (OpSetter 4 (plain "set_it")) 4%nat
                  (Property (DbusProperty.__init__ "TestProperty" "s"
                                                   test_property None 0))).
    assert (Hafter :
      descriptors (snd (run (OpSetter 4 (plain "set_it"))
                            (snd (good_interface blank_world)))) !! 4%nat
      = Some (Property (DbusProperty.with_property_set (plain "set_it")
                          (DbusProperty.__init__ "TestProperty" "s"
                                                 test_property None 0))))
      by (vm_compute; reflexivity).
    rewrite Hafter in Hfrozen.
    specialize (Hfrozen ltac:(vm_compute; reflexivity)).
    discriminate Hfrozen.
  - split; vm_compute; reflexivity.
Qed.
End DescriptorWitness.


(** ** The sample worlds are what the code produces *)

Module SampleFacts.
Import Samples.

Lemma declare_served_run :
  fst (declare_served blank_world) = Ok Served_class
  ∧ descriptors (snd (declare_served blank_world)) = descriptors declared_world.
Proof. split; vm_compute; reflexivity. Qed.

Lemma unbound_object_constructed :
  instances (snd (DbusInterfaceBase.construct
                    {| cls_name := "GoodDbusInterface"; cls_bases := [];
                       cls_dict := []; _dbus_declared_interfaces := None;
                       _dbus_interface_name := None;
                       _dbus_serving_enabled := true |} blank_world))
  = [unbound_object].
Proof. vm_compute. reflexivity. Qed.

Lemma proxy_object_connected :
  instances (snd (DbusInterfaceBase.new_connect
                    {| cls_name := "GoodDbusInterface";
                       cls_bases := [DbusInterfaceBase_class];
                       cls_dict := []; _dbus_declared_interfaces := None;
                       _dbus_interface_name := None;
                       _dbus_serving_enabled := true |}
                    0 "org.example" "/" blank_world))
  = [proxy_object].
Proof. vm_compute. reflexivity. Qed.

Lemma serving_world_objects :
  instances serving_world = [serving_object]
  ∧ queues serving_world = [Some []; Some []]
  ∧ bus_log serving_world
    = [add_interface 0 served_interface "/obj" "org.example.Test"].
Proof. repeat split; vm_compute; reflexivity. Qed.

Lemma listening_world_objects :
  instances listening_world = [listening_object]
  ∧ queues listening_world = [Some []]
  ∧ bus_log listening_world = [].
Proof. repeat split; vm_compute; reflexivity. Qed.

End SampleFacts.

(** ** The life of a local subscription *)

Module SubscriptionFacts.
Import DbusSignal DbusSignalBinded EmitSpec.

Lemma live_lt qs q : live qs q -> (q < length qs)%nat.
Proof. intros [items Hq]. now apply lookup_lt_Some in Hq. Qed.

Lemma live_app qs q : live qs q -> live (qs ++ [Some []]) q.
Proof. intros [items Hq]. exists items. now apply lookup_app_l_Some. Qed.

Lemma live_collect_other qs q r :
  r ≠ q -> live qs q -> live (<[r := None]> qs) q.
Proof. intros Hne [items Hq]. exists items. now rewrite list_lookup_insert_ne. Qed.

Lemma not_live_collected qs q : ¬ live (<[q := None]> qs) q.
Proof.
  intros [items Hq].
  destruct (decide (q < length qs)%nat) as [Hlt|Hge].
  - rewrite list_lookup_insert_eq in Hq by exact Hlt. discriminate Hq.
  - apply lookup_lt_Some in Hq. rewrite length_insert in Hq. lia.
Qed.

(** [list.remove] on a list without repetition. *)
Lemma list_remove_NoDup q refs :
  q ∈ refs -> NoDup refs ->
  ∃ remaining,
    list_remove q refs = Some remaining
    ∧ NoDup remaining
    ∧ (q ∉ remaining)
    ∧ (∀ x, x ∈ remaining ↔ (x ∈ refs ∧ x ≠ q)).
Proof.
  induction refs as [|y refs IH]; intros Hin Hnodup; [inversion Hin|].
  apply NoDup_cons in Hnodup as [Hy Hrefs]. simpl.
  destruct (Nat.eqb_spec q y) as [->|Hne].
  - exists refs. split; [reflexivity|]. split; [exact Hrefs|].
    split; [exact Hy|]. intros x. split.
    + intros Hx. split; [now right|]. intros ->. contradiction.
    + intros [Hx Hxy]. apply elem_of_cons in Hx as [?|?]; congruence.
  - apply elem_of_cons in Hin as [?|Hin]; [congruence|].
    destruct (IH Hin Hrefs) as (remaining & Hremove & Hnd & Hq & Hiff).
    rewrite Hremove.
    exists (y :: remaining). split; [reflexivity|]. split; [|split].
    + apply NoDup_cons. split; [|exact Hnd].
      intros Hy'. apply Hiff in Hy' as [? _]. contradiction.
    + intros Hq'. apply elem_of_cons in Hq' as [?|?];
        [congruence|contradiction].
    + intros x. split.
      * intros Hx. apply elem_of_cons in Hx as [->|Hx].
        -- split; [left | congruence].
        -- apply Hiff in Hx as [Hx Hxq]. split; [now right | exact Hxq].
      * intros [Hx Hxq]. apply elem_of_cons in Hx as [->|Hx]; [left|].
        right. apply Hiff. auto.
Qed.

(** An object that has just been constructed has no subscription. *)
Lemma construct_subscribers_live (w : World) (cls : PyClass) :
  fst (DbusInterfaceBase.construct cls w) = Ok (length (instances w))
  ∧ subscribers_live (snd (DbusInterfaceBase.construct cls w))
                     (length (instances w)).
Proof.
  unfold DbusInterfaceBase.construct, DbusInterfaceBase.object__new__,
    DbusInterfaceBase.__init__, new_instance.
  unfold_monad. cbn [instances set_instances].
  rewrite list_lookup_middle by reflexivity. cbn [fst snd].
  split; [reflexivity|].
  eexists _, ∅. cbn [instances set_instances].
  split.
  { rewrite insert_app_r_alt, Nat.sub_diag by lia.
    now apply list_lookup_middle. }
  split; [reflexivity|split].
  - intros signal refs H. rewrite lookup_empty in H. discriminate H.
  - intros s1 s2 r1 r2 q H. rewrite lookup_empty in H. discriminate H.
Qed.

(** Subscribing creates a queue, live and listed, and keeps the
    subscriptions in order. *)
Lemma get_local_queue_subscribers_live (w : World) (self : DbusSignalBinded.t) :
  subscribers_live w (interface self) ->
  let q := length (queues w) in
  let w' := snd (_get_local_queue self w) in
  fst (_get_local_queue self w) = Ok q
  ∧ subscribers_live w' (interface self)
  ∧ subscribed w' (interface self) (dbus_signal self) q
  ∧ queues w' !! q = Some (Some [])
  ∧ ∀ q', live (queues w) q' -> live (queues w') q'.
Proof.
  intros (i & table & Hi & Htable & Hlists & Hapart). cbv zeta.
  assert (Hlt : (interface self < length (instances w))%nat)
    by now apply lookup_lt_Some in Hi.
  assert (Hrun : _get_local_queue self w
    = (Ok (length (queues w)),
       set_instances
         (<[interface self :=
              {| ob_type := ob_type i;
                 activated_interfaces := activated_interfaces i;
                 is_binded := is_binded i;
                 remote_service_name := remote_service_name i;
                 remote_object_path := remote_object_path i;
                 attached_bus := attached_bus i;
                 serving_object_path := serving_object_path i;
                 _local_signal_queues :=
                   Some (<[dbus_signal self :=
                             (default [] (table !! dbus_signal self)
                              ++ [length (queues w)])%list]> table);
                 user_state := user_state i |}]> (instances w))
         (set_queues (queues w ++ [Some []]) w))).
  { unfold _get_local_queue, new_queue. unfold_monad.
    rewrite Hi, Htable. cbn [instances set_queues]. now rewrite Hi. }
  rewrite Hrun. cbn [fst snd instances queues set_instances set_queues].
  set (refs := default [] (table !! dbus_signal self)).
  assert (Hrefs : NoDup refs ∧ Forall (live (queues w)) refs).
  { subst refs. destruct (table !! dbus_signal self) as [l|] eqn:Hl.
    - exact (Hlists _ _ Hl).
    - split; constructor. }
  destruct Hrefs as [Hnodup Hlive].
  assert (Hfresh : ∀ signal l, table !! signal = Some l ->
                               length (queues w) ∉ l).
  { intros signal l Hl Hin. destruct (Hlists _ _ Hl) as [_ Hall].
    rewrite Forall_forall in Hall. apply Hall, live_lt in Hin. lia. }
  split; [reflexivity|]. split; [|split; [|split]].
  - eexists _, _. split; [now apply list_lookup_insert_eq|].
    split; [reflexivity|]. split.
    + intros signal l Hl.
      destruct (decide (dbus_signal self = signal)) as [<-|Hne].
      * rewrite lookup_insert_eq in Hl. injection Hl as <-. split.
        -- apply NoDup_app. repeat split; [exact Hnodup| |apply NoDup_singleton].
           intros x Hx Hx'. apply list_elem_of_singleton in Hx' as ->.
           rewrite Forall_forall in Hlive. apply Hlive, live_lt in Hx. lia.
        -- apply Forall_app. split.
           ++ eapply Forall_impl; [exact Hlive|]. intros x. apply live_app.
           ++ constructor; [|constructor]. exists [].
              now apply list_lookup_middle.
      * rewrite lookup_insert_ne in Hl by exact Hne.
        destruct (Hlists _ _ Hl) as [Hnd Hall]. split; [exact Hnd|].
        eapply Forall_impl; [exact Hall|]. intros x. apply live_app.
    + intros s1 s2 r1 r2 q H1 H2 Hq1 Hq2.
      destruct (decide (dbus_signal self = s1)) as [<-|Hne1];
        destruct (decide (dbus_signal self = s2)) as [<-|Hne2];
        try reflexivity.
      * rewrite lookup_insert_eq in H1. injection H1 as <-.
        rewrite lookup_insert_ne in H2 by exact Hne2.
        apply elem_of_app in Hq1 as [Hq1|Hq1].
        -- subst refs. destruct (table !! dbus_signal self) as [l|] eqn:Hl;
             [|inversion Hq1].
           exact (Hapart _ _ _ _ _ Hl H2 Hq1 Hq2).
        -- apply list_elem_of_singleton in Hq1 as ->.
           now apply Hfresh in H2.
      * rewrite lookup_insert_ne in H1 by exact Hne1.
        rewrite lookup_insert_eq in H2. injection H2 as <-.
        apply elem_of_app in Hq2 as [Hq2|Hq2].
        -- subst refs. destruct (table !! dbus_signal self) as [l|] eqn:Hl;
             [|inversion Hq2].
           exact (Hapart _ _ _ _ _ H1 Hl Hq1 Hq2).
        -- apply list_elem_of_singleton in Hq2 as ->.
           now apply Hfresh in H1.
      * rewrite lookup_insert_ne in H1 by exact Hne1.
        rewrite lookup_insert_ne in H2 by exact Hne2.
        exact (Hapart _ _ _ _ _ H1 H2 Hq1 Hq2).
  - eexists _, _, _. split; [now apply list_lookup_insert_eq|].
    split; [reflexivity|]. split; [apply lookup_insert_eq|].
    apply elem_of_app. right. left.
  - now apply list_lookup_middle.
  - intros q'. apply live_app.
Qed.

(** Collecting a subscribed queue runs the cleanup: the reference leaves
    its list, the queue is gone, and the subscriptions are in order. *)
Lemma collect_subscribers_live (w : World) (self : DbusSignalBinded.t)
    (q : addr) :
  subscribers_live w (interface self) ->
  subscribed w (interface self) (dbus_signal self) q ->
  let w' := snd (collect self q w) in
  fst (collect self q w) = Ok tt
  ∧ subscribers_live w' (interface self)
  ∧ (∀ signal, ¬ subscribed w' (interface self) signal q)
  ∧ ¬ live (queues w') q.
Proof.
  intros (i & table & Hi & Htable & Hlists & Hapart)
         (i' & table' & refs & Hi' & Htable' & Hrefs & Hq).
  rewrite Hi in Hi'. injection Hi' as <-.
  rewrite Htable in Htable'. injection Htable' as <-.
  destruct (Hlists _ _ Hrefs) as [Hnodup Hlive].
  destruct (list_remove_NoDup q refs Hq Hnodup)
    as (remaining & Hremove & Hnd & Hgone & Hiff).
  assert (Hlt : (interface self < length (instances w))%nat)
    by now apply lookup_lt_Some in Hi.
  cbv zeta.
  assert (Hrun : collect self q w
    = (Ok tt,
       set_instances
         (<[interface self :=
              {| ob_type := ob_type i;
                 activated_interfaces := activated_interfaces i;
                 is_binded := is_binded i;
                 remote_service_name := remote_service_name i;
                 remote_object_path := remote_object_path i;
                 attached_bus := attached_bus i;
                 serving_object_path := serving_object_path i;
                 _local_signal_queues :=
                   Some (<[dbus_signal self := remaining]> table);
                 user_state := user_state i |}]> (instances w))
         (set_queues (<[q := None]> (queues w)) w))).
  { unfold collect, _cleanup_local_queue. unfold_monad.
    cbn [instances set_queues]. rewrite Hi, Htable, Hrefs, Hremove.
    cbn [instances set_queues]. now rewrite Hi. }
  rewrite Hrun. cbn [fst snd instances queues set_instances set_queues].
  split; [reflexivity|].
  assert (Hother : ∀ signal l x,
    table !! signal = Some l -> signal ≠ dbus_signal self -> x ∈ l -> x ≠ q).
  { intros signal l x Hl Hne Hx ->. apply Hne.
    exact (Hapart _ _ _ _ _ Hl Hrefs Hx Hq). }
  split; [|split].
  - eexists _, _. split; [now apply list_lookup_insert_eq|].
    split; [reflexivity|]. split.
    + intros signal l Hl.
      destruct (decide (dbus_signal self = signal)) as [<-|Hne].
      * rewrite lookup_insert_eq in Hl. injection Hl as <-.
        split; [exact Hnd|]. apply Forall_forall. intros x Hx.
        apply Hiff in Hx as [Hx Hxq]. rewrite Forall_forall in Hlive.
        apply live_collect_other; auto.
      * rewrite lookup_insert_ne in Hl by exact Hne.
        destruct (Hlists _ _ Hl) as [Hnd' Hall]. split; [exact Hnd'|].
        apply Forall_forall. intros x Hx. rewrite Forall_forall in Hall.
        apply live_collect_other; [|now apply Hall].
        intros ->. eapply Hother; eauto.
    + intros s1 s2 r1 r2 x H1 H2 Hx1 Hx2.
      destruct (decide (dbus_signal self = s1)) as [<-|Hne1];
        destruct (decide (dbus_signal self = s2)) as [<-|Hne2];
        try reflexivity.
      * rewrite lookup_insert_eq in H1. injection H1 as <-.
        rewrite lookup_insert_ne in H2 by exact Hne2.
        apply Hiff in Hx1 as [Hx1 _].
        exact (Hapart _ _ _ _ _ Hrefs H2 Hx1 Hx2).
      * rewrite lookup_insert_ne in H1 by exact Hne1.
        rewrite lookup_insert_eq in H2. injection H2 as <-.
        apply Hiff in Hx2 as [Hx2 _].
        exact (Hapart _ _ _ _ _ H1 Hrefs Hx1 Hx2).
      * rewrite lookup_insert_ne in H1 by exact Hne1.
        rewrite lookup_insert_ne in H2 by exact Hne2.
        exact (Hapart _ _ _ _ _ H1 H2 Hx1 Hx2).
  - intros signal (i2 & table2 & l & Hi2 & Htable2 & Hl & Hin).
    cbn [instances set_instances] in Hi2.
    rewrite list_lookup_insert_eq in Hi2 by exact Hlt.
    injection Hi2 as <-. cbn [_local_signal_queues] in Htable2.
    injection Htable2 as <-.
    destruct (decide (dbus_signal self = signal)) as [<-|Hne].
    + rewrite lookup_insert_eq in Hl. injection Hl as <-. contradiction.
    + rewrite lookup_insert_ne in Hl by exact Hne.
      eapply Hother; eauto.
  - apply not_live_collected.
Qed.

(** Emission changes no object and collects no queue, whether it
    returns or raises. *)
Lemma gentle_ret {A} (x : A) : gentle (mret x).
Proof. intros w. auto. Qed.

Lemma gentle_raise {A} e : gentle (@raise A e).
Proof. intros w. auto. Qed.

Lemma gentle_bind {A B} (m : M A) (f : A -> M B) :
  gentle m -> (∀ x, gentle (f x)) -> gentle (m ≫= f).
Proof.
  intros Hm Hf w. unfold mbind, M_bind.
  destruct (Hm w) as (Hi & Hq & Hc). destruct (m w) as [[x|e] w1]; simpl in *.
  - destruct (Hf x w1) as (Hi' & Hq' & Hc').
    split; [congruence|]. split; auto.
  - auto.
Qed.

Lemma gentle_getattr {A} obj name (field : Instance -> option A) :
  gentle (getattr obj name field).
Proof.
  intros w. unfold_monad. destruct (instances w !! obj) as [i|]; [|auto].
  destruct (field i); auto.
Qed.

Lemma gentle_assert_not_None {A} (x : option A) : gentle (assert_not_None x).
Proof. intros w. destruct x; auto. Qed.

Lemma gentle_signal_at a : gentle (signal_at a).
Proof.
  intros w. unfold_monad. destruct (descriptors w !! a) as [[]|]; auto.
Qed.

Lemma gentle_bus_do action : gentle (bus_do action).
Proof. intros w. auto. Qed.

Lemma gentle_emit_message self args : gentle (_emit_message self args).
Proof.
  unfold _emit_message.
  repeat (apply gentle_bind;
          [first [apply gentle_getattr | apply gentle_assert_not_None
                 | apply gentle_signal_at] | intros ?]).
  apply gentle_bus_do.
Qed.

Lemma gentle_put_nowait q item : gentle (put_nowait q item).
Proof.
  intros w. unfold put_nowait.
  destruct (queues w !! q) as [[items|]|] eqn:Hq; auto.
  cbn [snd instances queues set_queues]. split; [reflexivity|]. split.
  - intros q'. apply EmitFacts.live_insert.
  - intros q' Hq'. rewrite list_lookup_insert_ne; [exact Hq'|].
    intros ->. congruence.
Qed.

Lemma gentle_weak_ref_call r : gentle (weak_ref_call r).
Proof.
  intros w. unfold weak_ref_call. destruct (queues w !! r) as [[]|]; auto.
Qed.

Lemma gentle_for_each {A} (l : list A) (body : A -> M unit) :
  (∀ x, gentle (body x)) -> gentle (for_each l body).
Proof.
  intros Hbody. induction l as [|x l IH]; simpl; [apply gentle_ret|].
  apply gentle_bind; [apply Hbody | intros _; exact IH].
Qed.

Lemma gentle_emit self args : gentle (emit self args).
Proof.
  unfold emit.
  apply gentle_bind; [apply gentle_getattr | intros activated].
  apply gentle_bind;
    [destruct activated; [apply gentle_ret | apply gentle_emit_message]
    | intros _].
  apply gentle_bind; [apply gentle_getattr | intros table].
  destruct (table !! _); [|apply gentle_ret].
  apply gentle_for_each. intros r.
  apply gentle_bind; [apply gentle_weak_ref_call | intros ?].
  apply gentle_bind; [apply gentle_assert_not_None | intros ?].
  apply gentle_put_nowait.
Qed.

Lemma emit_subscribers_live (w : World) (self : DbusSignalBinded.t)
    (args : PyValue) (obj : addr) :
  subscribers_live w obj -> subscribers_live (snd (emit self args w)) obj.
Proof.
  intros (i & table & Hi & Htable & Hlists & Hapart).
  destruct (gentle_emit self args w) as (Hsame & Hlive & _).
  exists i, table. rewrite Hsame. repeat split; auto.
  - now apply (Hlists signal refs).
  - destruct (Hlists signal refs H) as [_ Hall].
    eapply Forall_impl; [exact Hall | exact Hlive].
Qed.

(** A collected queue is out of the fan-out for good: whatever is
    emitted afterwards, nothing is put into it. *)
Lemma collected_stays_collected (w : World) (self : DbusSignalBinded.t)
    (args : PyValue) (q : addr) :
  queues w !! q = Some None ->
  queues (snd (emit self args w)) !! q = Some None.
Proof. apply gentle_emit. Qed.

(** So after a subscriber's queue has been collected, an emission that
    was going through still goes through, without the queue. *)
Lemma emit_after_collect (w : World) (self : DbusSignalBinded.t) (q : addr)
    (args : PyValue) :
  subscribers_live w (interface self) ->
  subscribed w (interface self) (dbus_signal self) q ->
  let w1 := snd (collect self q w) in
  subscribers_live (snd (emit self args w1)) (interface self)
  ∧ queues (snd (emit self args w1)) !! q = Some None.
Proof.
  intros Hlive Hq w1.
  destruct (collect_subscribers_live w self q Hlive Hq)
    as (_ & Hlive1 & _ & Hdead).
  fold w1 in Hlive1, Hdead. split.
  - now apply emit_subscribers_live.
  - apply collected_stays_collected.
    destruct Hq as (i & table & refs & Hi & Htable & Hrefs & Hin).
    destruct Hlive as (i' & table' & Hi' & Htable' & Hlists & _).
    rewrite Hi in Hi'. injection Hi' as <-.
    rewrite Htable in Htable'. injection Htable' as <-.
    destruct (Hlists _ _ Hrefs) as [_ Hall]. rewrite Forall_forall in Hall.
    apply Hall, live_lt in Hin.
    destruct (queues w1 !! q) as [[items|]|] eqn:Hw1.
    + exfalso. apply Hdead. now exists items.
    + reflexivity.
    + exfalso. apply lookup_ge_None in Hw1.
      assert (Hlen : length (queues w1) = length (queues w)).
      { subst w1. unfold collect, _cleanup_local_queue. unfold_monad.
        cbn [instances queues set_queues].
        rewrite Hi, Htable, Hrefs.
        destruct (list_remove q refs);
          cbn [instances queues set_queues snd];
          rewrite ?Hi; cbn [queues set_instances set_queues snd];
          now rewrite length_insert. }
      lia.
Qed.

End SubscriptionFacts.

(** ** The default bus *)

Module GetBusFacts.
Import GetBus.

Lemma get_bus_stored s b :
  DEFAULT_BUS s = Some b -> get_bus s = (b, s).
Proof. intros H. unfold get_bus. now rewrite H. Qed.

Lemma calls_stored n : ∀ s b,
  DEFAULT_BUS s = Some b -> calls n s = (replicate n b, s).
Proof.
  induction n as [|n IH]; intros s b H; simpl; [reflexivity|].
  rewrite (get_bus_stored s b H), (IH s b H). reflexivity.
Qed.

(** X1: from a module state in which no bus has been fetched yet, any
    number of calls of [get_bus], one at least, opens exactly one bus,
    the first call, and every call returns that bus; it stays the
    default bus. *)
Theorem get_bus_opens_once (n : nat) (s : State) :
  DEFAULT_BUS s = None ->
  let first := length (opened s) in
  fst (calls (S n) s) = replicate (S n) first
  ∧ opened (snd (calls (S n) s)) = (opened s ++ [first])%list
  ∧ DEFAULT_BUS (snd (calls (S n) s)) = Some first.
Proof.
  intros Hnone. cbv zeta.
  assert (Hrun : calls (S n) s
    = (replicate (S n) (length (opened s)),
       {| DEFAULT_BUS := Some (length (opened s));
          opened := (opened s ++ [length (opened s)])%list |})).
  { cbn [calls]. unfold get_bus, sd_bus_open. rewrite Hnone. cbn [opened].
    erewrite calls_stored by reflexivity. reflexivity. }
  rewrite Hrun. repeat split.
Qed.

Lemma get_bus_opens_once_witness :
  fst (calls 3 {| DEFAULT_BUS := None; opened := [] |}) = [0; 0; 0]%nat
  ∧ opened (snd (calls 3 {| DEFAULT_BUS := None; opened := [] |})) = [0%nat]
  ∧ DEFAULT_BUS (snd (calls 3 {| DEFAULT_BUS := None; opened := [] |}))
    = Some 0%nat.
Proof.
  exact (get_bus_opens_once 2 {| DEFAULT_BUS := None; opened := [] |} eq_refl).
Defined.

End GetBusFacts.

(** ** The name mapper on any name *)

Module NameShapeFacts.
Import NameMapper NameShape.

Lemma upper_is_not_underscore c :
  Ascii.eqb c underscore = false -> Ascii.eqb (upper c) underscore = false.
Proof. destruct c as [[] [] [] [] [] [] [] []]; vm_compute; congruence. Qed.

Lemma upper_upper c : upper (upper c) = upper c.
Proof. destruct c as [[] [] [] [] [] [] [] []]; reflexivity. Qed.

Lemma convert_loop_length s : ∀ flag,
  String.length (convert_loop flag s) = letters s.
Proof.
  induction s as [|c s IH]; intros flag; simpl; [reflexivity|].
  destruct (Ascii.eqb c underscore); simpl; [apply IH|].
  destruct flag; simpl; now rewrite IH.
Qed.

Lemma convert_loop_no_underscore s : ∀ flag,
  has_underscore (convert_loop flag s) = false.
Proof.
  induction s as [|c s IH]; intros flag; simpl; [reflexivity|].
  destruct (Ascii.eqb c underscore) eqn:Hc; simpl; [apply IH|].
  destruct flag; simpl.
  - now rewrite (upper_is_not_underscore c Hc), IH.
  - now rewrite Hc, IH.
Qed.

Lemma convert_loop_fixed s :
  has_underscore s = false -> convert_loop false s = s.
Proof.
  induction s as [|c s IH]; simpl; [reflexivity|].
  intros [Hc Hs]%orb_false_elim. rewrite Hc. simpl. now rewrite IH.
Qed.

Lemma upper_is_ascii c : is_ascii c = true -> is_ascii (upper c) = true.
Proof. destruct c as [[] [] [] [] [] [] [] []]; vm_compute; congruence. Qed.

Lemma convert_loop_ascii s : ∀ flag,
  ascii_name s = true -> ascii_name (convert_loop flag s) = true.
Proof.
  induction s as [|c s IH]; intros flag; simpl; [reflexivity|].
  intros [Hc Hs]%andb_prop.
  destruct (Ascii.eqb c underscore); simpl; [now apply IH|].
  destruct flag; simpl.
  - now rewrite (upper_is_ascii c Hc), IH.
  - now rewrite Hc, IH.
Qed.

(** X2: on names within ASCII the mapper fails on the empty name only,
    with the [RuntimeError] into which the generator's [StopIteration]
    turns; on any other such name it gives a name within ASCII, with
    the first character and one character for every later character
    that is not an underscore. *)
Theorem converter_length (python_name : string) :
  ascii_name python_name = true ->
  match python_name with
  | EmptyString =>
      _method_name_converter python_name
      = Raise (RuntimeError "generator raised StopIteration")
  | String first_char rest =>
      ∃ out, _method_name_converter python_name = Ok out
             ∧ String.length out = S (letters rest)
             ∧ ascii_name out = true
  end.
Proof.
  destruct python_name as [|c rest]; [reflexivity|].
  simpl. intros [Hc Hrest]%andb_prop.
  eexists. split; [reflexivity|]. simpl. rewrite convert_loop_length.
  split; [reflexivity|].
  now rewrite (upper_is_ascii c Hc), convert_loop_ascii.
Qed.

Lemma converter_length_witness :
  ∃ out, _method_name_converter "get__id_" = Ok out
         ∧ String.length out = 5%nat
         ∧ ascii_name out = true.
Proof. exact (converter_length "get__id_" eq_refl). Defined.

(** X3: on any name within ASCII that does not start with an
    underscore, whatever its characters, the result is within ASCII
    and has no underscore, and mapping the result again gives the
    result back. *)
Theorem converter_settles (python_name out : string) :
  ascii_name python_name = true ->
  starts_with_underscore python_name = false ->
  _method_name_converter python_name = Ok out ->
  ascii_name out = true
  ∧ has_underscore out = false
  ∧ _method_name_converter out = Ok out.
Proof.
  destruct python_name as [|c rest]; [discriminate|].
  simpl. intros [Hascii Hrest]%andb_prop Hc [= <-].
  assert (Hfree : has_underscore (String (upper c) (convert_loop false rest))
                  = false).
  { simpl. now rewrite (upper_is_not_underscore c Hc),
                       convert_loop_no_underscore. }
  split; [|split; [exact Hfree|]].
  - simpl. now rewrite (upper_is_ascii c Hascii), convert_loop_ascii.
  - simpl. rewrite upper_upper. do 2 f_equal.
    apply convert_loop_fixed. apply convert_loop_no_underscore.
Qed.

Lemma converter_settles_witness :
  ascii_name "GetMachineId" = true
  ∧ has_underscore "GetMachineId" = false
  ∧ _method_name_converter "GetMachineId" = Ok "GetMachineId".
Proof.
  exact (converter_settles "get_Machine__id_" "GetMachineId" eq_refl eq_refl
           eq_refl).
Defined.

(** X4: a name with a leading underscore, as Python writes private
    names, keeps the underscore and its first word as they are; only
    the later words are capitalised. *)
Theorem converter_keeps_leading_underscore (ws : list string) :
  lower_words ws = true ->
  _method_name_converter (String underscore (snake ws))
  = Ok (String underscore
          match ws with
          | [] => EmptyString
          | w :: ws' => (w ++ camel ws')%string
          end).
Proof.
  destruct ws as [|w ws]; [discriminate|].
  simpl. intros [Hw Hws]%andb_prop.
  destruct w as [|c w]; [discriminate|].
  simpl in Hw. apply andb_prop in Hw as [Hc Hw].
  do 2 f_equal.
  change (String c w ++ snake_tail ws)%string
    with (String c (w ++ snake_tail ws)).
  cbn [convert_loop].
  rewrite NameMapperFacts.lower_is_not_underscore
    by (rewrite Hc; reflexivity).
  cbn [negb]. f_equal.
  rewrite NameMapperFacts.convert_loop_plain by exact Hw.
  now rewrite NameMapperFacts.convert_loop_snake_tail.
Qed.

Lemma converter_keeps_leading_underscore_witness :
  _method_name_converter "_get_machine_id" = Ok "_getMachineId".
Proof.
  exact (converter_keeps_leading_underscore ["get"; "machine"; "id"] eq_refl).
Defined.

End NameShapeFacts.

(** ** Constructing a method descriptor *)

Module MethodInitFacts.
Import DbusMethod ArgumentSpec.

(** What [DbusMethod.__init__] derives from a function whose receiver
    has no default. *)
Lemma init_derived_fields (async_function : FunctionType)
    (name : option string) (input_signature result_signature : string)
    (result_args_names : list string) (flags : Z) (m : DbusMethod.t) :
  (length (default [] (co_defaults async_function))
   <= length (tail (co_args async_function)))%nat ->
  __init__ async_function name input_signature result_signature
           result_args_names flags = Ok m ->
  derived_fields m
  ∧ args_names m = tail (co_args async_function)
  ∧ args_defaults m = default [] (co_defaults async_function).
Proof.
  intros Hdefaults. unfold __init__.
  assert (Hderived : ∀ n,
    derived_fields
      {| interface_name := None; serving_enabled := true;
         original_method := async_function;
         args_spec := getfullargspec async_function;
         args_names := tail (FullArgSpec.args (getfullargspec async_function));
         num_of_args :=
           Z.of_nat (length (tail (FullArgSpec.args
                                     (getfullargspec async_function))));
         args_defaults :=
           match FullArgSpec.defaults (getfullargspec async_function) with
           | Some d => d
           | None => []
           end;
         default_args_start_at :=
           (Z.of_nat (length (tail (FullArgSpec.args
                                      (getfullargspec async_function))))
            - Z.of_nat (length
                match FullArgSpec.defaults (getfullargspec async_function) with
                | Some d => d
                | None => []
                end))%Z;
         method_name := n;
         input_signature := input_signature; input_args_names := "";
         result_signature := result_signature;
         result_args_names := result_args_names; flags := flags |}).
  { intros n. unfold derived_fields. cbn.
    repeat split; try reflexivity.
    destruct (co_defaults async_function); cbn in *; lia. }
  destruct name as [given|].
  - intros [= <-]. split; [apply Hderived|].
    split; [reflexivity|]. now destruct (co_defaults async_function).
  - destruct (__name__ async_function) as [|c rest] eqn:Hname; cbn;
      [discriminate|].
    intros [= <-]. split; [apply Hderived|].
    split; [reflexivity|]. now destruct (co_defaults async_function).
Qed.

(** X5: an override is called with the parameters of the function it
    replaces.  Let a descriptor be made by [DbusMethod.__init__] from a
    function [g], stamped by a class statement, and then copied for an
    override with the function [f] in the place of [g], as the hook
    does for [dbus_overload(f)].  On a proxy, a call through the copy
    with another count of positional arguments than [g] has parameters
    is rebuilt slot by slot with the names and defaults of [g],
    whatever the parameters of [f], which [_rebuild_args] is given and
    does not read; on an object that is not proxy-bound the call runs
    [f] on the caller's arguments. *)
Theorem override_called_with_base_parameters (g f : FunctionType)
    (name : option string) (input_signature result_signature : string)
    (result_args_names : list string) (flags : Z) (m : DbusMethod.t)
    (stamp_name : option string) (enabled : bool)
    (w : World) (self : DbusMethodBinded.t) (i : Instance)
    (args : list PyValue) (kwargs : gmap string PyValue) :
  (length (default [] (co_defaults g)) <= length (tail (co_args g)))%nat ->
  __init__ g name input_signature result_signature result_args_names flags
  = Ok m ->
  descriptors w !! DbusMethodBinded.dbus_method self
  = Some (Method (with_original_method f (with_stamp stamp_name enabled m))) ->
  instances w !! DbusMethodBinded.interface self = Some i ->
  kwargs !! "self" = None ->
  args_names m = tail (co_args g)
  ∧ args_defaults m = default [] (co_defaults g)
  ∧ (∀ bus service path,
       proxy_bound i bus service path ->
       kwargs !! "function" = None ->
       length args ≠ length (tail (co_args g)) ->
       DbusMethodBinded.__call__ self args kwargs w
       = match resolved_args m args kwargs with
         | Some l =>
             proxy_outcome w (with_stamp stamp_name enabled m) bus service
                           path l
         | None => (Raise (TypeError "Could not flatten the args"), w)
         end)
  ∧ (is_binded i = Some false ->
     DbusMethodBinded.__call__ self args kwargs w
     = call_function f (DbusMethodBinded.interface self) args kwargs w).
Proof.
  intros Hdefaults Hinit Hm Hi Hself.
  destruct (init_derived_fields _ _ _ _ _ _ _ Hdefaults Hinit)
    as (Hderived & Hnames & Hdefs).
  split; [exact Hnames|]. split; [exact Hdefs|].
  set (m' := with_original_method f (with_stamp stamp_name enabled m)) in *.
  assert (Hderived' : derived_fields m') by exact Hderived.
  split.
  - intros bus service path Hproxy Hfunction Hcount.
    pose proof Hproxy as (Hbound & _).
    pose proof Hderived as (_ & Hnum & _).
    unfold DbusMethodBinded.__call__.
    rewrite (bind_ok _ _ _ _ _ (getattr_set _ _ _ _ _ _ Hi Hbound)).
    rewrite (bind_ok _ _ _ _ _ (method_at_ok _ _ _ Hm)).
    replace (Z.of_nat (length args) =? num_of_args m')%Z with false
      by (symmetry; apply Z.eqb_neq; change (num_of_args m')
            with (num_of_args m); rewrite Hnum, Hnames; lia).
    change (resolved_args m args kwargs) with (resolved_args m' args kwargs).
    destruct (resolved_args m' args kwargs) as [l|] eqn:Hres.
    + erewrite bind_ok
        by (rewrite RebuildFacts.rebuild_args_resolved, Hres by assumption;
            reflexivity).
      change (proxy_outcome w (with_stamp stamp_name enabled m) bus service
                            path l)
        with (proxy_outcome w m' bus service path l).
      exact (RebuildFacts.call_dbus_outcome w self m' i bus service path l
               Hm Hi Hproxy).
    + erewrite bind_raise
        by (rewrite RebuildFacts.rebuild_args_resolved, Hres by assumption;
            reflexivity).
      reflexivity.
  - intros Hbound. unfold DbusMethodBinded.__call__.
    rewrite (bind_ok _ _ _ _ _ (getattr_set _ _ _ _ _ _ Hi Hbound)).
    now rewrite (bind_ok _ _ _ _ _ (method_at_ok _ _ _ Hm)).
Qed.

(** The override has the defaults 7 and 8; the proxy sends 1 and 2,
    the defaults of the function it replaces. *)
Lemma override_called_with_base_parameters_witness :
  DbusMethodBinded.__call__
    {| DbusMethodBinded.dbus_method := 2; DbusMethodBinded.interface := 0 |}
    [PyInt 10; PyInt 20] ∅ MoreSamples.overriding_world
  = request_outcome MoreSamples.overriding_world 0
      (call_message (Samples.method_of Samples.four "Four") "org.example" "/"
         "org.example.Test" [PyInt 10; PyInt 20; PyInt 1; PyInt 2]).
Proof.
  refine (proj1 (proj2 (proj2
            (override_called_with_base_parameters Samples.four
               MoreSamples.four_again (Some "Four") "" "" [] 0 _
               (Some "org.example.Test") true MoreSamples.overriding_world
               {| DbusMethodBinded.dbus_method := 2;
                  DbusMethodBinded.interface := 0 |}
               Samples.proxy_object [PyInt 10; PyInt 20] ∅
               _ eq_refl eq_refl eq_refl eq_refl)))
            0 "org.example" "/" RebuildWitness.proxy_object_bound eq_refl _).
  - vm_compute. lia.
  - vm_compute. congruence.
Defined.

End MethodInitFacts.

(** ** More on argument reconstruction *)

Module RebuildEdgeFacts.
Import DbusMethod DbusMethodBinded ArgumentSpec.

(** Every turn of the loop adds one value. *)
Lemma rebuild_loop_length m kwargs names :
  ∀ i passed defaults acc l,
    rebuild_loop m kwargs i names passed defaults acc = Ok l ->
    length l = (length acc + length names)%nat.
Proof.
  induction names as [|a_name names IH]; intros i passed defaults acc l.
  - simpl. intros [= <-]. lia.
  - cbn [rebuild_loop].
    destruct passed as [|x passed];
      destruct (default_args_start_at m <=? i)%Z;
      try destruct defaults as [|d defaults]; try discriminate;
      repeat match goal with
             | |- context [if negb (is_None ?v) then _ else _] =>
                 destruct (negb (is_None v))
             end;
      try discriminate;
      intros H; apply IH in H; rewrite length_app in H; simpl in *; lia.
Qed.

(** A keyword that names no parameter leaves the loop as it is. *)
Lemma rebuild_loop_unknown_keyword m kwargs k v names :
  k ∉ names ->
  ∀ i passed defaults acc,
    rebuild_loop m (<[k := v]> kwargs) i names passed defaults acc
    = rebuild_loop m kwargs i names passed defaults acc.
Proof.
  induction names as [|a_name names IH]; intros Hk i passed defaults acc;
    [reflexivity|].
  apply not_elem_of_cons in Hk as [Hne Hk].
  cbn [rebuild_loop]. rewrite lookup_insert_ne by exact Hne.
  destruct passed as [|x passed];
    destruct (default_args_start_at m <=? i)%Z;
    try destruct defaults as [|d defaults]; try reflexivity;
    repeat match goal with
           | |- context [if negb (is_None ?v) then _ else _] =>
               destruct (negb (is_None v))
           end;
    try reflexivity; now apply IH.
Qed.

(** With a positional that is not [None] in every slot, the slots take
    the positionals. *)
Lemma all_slots_positional m args kwargs names :
  ∀ i,
    (i + length names <= length args)%nat ->
    Forall (λ v, is_None v = false) (take (length names) (drop i args)) ->
    all_slots (resolved_slot m args kwargs) i names
    = Some (take (length names) (drop i args)).
Proof.
  induction names as [|a_name names IH]; intros i Hlen Hall; [reflexivity|].
  simpl in Hlen. cbn [all_slots length].
  assert (Hi : (i < length args)%nat) by lia.
  destruct (lookup_lt_is_Some_2 _ _ Hi) as [x Hx].
  rewrite (RebuildFacts.drop_lookup_cons _ _ _ Hx) in *.
  cbn [take] in *. apply Forall_cons in Hall as [Hx_some Hall].
  unfold resolved_slot at 1. rewrite Hx.
  assert (Hnot : not_None (Some x) = Some x) by (destruct x; [discriminate|..]; reflexivity).
  rewrite Hnot. cbn [first_of].
  rewrite IH by (try lia; exact Hall). reflexivity.
Qed.

(** X6: what [_rebuild_args] returns has one value for each parameter,
    whatever was passed; so positional arguments beyond the parameters
    are dropped without an error: when there are more positionals than
    parameters, none of the first ones is [None], and no keyword
    argument is named [self] or [function] (which [_rebuild_args]
    refuses, these being its own parameters), the list is those first
    ones. *)
Theorem surplus_positionals_dropped (w : World) (self : DbusMethodBinded.t)
    (m : DbusMethod.t) (args : list PyValue) (kwargs : gmap string PyValue) :
  descriptors w !! dbus_method self = Some (Method m) ->
  derived_fields m ->
  (∀ l, fst (_rebuild_args self (original_method m) args kwargs w) = Ok l ->
        length l = length (args_names m))
  ∧ (kwargs !! "self" = None ->
     kwargs !! "function" = None ->
     (length (args_names m) < length args)%nat ->
     Forall (λ v, is_None v = false) (take (length (args_names m)) args) ->
     _rebuild_args self (original_method m) args kwargs w
     = (Ok (take (length (args_names m)) args), w)).
Proof.
  intros Hm Hderived. split.
  - intros l. unfold _rebuild_args.
    destruct (kwargs !! "self"); [discriminate|].
    destruct (kwargs !! "function"); [discriminate|].
    rewrite (bind_ok _ _ _ _ _ (method_at_ok _ _ _ Hm)).
    unfold lift. cbn [fst]. intros Hl.
    apply rebuild_loop_length in Hl.
    destruct Hderived as (Hnames & _). rewrite Hnames. exact Hl.
  - intros Hself Hfunction Hmore Hall.
    rewrite (RebuildFacts.rebuild_args_resolved w self m args kwargs Hm
               Hderived Hself Hfunction).
    unfold resolved_args.
    now rewrite (all_slots_positional m args kwargs (args_names m) 0)
      by (try (simpl; lia); exact Hall).
Qed.

Lemma surplus_positionals_dropped_witness :
  _rebuild_args Samples.bound_four Samples.four
    [PyInt 1; PyInt 2; PyInt 3; PyInt 4; PyInt 5; PyInt 6] ∅
    Samples.proxy_world
  = (Ok [PyInt 1; PyInt 2; PyInt 3; PyInt 4], Samples.proxy_world).
Proof.
  refine (proj2 (surplus_positionals_dropped Samples.proxy_world
            Samples.bound_four (Samples.method_of Samples.four "Four")
            [PyInt 1; PyInt 2; PyInt 3; PyInt 4; PyInt 5; PyInt 6] ∅
            eq_refl RebuildWitness.four_derived) eq_refl eq_refl _ _).
  - vm_compute. lia.
  - repeat constructor.
Defined.

(** X7: a keyword argument whose name is not a parameter of the method,
    and is not [self] or [function], the parameters of [_rebuild_args]
    itself, is ignored: the rebuilt list, or the error, is the same
    without it. *)
Theorem unknown_keyword_ignored (w : World) (self : DbusMethodBinded.t)
    (m : DbusMethod.t) (args : list PyValue) (kwargs : gmap string PyValue)
    (k : string) (v : PyValue) :
  descriptors w !! dbus_method self = Some (Method m) ->
  k ∉ tail (FullArgSpec.args (args_spec m)) ->
  k ≠ "self" ->
  k ≠ "function" ->
  _rebuild_args self (original_method m) args (<[k := v]> kwargs) w
  = _rebuild_args self (original_method m) args kwargs w.
Proof.
  intros Hm Hk Hself Hfunction. unfold _rebuild_args.
  rewrite !lookup_insert_ne by assumption.
  destruct (kwargs !! "self"); [reflexivity|].
  destruct (kwargs !! "function"); [reflexivity|].
  rewrite !(bind_ok _ _ _ _ _ (method_at_ok _ _ _ Hm)).
  now rewrite rebuild_loop_unknown_keyword.
Qed.

Lemma unknown_keyword_ignored_witness :
  _rebuild_args Samples.bound_four Samples.four [PyInt 10; PyInt 20]
    (<["verbose" := PyBool true]> ∅) Samples.proxy_world
  = _rebuild_args Samples.bound_four Samples.four [PyInt 10; PyInt 20] ∅
      Samples.proxy_world.
Proof.
  apply (unknown_keyword_ignored Samples.proxy_world Samples.bound_four
           (Samples.method_of Samples.four "Four") [PyInt 10; PyInt 20] ∅
           "verbose" (PyBool true) eq_refl); [|discriminate..].
  intros Hin. repeat (apply elem_of_cons in Hin as [Hin|Hin];
                      [discriminate Hin|]).
  inversion Hin.
Defined.

End RebuildEdgeFacts.

(** ** Replies of the dispatch entry point *)

Module DispatchFacts.
Import DbusMethod DbusMethodBinded.

(** X8: when the local method is a coroutine function (written with
    [async def]) and returns, the dispatch entry point has called it
    with the request's values (the items of a tuple, nothing for
    [None], the value itself otherwise), it returns normally, the
    instance is as the method leaves it, and it has sent exactly one
    message, the reply to the request, whose payload under the declared
    result signature is the items of a returned tuple, nothing for
    [None], and the value itself otherwise.  When the local method is
    a plain [def] that returns a value, the entry point has run it all
    the same, then fails with [TypeError] at the [await] and sends
    nothing. *)
Theorem dispatch_replies (w : World) (self : DbusMethodBinded.t)
    (m : DbusMethod.t) (i i' : Instance) (request_message : SdBusMessage)
    (reply_data : PyValue) :
  descriptors w !! dbus_method self = Some (Method m) ->
  instances w !! interface self = Some i ->
  body (original_method m) i (request_args (msg_contents request_message)) ∅
    = (Ok reply_data, i') ->
  (co_coroutine (original_method m) = true ->
   ∃ reply,
     _call_from_dbus self request_message w
     = (Ok tt,
        set_bus_log (bus_log w ++ [send reply])
          (set_instances (<[interface self := i']> (instances w)) w))
     ∧ msg_kind reply = Reply
     ∧ msg_destination reply = msg_destination request_message
     ∧ msg_path reply = msg_path request_message
     ∧ msg_interface reply = msg_interface request_message
     ∧ msg_member reply = msg_member request_message
     ∧ msg_data reply
       = match reply_data with
         | PyNone => []
         | PyTuple items => [(result_signature m, items)]
         | _ => [(result_signature m, [reply_data])]
         end)
  ∧ (co_coroutine (original_method m) = false ->
     _call_from_dbus self request_message w
     = (Raise (TypeError ("object " ++ type_name reply_data
                          ++ " can't be used in 'await' expression")),
        set_instances (<[interface self := i']> (instances w)) w)).
Proof.
  intros Hm Hi Hbody.
  assert (Hcall :
    call_function (original_method m) (interface self)
                  (request_args (msg_contents request_message)) ∅ w
    = (Ok reply_data,
       set_instances (<[interface self := i']> (instances w)) w)).
  { rewrite (call_function_run _ _ _ _ _ _ Hi). now rewrite Hbody. }
  unfold _call_from_dbus.
  rewrite (bind_ok _ _ _ _ _ (method_at_ok _ _ _ Hm)).
  assert (Hcall' :
    match msg_contents request_message with
    | PyTuple items =>
        call_function (original_method m) (interface self) items ∅
    | PyNone => call_function (original_method m) (interface self) [] ∅
    | _ => call_function (original_method m) (interface self)
                         [msg_contents request_message] ∅
    end w
    = (Ok reply_data,
       set_instances (<[interface self := i']> (instances w)) w)).
  { rewrite <- Hcall. now destruct (msg_contents request_message). }
  rewrite (bind_ok _ _ _ _ _ Hcall'). unfold await. split; intros ->.
  - eexists. split; [reflexivity|].
    destruct reply_data; repeat split.
  - reflexivity.
Qed.

Lemma dispatch_replies_witness :
  ∃ reply,
    bus_log (snd (_call_from_dbus Samples.bound_double
                    {| msg_kind := MethodCall;
                       msg_destination := Some "org.example";
                       msg_path := "/"; msg_interface := "org.example.Test";
                       msg_member := "Double"; msg_data := [];
                       msg_contents := PyInt 21 |}
                    Samples.local_world)) = [send reply]
    ∧ msg_data reply = [("", [PyInt 42])].
Proof.
  destruct (proj1 (dispatch_replies Samples.local_world Samples.bound_double
              (Samples.method_of Samples.double "Double")
              Samples.unbound_object _
              {| msg_kind := MethodCall;
                 msg_destination := Some "org.example";
                 msg_path := "/"; msg_interface := "org.example.Test";
                 msg_member := "Double"; msg_data := [];
                 msg_contents := PyInt 21 |}
              (PyInt 42) eq_refl eq_refl eq_refl) eq_refl)
    as (reply & Hrun & _ & _ & _ & _ & _ & Hdata).
  exists reply. rewrite Hrun. split; [reflexivity | exact Hdata].
Defined.

End DispatchFacts.

(** ** Property access, local and remote *)

Module PropertyAccessFacts.
Import DbusProperty DbusPropertyBinded ArgumentSpec.

Ltac run_with rewrites :=
  unfold_monad; repeat (progress (rewrites; cbn [negb])).



(** The request [get_async] sends and what it makes of the answer. *)
Lemma get_async_run (w : World) (self : DbusPropertyBinded.t)
    (p : DbusProperty.t) (i : Instance) (bus : addr)
    (service path name : string) :
  descriptors w !! dbus_property self = Some (Property p) ->
  instances w !! interface self = Some i ->
  proxy_bound i bus service path ->
  interface_name p = Some name ->
  let request :=
    new_message PropertyGet (Some service) path name (property_name p) in
  get_async self w
  = (match peer_reply w request with
     | Ok reply => getitem (msg_contents reply) 1
     | Raise e => Raise e
     end,
     set_bus_log (bus_log w ++ [call_async bus request]) w).
Proof.
  intros Hp Hi (Hbound & Hbus & Hservice & Hpath) Hname. cbv zeta.
  unfold get_async.
  run_with ltac:(rewrite ?Hi, ?Hbound, ?Hbus, ?Hservice, ?Hpath, ?Hp, ?Hname).
  cbn [peer_reply set_bus_log].
  destruct (peer_reply w _) as [reply|e]; [|reflexivity].
  now destruct (getitem (msg_contents reply) 1).
Qed.

(** X10: on a proxy, [get_async] does not run the local getter.  When
    the property has an interface name it sends one property-get
    request addressed to the remote service, object path, interface
    and property, leaves the instance as it is, and returns element 1
    of the reply's contents: the second element of a tuple, the second
    character of a string, [IndexError] when there is none,
    [TypeError] for contents that cannot be indexed; or it raises what
    the peer raised.  When the property has no interface name, its
    class having been given none, it fails an assertion and sends
    nothing. *)
Theorem get_async_on_proxy (w : World) (self : DbusPropertyBinded.t)
    (p : DbusProperty.t) (i : Instance) (bus : addr)
    (service path : string) :
  descriptors w !! dbus_property self = Some (Property p) ->
  instances w !! interface self = Some i ->
  proxy_bound i bus service path ->
  (interface_name p = None -> get_async self w = (Raise AssertionError, w))
  ∧ ∀ name,
      interface_name p = Some name ->
      let request :=
        new_message PropertyGet (Some service) path name (property_name p) in
      let w' := snd (get_async self w) in
      bus_log w' = (bus_log w ++ [call_async bus request])%list
      ∧ instances w' = instances w
      ∧ (∀ e, peer_reply w request = Raise e ->
              fst (get_async self w) = Raise e)
      ∧ (∀ reply,
           peer_reply w request = Ok reply ->
           fst (get_async self w) = getitem (msg_contents reply) 1)
      ∧ (∀ reply items,
           peer_reply w request = Ok reply ->
           msg_contents reply = PyTuple items ->
           fst (get_async self w)
           = match items !! 1%nat with
             | Some v => Ok v
             | None => Raise IndexError
             end).
Proof.
  intros Hp Hi Hproxy. split.
  - intros Hname. destruct Hproxy as (Hbound & Hbus & Hservice & Hpath).
    unfold get_async.
    run_with ltac:(rewrite ?Hi, ?Hbound, ?Hbus, ?Hservice, ?Hpath, ?Hp,
                     ?Hname).
    reflexivity.
  - intros name Hname. cbv zeta.
    rewrite (get_async_run w self p i bus service path name Hp Hi Hproxy
               Hname).
    cbn [fst snd bus_log instances set_bus_log].
    repeat split.
    + intros e He. now rewrite He.
    + intros reply Hreply. now rewrite Hreply.
    + intros reply items Hreply Hitems. now rewrite Hreply, Hitems.
Qed.

Lemma get_async_on_proxy_witness :
  fst (get_async {| dbus_property := 0; interface := 0 |} MoreSamples.answering_world)
  = Ok (PyStr "remote")
  ∧ instances (snd (get_async {| dbus_property := 0; interface := 0 |}
                                MoreSamples.answering_world))
    = [Samples.proxy_object].
Proof.
  destruct (proj2 (get_async_on_proxy MoreSamples.answering_world
              {| dbus_property := 0; interface := 0 |}
              Samples.read_only_property Samples.proxy_object 0
              "org.example" "/" eq_refl eq_refl
              RebuildWitness.proxy_object_bound) "org.example.Test" eq_refl)
    as (_ & Hsame & _ & _ & Hok).
  split; [|exact Hsame].
  exact (Hok _ [PyStr "s"; PyStr "remote"] eq_refl eq_refl).
Defined.

(** X11: on a proxy, [set_async] does not look for a setter and runs
    none.  With or without one on the descriptor, when the property
    has an interface name it sends one property-set request addressed
    to the remote service, object path, interface and property,
    carrying the value as a variant, the pair of the property's
    signature and the value, leaves the instance as it is, and returns
    normally unless the peer raises; when the property has no
    interface name, its class having been given none, it fails an
    assertion and sends nothing. *)
Theorem set_async_on_proxy (w : World) (self : DbusPropertyBinded.t)
    (p : DbusProperty.t) (i : Instance) (bus : addr)
    (service path : string) (complete_object : PyValue) :
  descriptors w !! dbus_property self = Some (Property p) ->
  instances w !! interface self = Some i ->
  proxy_bound i bus service path ->
  (interface_name p = None ->
   set_async self complete_object w = (Raise AssertionError, w))
  ∧ ∀ name,
      interface_name p = Some name ->
      let request :=
        append_data "v"
          [PyTuple [PyStr (property_signature p); complete_object]]
          (new_message PropertySet (Some service) path name
                       (property_name p)) in
      set_async self complete_object w
      = (match peer_reply w request with
         | Ok _ => Ok tt
         | Raise e => Raise e
         end,
         set_bus_log (bus_log w ++ [call_async bus request]) w).
Proof.
  intros Hp Hi (Hbound & Hbus & Hservice & Hpath). split.
  - intros Hname. unfold set_async.
    run_with ltac:(rewrite ?Hi, ?Hbound, ?Hbus, ?Hservice, ?Hpath, ?Hp,
                     ?Hname).
    reflexivity.
  - intros name Hname. cbv zeta. unfold set_async.
    run_with ltac:(rewrite ?Hi, ?Hbound, ?Hbus, ?Hservice, ?Hpath, ?Hp,
                     ?Hname).
    cbn [peer_reply set_bus_log].
    now destruct (peer_reply w _).
Qed.

Lemma set_async_on_proxy_witness :
  property_set Samples.read_only_property = None
  ∧ fst (set_async {| dbus_property := 0; interface := 0 |} (PyStr "new")
           MoreSamples.answering_world) = Ok tt.
Proof.
  split; [reflexivity|].
  rewrite (proj2 (set_async_on_proxy MoreSamples.answering_world
             {| dbus_property := 0; interface := 0 |}
             Samples.read_only_property Samples.proxy_object 0
             "org.example" "/" (PyStr "new")
             eq_refl eq_refl RebuildWitness.proxy_object_bound)
             "org.example.Test" eq_refl).
  reflexivity.
Defined.






End PropertyAccessFacts.

(** ** Subscribing, remotely and locally *)

Module IterateFacts.
Import DbusSignal DbusSignalBinded ArgumentSpec EmitSpec.

(** X14: iterating over a bound signal listens to the bus on a proxy
    and to a local queue otherwise.  On a proxy, when the signal has an
    interface name, it asks the bus engine for the queue of the remote
    service, object path, interface and signal, and creates no local
    queue; when the signal has no interface name, its class having been
    given none, it fails an assertion and asks nothing.  On an object
    that is not proxy-bound it asks nothing of the bus and creates a
    queue, empty, which it lists for the signal. *)
Theorem aiter_routes (w : World) (self : DbusSignalBinded.t)
    (s : DbusSignal.t) (i : Instance) :
  descriptors w !! dbus_signal self = Some (Signal s) ->
  instances w !! interface self = Some i ->
  (∀ bus service path name,
     proxy_bound i bus service path ->
     interface_name s = Some name ->
     __aiter__ self w
     = (Ok BusQueue,
        set_bus_log
          (bus_log w
           ++ [get_signal_queue_async bus service path name (signal_name s)])
          w))
  ∧ (∀ bus service path,
       proxy_bound i bus service path ->
       interface_name s = None ->
       __aiter__ self w = (Raise AssertionError, w))
  ∧ (∀ table,
       is_binded i = Some false ->
       _local_signal_queues i = Some table ->
       let w' := snd (__aiter__ self w) in
       fst (__aiter__ self w) = Ok (LocalQueue (length (queues w)))
       ∧ bus_log w' = bus_log w
       ∧ queues w' = (queues w ++ [Some []])%list
       ∧ subscribed w' (interface self) (dbus_signal self) (length (queues w))).
Proof.
  intros Hs Hi. split; [|split].
  - intros bus service path name (Hbound & Hbus & Hservice & Hpath) Hname.
    unfold __aiter__, _get_dbus_queue. unfold_monad.
    repeat (progress (rewrite ?Hi, ?Hbound, ?Hbus, ?Hservice, ?Hpath, ?Hs,
                        ?Hname; cbn beta iota)).
    reflexivity.
  - intros bus service path (Hbound & Hbus & Hservice & Hpath) Hname.
    unfold __aiter__, _get_dbus_queue. unfold_monad.
    repeat (progress (rewrite ?Hi, ?Hbound, ?Hbus, ?Hservice, ?Hpath, ?Hs,
                        ?Hname; cbn beta iota)).
    reflexivity.
  - intros table Hbound Htable. cbv zeta.
    assert (Hlt : (interface self < length (instances w))%nat)
      by now apply lookup_lt_Some in Hi.
    unfold __aiter__, _get_local_queue, new_queue. unfold_monad.
    rewrite Hi, Hbound. cbn beta iota. rewrite Hi, Htable.
    cbn [instances set_queues]. rewrite Hi.
    cbn [fst snd bus_log queues set_instances set_queues].
    repeat split.
    eexists _, _, _. cbn [instances set_instances].
    split; [now apply list_lookup_insert_eq|].
    split; [reflexivity|]. split; [apply lookup_insert_eq|].
    apply elem_of_app. right. left.
Qed.

Lemma aiter_routes_witness :
  fst (__aiter__ Samples.bound_changed
         (snd (DbusInterfaceBase.construct Samples.Served_class
                 Samples.declared_world)))
  = Ok (LocalQueue 0)
  ∧ bus_log (snd (__aiter__ Samples.bound_changed
         (snd (DbusInterfaceBase.construct Samples.Served_class
                 Samples.declared_world)))) = [].
Proof.
  destruct (aiter_routes
              (snd (DbusInterfaceBase.construct Samples.Served_class
                      Samples.declared_world))
              Samples.bound_changed Samples.changed_signal
              {| ob_type := "Served";
                 activated_interfaces := Some [];
                 is_binded := Some false;
                 remote_service_name := Some None;
                 remote_object_path := Some None;
                 attached_bus := Some None;
                 serving_object_path := Some None;
                 _local_signal_queues := Some ∅;
                 user_state := ∅ |}
              eq_refl eq_refl) as (_ & _ & Hlocal).
  destruct (Hlocal ∅ eq_refl eq_refl) as (Hq & Hlog & _).
  split; [exact Hq | exact Hlog].
Defined.

End IterateFacts.

(** ** Connecting, then calling *)

Module ConnectCallFacts.
Import DbusMethod DbusMethodBinded ArgumentSpec DbusInterfaceBase.

(** X15: after [_connect] on an object, in whatever state it was, a
    method call with the full count of positional arguments goes to the
    bus: one request, addressed to the service and object path just
    given and to the method's interface and wire name, carrying the
    arguments; and when the method's class was given no interface name
    the call fails an assertion and nothing is sent. *)
Theorem connect_then_call (w : World) (self : DbusMethodBinded.t)
    (m : DbusMethod.t) (i : Instance) (bus : addr)
    (service_name object_path : string) (args : list PyValue) :
  descriptors w !! dbus_method self = Some (Method m) ->
  instances w !! interface self = Some i ->
  Z.of_nat (length args) = num_of_args m ->
  let w1 := snd (_connect (interface self) bus service_name object_path w) in
  let run :=
    (_connect (interface self) bus service_name object_path ;;
     __call__ self args ∅) w in
  bus_log w1 = bus_log w
  ∧ (∀ name,
       interface_name m = Some name ->
       run = request_outcome w1 bus
               (call_message m service_name object_path name args))
  ∧ (interface_name m = None -> run = (Raise AssertionError, w1)).
Proof.
  intros Hm Hi Hcount. cbv zeta.
  assert (Hlt : (interface self < length (instances w))%nat)
    by now apply lookup_lt_Some in Hi.
  set (i1 := {| ob_type := ob_type i;
                activated_interfaces := activated_interfaces i;
                is_binded := Some true;
                remote_service_name := Some (Some service_name);
                remote_object_path := Some (Some object_path);
                attached_bus := Some (Some bus);
                serving_object_path := serving_object_path i;
                _local_signal_queues := _local_signal_queues i;
                user_state := user_state i |}).
  assert (Hconnect : _connect (interface self) bus service_name object_path w
    = (Ok tt, set_instances (<[interface self := i1]> (instances w)) w)).
  { unfold _connect. unfold_monad. now rewrite Hi. }
  rewrite Hconnect. cbn [snd].
  set (w1 := set_instances (<[interface self := i1]> (instances w)) w).
  assert (Hi1 : instances w1 !! interface self = Some i1)
    by (cbn [instances w1 set_instances]; now apply list_lookup_insert_eq).
  assert (Hm1 : descriptors w1 !! dbus_method self = Some (Method m))
    by exact Hm.
  assert (Hcall : (_connect (interface self) bus service_name object_path ;;
                   __call__ self args ∅) w
                  = _call_dbus self args w1).
  { rewrite (bind_ok _ _ _ _ _ Hconnect). fold w1. unfold __call__.
    rewrite (bind_ok _ _ _ _ _
               (getattr_set (interface self) "is_binded" is_binded w1 i1 true
                  Hi1 eq_refl)).
    rewrite (bind_ok _ _ _ _ _ (method_at_ok _ _ _ Hm1)).
    rewrite Hcount, Z.eqb_refl. reflexivity. }
  rewrite Hcall. split; [reflexivity|]. split.
  - intros name Hname.
    apply (RebuildFacts.call_dbus_run w1 self m i1 bus service_name
             object_path name args Hm1 Hi1); [|exact Hname].
    repeat split.
  - intros Hname. unfold _call_dbus. unfold_monad.
    rewrite Hi1. cbn beta iota. cbn [attached_bus i1].
    rewrite Hi1. cbn beta iota. cbn [remote_service_name i1].
    rewrite Hi1. cbn beta iota. cbn [remote_object_path i1].
    rewrite Hm1. cbn beta iota. now rewrite Hname.
Qed.

Lemma connect_then_call_witness :
  fst ((_connect 0 7 "org.example" "/obj" ;;
        __call__ Samples.bound_double [PyInt 21] ∅) Samples.local_world)
  = Ok PyNone
  ∧ bus_log (snd ((_connect 0 7 "org.example" "/obj" ;;
        __call__ Samples.bound_double [PyInt 21] ∅) Samples.local_world))
    = [call_async 7
         (call_message (Samples.method_of Samples.double "Double")
            "org.example" "/obj" "org.example.Test" [PyInt 21])].
Proof.
  destruct (connect_then_call Samples.local_world Samples.bound_double
              (Samples.method_of Samples.double "Double")
              Samples.unbound_object 7 "org.example" "/obj" [PyInt 21]
              eq_refl eq_refl eq_refl) as (_ & Hcall & _).
  specialize (Hcall "org.example.Test" eq_refl).
  change (interface Samples.bound_double) with 0%nat in Hcall.
  rewrite Hcall. split; reflexivity.
Defined.

End ConnectCallFacts.

(** ** Local subscriptions over time *)

Module LifecycleFacts.
Import DbusSignal DbusSignalBinded EmitSpec.

(** An emission on an object that serves nothing, with its listed
    references live. *)
Lemma local_emit_run (w : World) (self : DbusSignalBinded.t) (i : Instance)
    (table : gmap addr (list addr)) (args : PyValue) :
  instances w !! interface self = Some i ->
  activated_interfaces i = Some [] ->
  _local_signal_queues i = Some table ->
  Forall (live (queues w)) (default [] (table !! dbus_signal self)) ->
  emit self args w
  = (Ok tt,
     set_queues (deliver args (default [] (table !! dbus_signal self))
                         (queues w)) w).
Proof.
  intros Hi Hact Htable Hlive. unfold emit.
  rewrite (bind_ok _ _ _ _ _ (getattr_set _ _ _ _ _ _ Hi Hact)).
  cbn beta iota.
  erewrite bind_ok by reflexivity.
  erewrite bind_ok
    by (apply getattr_set with (i := i); [exact Hi | exact Htable]).
  destruct (table !! dbus_signal self) as [refs|]; cbn [default] in *.
  - now rewrite EmitFacts.emit_loop_run.
  - destruct w; reflexivity.
Qed.

(** The invariant holds along the life of the subscriptions. *)
Lemma lifecycle_subscribers_live (obj : addr) (w w' : World) :
  lifecycle obj w w' -> subscribers_live w obj -> subscribers_live w' obj.
Proof.
  induction 1 as [w|signal w w' _ IH|signal args w w' _ IH
                  |signal q w w' Hq _ IH]; intros Hlive.
  - exact Hlive.
  - apply IH.
    now apply (SubscriptionFacts.get_local_queue_subscribers_live w
                 {| dbus_signal := signal; interface := obj |}).
  - apply IH. now apply SubscriptionFacts.emit_subscribers_live.
  - apply IH.
    now apply (SubscriptionFacts.collect_subscribers_live w
                 {| dbus_signal := signal; interface := obj |} q).
Qed.

(** X16: from an object as the constructor leaves it, through any
    sequence of local subscriptions, emissions and collections of
    subscribed queues, the object's lists of weak references stay in
    order: every listed reference is live, none is listed twice or for
    two signals; so on such an object, as long as it serves nothing,
    the fan-out never meets a dead reference and [emit] returns
    normally. *)
Theorem lifecycle_keeps_order (w0 w : World) (cls : PyClass) :
  lifecycle (length (instances w0))
            (snd (DbusInterfaceBase.construct cls w0)) w ->
  subscribers_live w (length (instances w0))
  ∧ ∀ i signal args,
      instances w !! length (instances w0) = Some i ->
      activated_interfaces i = Some [] ->
      fst (emit {| dbus_signal := signal;
                   interface := length (instances w0) |} args w) = Ok tt.
Proof.
  intros Hlife.
  assert (Hlive : subscribers_live w (length (instances w0))).
  { apply (lifecycle_subscribers_live _ _ _ Hlife).
    apply SubscriptionFacts.construct_subscribers_live. }
  split; [exact Hlive|].
  intros i signal args Hi Hact.
  destruct Hlive as (i' & table & Hi' & Htable & Hlists & _).
  rewrite Hi in Hi'. injection Hi' as <-.
  rewrite (local_emit_run w
             {| dbus_signal := signal; interface := length (instances w0) |}
             i table args Hi Hact Htable); [reflexivity|].
  cbn [dbus_signal].
  destruct (table !! signal) as [refs|] eqn:Hrefs; [|constructor].
  exact (proj2 (Hlists _ _ Hrefs)).
Qed.

Lemma lifecycle_keeps_order_witness :
  subscribers_live
    (snd (collect Samples.bound_changed 0
       (snd (emit Samples.bound_changed (PyInt 7)
          (snd (_get_local_queue Samples.bound_changed
             (snd (DbusInterfaceBase.construct Samples.Served_class
                     Samples.declared_world)))))))) 0.
Proof.
  refine (proj1 (lifecycle_keeps_order Samples.declared_world _
                   Samples.Served_class _)).
  apply (lifecycle_subscribe 0 1%nat).
  apply (lifecycle_emit 0 1%nat (PyInt 7)).
  apply (lifecycle_collect 0 1%nat 0%nat).
  - eexists _, _, _. split; [vm_compute; reflexivity|].
    split; [reflexivity|]. split; [vm_compute; reflexivity|]. left.
  - apply lifecycle_done.
Defined.

(** One local emission: once into every subscribed queue. *)
Lemma local_emit_once (w : World) (self : DbusSignalBinded.t) (i : Instance)
    (args : PyValue) :
  subscribers_live w (interface self) ->
  instances w !! interface self = Some i ->
  activated_interfaces i = Some [] ->
  let w' := snd (emit self args w) in
  fst (emit self args w) = Ok tt
  ∧ bus_log w' = bus_log w
  ∧ instances w' = instances w
  ∧ descriptors w' = descriptors w
  ∧ (∀ q items,
       subscribed w (interface self) (dbus_signal self) q ->
       queues w !! q = Some (Some items) ->
       queues w' !! q = Some (Some (items ++ [args])%list))
  ∧ (∀ q, ¬ subscribed w (interface self) (dbus_signal self) q ->
          queues w' !! q = queues w !! q).
Proof.
  intros (i' & table & Hi' & Htable & Hlists & _) Hi Hact. cbv zeta.
  rewrite Hi in Hi'. injection Hi' as <-.
  assert (Hrefs : NoDup (default [] (table !! dbus_signal self))
                  ∧ Forall (live (queues w))
                           (default [] (table !! dbus_signal self))).
  { destruct (table !! dbus_signal self) as [refs|] eqn:Hrefs.
    - exact (Hlists _ _ Hrefs).
    - split; constructor. }
  destruct Hrefs as [Hnodup Hlive].
  rewrite (local_emit_run w self i table args Hi Hact Htable Hlive).
  cbn [fst snd bus_log instances descriptors queues set_queues].
  repeat split.
  - intros q items (i2 & table2 & refs & Hi2 & Htable2 & Hrefs & Hq) Hitems.
    rewrite Hi in Hi2. injection Hi2 as <-.
    rewrite Htable in Htable2. injection Htable2 as <-.
    rewrite Hrefs in *. change (default [] (Some refs)) with refs in *.
    rewrite EmitFacts.deliver_lookup,
      (EmitFacts.occurrences_NoDup q refs Hnodup Hq), Hitems.
    reflexivity.
  - intros q Hnot. rewrite EmitFacts.deliver_lookup.
    rewrite EmitFacts.occurrences_not_elem.
    + destruct (queues w !! q) as [[items|]|]; cbn; try reflexivity.
      now rewrite app_nil_r.
    + intros Hq. apply Hnot.
      destruct (table !! dbus_signal self) as [refs|] eqn:Hrefs;
        [|inversion Hq].
      now exists i, table, refs.
Qed.

(** X17: on an object in order that serves nothing, emitting values
    one after the other returns normally each time, sends nothing to
    the bus, and leaves in every queue subscribed to the signal the
    values it had followed by the emitted values, each once and in the
    order of the emissions; the other queues are as they were. *)
Theorem local_emits_in_order (values : list PyValue) :
  ∀ (w : World) (self : DbusSignalBinded.t) (i : Instance),
    subscribers_live w (interface self) ->
    instances w !! interface self = Some i ->
    activated_interfaces i = Some [] ->
    let w' := snd (for_each values (emit self) w) in
    fst (for_each values (emit self) w) = Ok tt
    ∧ bus_log w' = bus_log w
    ∧ (∀ q items,
         subscribed w (interface self) (dbus_signal self) q ->
         queues w !! q = Some (Some items) ->
         queues w' !! q = Some (Some (items ++ values)%list))
    ∧ (∀ q, ¬ subscribed w (interface self) (dbus_signal self) q ->
            queues w' !! q = queues w !! q).
Proof.
  induction values as [|v values IH]; intros w self i Hlive Hi Hact; cbv zeta.
  - cbn [for_each]. repeat split.
    intros q items _ Hitems. now rewrite app_nil_r.
  - destruct (local_emit_once w self i v Hlive Hi Hact)
      as (Hok & Hlog & Hsame & _ & Hin & Hout).
    cbn [for_each]. unfold mbind, M_bind.
    destruct (emit self v w) as [[[]|e] w1] eqn:Hemit;
      cbn [fst snd] in *; [|discriminate Hok].
    assert (Hlive1 : subscribers_live w1 (interface self)).
    { replace w1 with (snd (emit self v w)) by now rewrite Hemit.
      now apply SubscriptionFacts.emit_subscribers_live. }
    assert (Hi1 : instances w1 !! interface self = Some i)
      by now rewrite Hsame.
    assert (Hsub : ∀ q, subscribed w1 (interface self) (dbus_signal self) q
                        ↔ subscribed w (interface self) (dbus_signal self) q).
    { intros q. unfold subscribed. now rewrite Hsame. }
    destruct (IH w1 self i Hlive1 Hi1 Hact) as (Hok' & Hlog' & Hin' & Hout').
    split; [exact Hok'|]. split; [congruence|]. split.
    + intros q items Hq Hitems.
      rewrite (Hin' q (items ++ [v])%list).
      * now rewrite <- app_assoc.
      * now apply Hsub.
      * now apply Hin.
    + intros q Hq. rewrite Hout' by (now rewrite Hsub). now apply Hout.
Qed.

Lemma listening_world_in_order : subscribers_live Samples.listening_world 0.
Proof.
  exists Samples.listening_object, {[1%nat := [0%nat]]}.
  split; [vm_compute; reflexivity|]. split; [reflexivity|]. split.
  - intros signal refs Hrefs.
    apply lookup_singleton_Some in Hrefs as [<- <-]. split.
    + apply NoDup_singleton.
    + change (Forall (live [Some []]) [0%nat]).
      constructor; [exists []; reflexivity | constructor].
  - intros s1 s2 r1 r2 q H1 H2 _ _.
    apply lookup_singleton_Some in H1 as [<- _].
    now apply lookup_singleton_Some in H2 as [<- _].
Qed.

Lemma listening_world_subscribed :
  subscribed Samples.listening_world 0 1 0.
Proof.
  exists Samples.listening_object, {[1%nat := [0%nat]]}, [0%nat].
  split; [vm_compute; reflexivity|]. split; [reflexivity|].
  split; [reflexivity | left].
Qed.

Lemma local_emits_in_order_witness :
  queues (snd (for_each [PyInt 1; PyInt 2; PyInt 3]
                        (emit Samples.bound_changed) Samples.listening_world))
    !! 0%nat
  = Some (Some [PyInt 1; PyInt 2; PyInt 3]).
Proof.
  destruct (local_emits_in_order [PyInt 1; PyInt 2; PyInt 3]
              Samples.listening_world Samples.bound_changed
              Samples.listening_object listening_world_in_order
              ltac:(vm_compute; reflexivity) eq_refl)
    as (_ & _ & Hin & _).
  exact (Hin 0%nat [] listening_world_subscribed ltac:(vm_compute; reflexivity)).
Defined.

(** X18: when the queue of a local subscriber is collected, the weak
    reference's callback takes it off its list; an emission afterwards,
    on an object that serves nothing, returns normally, puts nothing
    into the collected queue, and still reaches every other subscribed
    queue, once. *)
Theorem collected_subscriber_skipped (w : World) (self : DbusSignalBinded.t)
    (i : Instance) (q : addr) (args : PyValue) :
  subscribers_live w (interface self) ->
  subscribed w (interface self) (dbus_signal self) q ->
  instances w !! interface self = Some i ->
  activated_interfaces i = Some [] ->
  let w1 := snd (collect self q w) in
  let w2 := snd (emit self args w1) in
  fst (collect self q w) = Ok tt
  ∧ fst (emit self args w1) = Ok tt
  ∧ ¬ subscribed w1 (interface self) (dbus_signal self) q
  ∧ queues w2 !! q = Some None
  ∧ ∀ q' items,
      q' ≠ q ->
      subscribed w (interface self) (dbus_signal self) q' ->
      queues w !! q' = Some (Some items) ->
      queues w2 !! q' = Some (Some (items ++ [args])%list).
Proof.
  intros Hlive Hq Hi Hact. cbv zeta.
  destruct (SubscriptionFacts.collect_subscribers_live w self q Hlive Hq)
    as (Hcollected & Hlive1 & Hgone & Hdead).
  pose proof Hlive as (i0 & table & Hi0 & Htable & Hlists & _).
  rewrite Hi in Hi0. injection Hi0 as <-.
  pose proof Hq as (i0 & table0 & refs & Hi0 & Htable0 & Hrefs & Hin).
  rewrite Hi in Hi0. injection Hi0 as <-.
  rewrite Htable in Htable0. injection Htable0 as <-.
  destruct (Hlists _ _ Hrefs) as [Hnodup Hall].
  destruct (SubscriptionFacts.list_remove_NoDup q refs Hin Hnodup)
    as (remaining & Hremove & _ & _ & Hiff).
  assert (Hlt : (interface self < length (instances w))%nat)
    by now apply lookup_lt_Some in Hi.
  set (i1 := {| ob_type := ob_type i;
                activated_interfaces := activated_interfaces i;
                is_binded := is_binded i;
                remote_service_name := remote_service_name i;
                remote_object_path := remote_object_path i;
                attached_bus := attached_bus i;
                serving_object_path := serving_object_path i;
                _local_signal_queues :=
                  Some (<[dbus_signal self := remaining]> table);
                user_state := user_state i |}).
  assert (Hrun : collect self q w
    = (Ok tt,
       set_instances (<[interface self := i1]> (instances w))
         (set_queues (<[q := None]> (queues w)) w))).
  { unfold collect, _cleanup_local_queue. unfold_monad.
    cbn [instances set_queues]. rewrite Hi, Htable, Hrefs, Hremove.
    cbn [instances set_queues]. now rewrite Hi. }
  rewrite Hrun in *. cbn [fst snd] in *.
  set (w1 := set_instances (<[interface self := i1]> (instances w))
               (set_queues (<[q := None]> (queues w)) w)) in *.
  assert (Hi1 : instances w1 !! interface self = Some i1)
    by (cbn [instances w1 set_instances]; now apply list_lookup_insert_eq).
  destruct (local_emit_once w1 self i1 args Hlive1 Hi1 Hact)
    as (Hok & _ & _ & _ & Hdeliver & Hskip).
  split; [reflexivity|]. split; [exact Hok|].
  split; [apply Hgone|]. split.
  - rewrite Hskip by apply Hgone.
    cbn [queues w1 set_instances set_queues].
    apply list_lookup_insert_eq.
    rewrite Forall_forall in Hall. now apply Hall, SubscriptionFacts.live_lt in Hin.
  - intros q' items Hne (i2 & table2 & refs2 & Hi2 & Htable2 & Hrefs2 & Hin2)
           Hitems.
    rewrite Hi in Hi2. injection Hi2 as <-.
    rewrite Htable in Htable2. injection Htable2 as <-.
    rewrite Hrefs in Hrefs2. injection Hrefs2 as <-.
    apply Hdeliver.
    + exists i1, (<[dbus_signal self := remaining]> table), remaining.
      split; [exact Hi1|]. split; [reflexivity|].
      split; [apply lookup_insert_eq|]. apply Hiff. auto.
    + cbn [queues w1 set_instances set_queues].
      rewrite list_lookup_insert_ne by congruence. exact Hitems.
Qed.

Lemma collected_subscriber_skipped_witness :
  fst (emit Samples.bound_changed (PyInt 7)
         (snd (collect Samples.bound_changed 0 Samples.listening_world)))
  = Ok tt
  ∧ queues (snd (emit Samples.bound_changed (PyInt 7)
         (snd (collect Samples.bound_changed 0 Samples.listening_world))))
      !! 0%nat
    = Some None.
Proof.
  destruct (collected_subscriber_skipped Samples.listening_world
              Samples.bound_changed Samples.listening_object 0 (PyInt 7)
              listening_world_in_order listening_world_subscribed
              ltac:(vm_compute; reflexivity) eq_refl)
    as (_ & Hok & _ & Hdead & _).
  split; [exact Hok | exact Hdead].
Defined.

End LifecycleFacts.

(** ** Class statements *)

Module ClassFacts.
Import DbusInterfaceMeta ClassShape.

Lemma stamp_stamp name enabled d :
  stamp name enabled (stamp name enabled d) = stamp name enabled d.
Proof. now destruct d. Qed.

(** The first loop on a body whose objects exist: it cannot fail, it
    stamps the objects and collects their keys. *)
Lemma stamp_loop_run namespace interface_name serving_enabled :
  ∀ acc w,
    objects_exist w namespace ->
    ∃ ds,
      stamp_loop namespace interface_name serving_enabled acc w
      = (Ok (acc ∪ list_to_set (declared_keys namespace)),
         set_descriptors ds w)
      ∧ length ds = length (descriptors w)
      ∧ (∀ a, a ∈ declared_addrs namespace ->
              ds !! a
              = stamp interface_name serving_enabled <$> descriptors w !! a)
      ∧ (∀ a, a ∉ declared_addrs namespace -> ds !! a = descriptors w !! a).
Proof.
  unfold objects_exist.
  induction namespace as [|[key value] rest IH]; intros acc w Hexist.
  - exists (descriptors w). repeat split.
    + cbn. unfold mret, M_ret. rewrite (right_id_L ∅ (∪)).
      now destruct w.
    + intros a Ha. inversion Ha.
  - destruct value as [a|f|f|v|l|t];
      try (destruct (IH acc w Hexist) as (ds & Hrun & Hrest);
           exists ds; split; [exact Hrun | exact Hrest]).
    cbn in Hexist. apply Forall_cons in Hexist as [[d Hd] Hexist].
    set (w2 := set_descriptors
                 (<[a := stamp interface_name serving_enabled d]>
                    (descriptors w)) w).
    assert (Hexist2 : Forall (λ a, is_Some (descriptors w2 !! a))
                             (declared_addrs rest)).
    { eapply Forall_impl; [exact Hexist|]. intros a' Ha'. cbn beta in *.
      apply lookup_lt_is_Some. apply lookup_lt_is_Some in Ha'.
      cbn [descriptors w2 set_descriptors]. now rewrite length_insert. }
    destruct (IH (acc ∪ {[key]}) w2 Hexist2) as (ds & Hrun & Hlen & Hin & Hout).
    assert (Ha : (a < length (descriptors w))%nat)
      by now apply lookup_lt_Some in Hd.
    exists ds. split; [|split; [|split]].
    + cbn [stamp_loop]. unfold update_descriptor, mbind, M_bind.
      rewrite Hd. fold w2. rewrite Hrun. cbn.
      now rewrite (assoc_L (∪)).
    + rewrite Hlen. cbn [descriptors w2 set_descriptors].
      apply length_insert.
    + intros a' Ha'. cbn in Ha'.
      destruct (decide (a' ∈ declared_addrs rest)) as [Hrest|Hrest].
      * rewrite (Hin a' Hrest). cbn [descriptors w2 set_descriptors].
        destruct (decide (a = a')) as [<-|Hne].
        -- rewrite list_lookup_insert_eq, Hd by exact Ha. cbn.
           now rewrite stamp_stamp.
        -- now rewrite list_lookup_insert_ne.
      * apply elem_of_cons in Ha' as [->|Ha']; [|contradiction].
        rewrite (Hout a Hrest). cbn [descriptors w2 set_descriptors].
        now rewrite list_lookup_insert_eq, Hd.
    + intros a' Ha'. cbn in Ha'. apply not_elem_of_cons in Ha' as [Hne Ha'].
      rewrite (Hout a' Ha'). cbn [descriptors w2 set_descriptors].
      now rewrite list_lookup_insert_ne.
Qed.

(** A first loop that returns found every object. *)
Lemma stamp_loop_exist namespace interface_name serving_enabled :
  ∀ acc w declared w1,
    stamp_loop namespace interface_name serving_enabled acc w
    = (Ok declared, w1) ->
    objects_exist w namespace.
Proof.
  unfold objects_exist.
  induction namespace as [|[key value] rest IH];
    intros acc w declared w1 Hrun; [constructor|].
  destruct value as [a|f|f|v|l|t]; try (now apply IH in Hrun).
  cbn [stamp_loop] in Hrun.
  apply bind_inv_ok in Hrun as ([] & w2 & Hupdate & Hrun).
  unfold update_descriptor in Hupdate.
  destruct (descriptors w !! a) as [d|] eqn:Hd; [|discriminate].
  injection Hupdate as <-. apply IH in Hrun.
  cbn. constructor; [now exists d|].
  eapply Forall_impl; [exact Hrun|]. intros a' Ha'. cbn beta in *.
  apply lookup_lt_is_Some. apply lookup_lt_is_Some in Ha'.
  cbn [descriptors set_descriptors] in Ha'. now rewrite length_insert in Ha'.
Qed.

Lemma extends_refl w : extends w w.
Proof. split; [exists []; now rewrite app_nil_r | auto]. Qed.

Lemma extends_trans w1 w2 w3 : extends w1 w2 -> extends w2 w3 -> extends w1 w3.
Proof.
  intros ([e1 H1] & Hi1 & Hq1 & Hl1) ([e2 H2] & Hi2 & Hq2 & Hl2).
  split; [|repeat split; congruence].
  exists (e1 ++ e2)%list. now rewrite H2, H1, app_assoc.
Qed.

(** The third loop, however it ends, leaves the descriptors there were
    as they were; when it returns, it has only added keys. *)
Lemma overload_loop_extends bases keys :
  ∀ namespace declared sc w r w',
    overload_loop bases keys namespace declared sc w = (r, w') ->
    extends w w'
    ∧ match r with
      | Ok (_, declared') => declared ⊆ declared'
      | Raise _ => True
      end.
Proof.
  induction keys as [|key rest IH]; intros namespace declared sc w r w' Hrun.
  - injection Hrun as <- <-. split; [apply extends_refl | reflexivity].
  - cbn [overload_loop] in Hrun.
    destruct (ns_lookup key namespace) as [[a|f|original|v|l|t]|];
      try (injection Hrun as <- <-; split; [apply extends_refl | exact I]).
    destruct (match first_base_with key bases with
              | Some v => Some v
              | None => sc
              end) as [[a|f|f|v|l|t]|] eqn:Hsc;
      try (injection Hrun as <- <-; split; [apply extends_refl | exact I]).
    unfold mbind, M_bind, descriptor_at, dangling, raise in Hrun.
    destruct (descriptors w !! a) as [d|] eqn:Hd;
      [|injection Hrun as <- <-; split; [apply extends_refl | exact I]].
    unfold new_descriptor in Hrun.
    set (w2 := set_descriptors (descriptors w ++ [d]) w) in *.
    assert (H2 : extends w w2).
    { split; [now exists [d] | auto]. }
    destruct d as [m|p|s];
      try (injection Hrun as <- <-; split; [exact H2 | exact I]).
    unfold update_descriptor in Hrun.
    assert (Hnew : descriptors w2 !! length (descriptors w)
                   = Some (Method m)).
    { cbn [descriptors w2 set_descriptors].
      rewrite lookup_app_r by lia. now rewrite Nat.sub_diag. }
    rewrite Hnew in Hrun.
    match type of Hrun with
    | overload_loop _ _ _ _ _ ?x = _ => set (w3 := x) in *
    end.
    assert (H3 : extends w w3).
    { split; [|auto].
      exists [Method (DbusMethod.with_original_method original m)].
      cbn [descriptors w3 w2 set_descriptors].
      rewrite insert_app_r_alt by lia. now rewrite Nat.sub_diag. }
    apply IH in Hrun as [Hext Hdeclared]. split.
    + now apply extends_trans with w3.
    + destruct r as [[ns' declared']|e]; [|exact I].
      etrans; [apply union_subseteq_l | exact Hdeclared].
Qed.

Lemma extends_lookup w w' a d :
  extends w w' -> descriptors w !! a = Some d -> descriptors w' !! a = Some d.
Proof.
  intros ([extra Hextra] & _) Hd. rewrite Hextra.
  now apply lookup_app_l_Some.
Qed.

Lemma super_loop_declared bases w :
  built_by_hook bases ->
  super_loop bases ∅ w = (Ok (super_declared bases), w).
Proof. intros Hbases. now apply MetaFacts.super_loop_run. Qed.

(** X19: whatever a class statement that succeeds contains, every
    [DbusSomething] object its body binds a key to has, afterwards, the
    interface name and the serving flag given to the class statement,
    and is otherwise as it was; its key is among the declared keys of
    the class; the descriptors the body does not name are as they were,
    as are the objects, the queues and the bus; and the class records
    the interface name and the flag. *)
Theorem class_statement_stamps (w w' : World) (name : string)
    (bases : list PyClass) (namespace : list (string * NsValue))
    (interface_name : option string) (serving_enabled : bool)
    (cls : PyClass) :
  __new__ name bases namespace interface_name serving_enabled w
  = (Ok cls, w') ->
  (∀ key a,
     (key, NsDbus a) ∈ namespace ->
     (∃ d, descriptors w !! a = Some d
           ∧ descriptors w' !! a
             = Some (stamp interface_name serving_enabled d))
     ∧ ∃ declared, _dbus_declared_interfaces cls = Some declared
                   ∧ key ∈ declared)
  ∧ (∀ a d, a ∉ declared_addrs namespace ->
            descriptors w !! a = Some d -> descriptors w' !! a = Some d)
  ∧ instances w' = instances w
  ∧ queues w' = queues w
  ∧ bus_log w' = bus_log w
  ∧ cls_name cls = name
  ∧ cls_bases cls = bases
  ∧ _dbus_interface_name cls = interface_name
  ∧ _dbus_serving_enabled cls = serving_enabled.
Proof.
  unfold __new__. intros Hrun.
  apply bind_inv_ok in Hrun as (declared & w1 & Hstamp & Hrun).
  apply bind_inv_ok in Hrun as (supers & w2 & Hsuper & Hrun).
  apply bind_inv_ok in Hrun as ([ns' declared'] & w3 & Hover & Hrun).
  injection Hrun as <- <-.
  assert (w2 = w1) as ->.
  { clear -Hsuper. revert Hsuper. generalize (∅ : gset string).
    induction bases as [|base bases IH]; intros acc Hsuper.
    - now injection Hsuper as _ <-.
    - cbn [super_loop] in Hsuper.
      destruct (issubclass_DbusInterfaceBase base); [|now apply IH in Hsuper].
      destruct (_dbus_declared_interfaces base); [|discriminate].
      now apply IH in Hsuper. }
  pose proof (stamp_loop_exist _ _ _ _ _ _ _ Hstamp) as Hexist.
  destruct (stamp_loop_run namespace interface_name serving_enabled ∅ w Hexist)
    as (ds & Hstamp' & Hlen & Hin & Hout).
  rewrite Hstamp in Hstamp'. injection Hstamp' as -> ->.
  apply overload_loop_extends in Hover as [Hext Hsub].
  pose proof Hext as (_ & Hi & Hq & Hl).
  cbn [cls_name cls_bases _dbus_interface_name _dbus_serving_enabled
       _dbus_declared_interfaces].
  split; [|split; [|repeat split; assumption]].
  - intros key a Hkey.
    assert (Ha : a ∈ declared_addrs namespace).
    { apply list_elem_of_omap. now exists (key, NsDbus a). }
    assert (Hk : key ∈ declared_keys namespace).
    { apply list_elem_of_omap. now exists (key, NsDbus a). }
    split.
    + unfold objects_exist in Hexist. rewrite Forall_forall in Hexist.
      destruct (Hexist a Ha) as [d Hd]. exists d. split; [exact Hd|].
      apply (extends_lookup _ _ _ _ Hext).
      cbn [descriptors set_descriptors]. now rewrite (Hin a Ha), Hd.
    + exists declared'. split; [reflexivity|]. apply Hsub.
      apply elem_of_union_r. now apply elem_of_list_to_set.
  - intros a d Ha Hd. apply (extends_lookup _ _ _ _ Hext).
    cbn [descriptors set_descriptors]. now rewrite (Hout a Ha).
Qed.

Lemma class_statement_stamps_witness :
  descriptors
    (snd (__new__ "ServedBase" [Samples.DbusInterfaceBase_class]
            ClassSamples.served_base_body (Some "org.example.Other") false
            Samples.declared_world)) !! 1%nat
  = Some (stamp (Some "org.example.Other") false
                (Signal Samples.changed_signal)).
Proof.
  destruct (class_statement_stamps Samples.declared_world _ "ServedBase"
              [Samples.DbusInterfaceBase_class] ClassSamples.served_base_body
              (Some "org.example.Other") false _
              ltac:(vm_compute; reflexivity)) as (Hstamped & _).
  destruct (Hstamped "changed" 1%nat ltac:(right; left))
    as ((d & Hd & Hd') & _).
  injection Hd as <-. exact Hd'.
Defined.


Lemma filter_none (P : string -> Prop) `{!∀ x, Decision (P x)}
    (l : list string) :
  (∀ y, y ∈ l -> ¬ P y) -> filter P l = [].
Proof.
  induction l as [|a l IH]; intros Hnone; [reflexivity|].
  rewrite filter_cons. destruct (decide (P a)) as [Ha|Ha].
  - exfalso. apply (Hnone a); [left | exact Ha].
  - apply IH. intros y Hy. apply Hnone. now right.
Qed.

Lemma filter_only (P : string -> Prop) `{!∀ x, Decision (P x)}
    (l : list string) (x : string) :
  NoDup l -> x ∈ l -> P x -> (∀ y, y ∈ l -> P y -> y = x) ->
  filter P l = [x].
Proof.
  induction 1 as [|a l Ha Hl IH]; intros Hx HP Honly; [inversion Hx|].
  rewrite filter_cons. destruct (decide (P a)) as [HPa|HPa].
  - assert (a = x) as -> by (apply Honly; [left | exact HPa]).
    f_equal. apply filter_none. intros y Hy HPy.
    assert (y = x) as -> by (apply Honly; [now right | exact HPy]).
    contradiction.
  - apply IH; [|exact HP|].
    + apply elem_of_cons in Hx as [->|Hx]; [contradiction | exact Hx].
    + intros y Hy. apply Honly. now right.
Qed.

Lemma is_method_stamp name enabled d :
  is_method (stamp name enabled d) = is_method d.
Proof. now destruct d. Qed.

(** X20: a class body that binds a key declared by a direct base to
    [dbus_overload(f)], the nearest base binding the key to a dbus
    method.  When the class statement returns a class, the class binds
    the key to a copy of the base's method object in which only the
    function is replaced by [f], so the copy keeps the base's wire
    name, signatures, flags, argument names and defaults, and also the
    base's interface name and serving flag, whatever the class
    statement was given; the base's own object is as it was; one
    descriptor has been created; the key joins the declared keys. *)
Theorem override_keeps_contract (w w' : World) (name : string)
    (bases : list PyClass) (namespace : list (string * NsValue))
    (interface_name : option string) (serving_enabled : bool)
    (key : string) (f : FunctionType) (a : addr) (m : DbusMethod.t)
    (cls : PyClass) :
  NoDup namespace.*1 ->
  objects_exist w namespace ->
  built_by_hook bases ->
  ns_lookup key namespace = Some (dbus_overload f) ->
  key ∈ super_declared bases ->
  (∀ k, k ∈ namespace.*1 -> k ∈ super_declared bases -> k = key) ->
  first_base_with key bases = Some (NsDbus a) ->
  descriptors w !! a = Some (Method m) ->
  a ∉ declared_addrs namespace ->
  __new__ name bases namespace interface_name serving_enabled w
  = (Ok cls, w') ->
  let n := length (descriptors w) in
  cls_dict cls = ns_update key (NsDbus n) namespace
  ∧ _dbus_declared_interfaces cls
    = Some (list_to_set (declared_keys namespace) ∪ {[key]})
  ∧ descriptors w' !! n
    = Some (Method (DbusMethod.with_original_method f m))
  ∧ descriptors w' !! a = Some (Method m)
  ∧ length (descriptors w') = S n.
Proof.
  intros Hnodup Hexist Hbases Hmarker Hdeclared Honly Hfirst Hm Hfresh
         Hreturned.
  cbv zeta.
  destruct (stamp_loop_run namespace interface_name serving_enabled ∅ w Hexist)
    as (ds & Hstamp & Hlen & _ & Hout).
  rewrite (left_id_L ∅ (∪)) in Hstamp.
  assert (Hkeys : filter (λ k, k ∈ super_declared bases) namespace.*1
                  = [key]).
  { apply filter_only; try assumption.
    now apply MetaFacts.ns_lookup_key in Hmarker. }
  assert (Hm1 : ds !! a = Some (Method m)) by now rewrite (Hout a Hfresh).
  assert (Ha : (a < length ds)%nat) by now apply lookup_lt_Some in Hm1.
  assert (Hrun :
    __new__ name bases namespace interface_name serving_enabled w
    = (Ok {| cls_name := name; cls_bases := bases;
             cls_dict :=
               ns_update key (NsDbus (length (descriptors w))) namespace;
             _dbus_declared_interfaces :=
               Some (list_to_set (declared_keys namespace) ∪ {[key]});
             _dbus_interface_name := interface_name;
             _dbus_serving_enabled := serving_enabled |},
       set_descriptors
         (ds ++ [Method (DbusMethod.with_original_method f m)]) w)).
  { unfold __new__.
    rewrite (bind_ok _ _ _ _ _ Hstamp).
    rewrite (bind_ok _ _ _ _ _ (super_loop_declared bases _ Hbases)).
    rewrite Hkeys. cbn [overload_loop]. rewrite Hmarker.
    unfold dbus_overload. cbn beta iota. rewrite Hfirst.
    unfold mbind, M_bind, descriptor_at, new_descriptor, update_descriptor.
    cbn [descriptors set_descriptors]. rewrite Hm1.
    cbn [descriptors set_descriptors].
    rewrite lookup_app_r by lia. rewrite Nat.sub_diag. cbn [lookup list_lookup].
    rewrite insert_app_r_alt by lia. rewrite Nat.sub_diag.
    cbn. unfold mret, M_ret. now rewrite Hlen. }
  rewrite Hrun in Hreturned. injection Hreturned as <- <-.
  cbn [cls_dict _dbus_declared_interfaces descriptors set_descriptors].
  split; [reflexivity|]. split; [reflexivity|]. split; [|split].
  - rewrite <- Hlen.
    rewrite lookup_app_r by lia. now rewrite Nat.sub_diag.
  - now apply lookup_app_l_Some.
  - rewrite length_app, Hlen. cbn. lia.
Qed.

Lemma ServedBase_built : built_by_hook [Samples.ServedBase_class].
Proof.
  constructor; [|constructor]. intros _. eexists. reflexivity.
Qed.

Lemma ServedBase_declares (key : string) :
  key ∈ ["double"; "changed"; "test_property"] ->
  key ∈ super_declared [Samples.ServedBase_class].
Proof.
  intros Hkey. unfold super_declared. cbn.
  rewrite !elem_of_union, !elem_of_singleton.
  rewrite !elem_of_cons in Hkey. rewrite elem_of_nil in Hkey. tauto.
Qed.

Lemma ServedBase_declares_only (key : string) :
  key ∈ super_declared [Samples.ServedBase_class] ->
  key ∈ ["double"; "changed"; "test_property"].
Proof.
  unfold super_declared. cbn.
  rewrite !elem_of_union, !elem_of_singleton, elem_of_empty.
  rewrite !elem_of_cons, elem_of_nil. tauto.
Qed.

Lemma override_keeps_contract_witness :
  descriptors (snd (ClassSamples.quiet Samples.declared_world)) !! 4%nat
  = Some (Method (DbusMethod.with_original_method
                    (Samples.plain "double")
                    (Samples.method_of Samples.double "Double")))
  ∧ descriptors (snd (ClassSamples.quiet Samples.declared_world)) !! 0%nat
    = Some (Method (Samples.method_of Samples.double "Double")).
Proof.
  refine ((λ H, conj (proj1 (proj2 (proj2 H)))
                     (proj1 (proj2 (proj2 (proj2 H)))))
          (override_keeps_contract Samples.declared_world
            (snd (ClassSamples.quiet Samples.declared_world)) "Quiet"
            [Samples.ServedBase_class] ClassSamples.quiet_body
            (Some "org.example.Quiet") true "double" (Samples.plain "double")
            0 (Samples.method_of Samples.double "Double") _
            _ _ ServedBase_built eq_refl _ _ eq_refl eq_refl _ _)).
  - apply NoDup_singleton.
  - constructor.
  - apply ServedBase_declares. left.
  - intros k Hk _. now apply list_elem_of_singleton in Hk.
  - intros H. inversion H.
  - vm_compute. reflexivity.
Defined.

(** X21: the marker [dbus_overload] works on dbus methods only.  With
    a key declared by a direct base bound to [dbus_overload(f)]: if the
    nearest base binds the key to a dbus property or a signal, the
    class statement fails with a bare [TypeError]; if the nearest base
    that has the key binds it to something that is not a dbus object,
    the class statement fails an assertion. *)
Theorem misplaced_marker_rejected (w : World) (name : string)
    (bases : list PyClass) (namespace : list (string * NsValue))
    (interface_name : option string) (serving_enabled : bool)
    (key : string) (f : FunctionType) :
  NoDup namespace.*1 ->
  objects_exist w namespace ->
  built_by_hook bases ->
  ns_lookup key namespace = Some (dbus_overload f) ->
  key ∈ super_declared bases ->
  (∀ k, k ∈ namespace.*1 -> k ∈ super_declared bases -> k = key) ->
  (∀ a d,
     first_base_with key bases = Some (NsDbus a) ->
     descriptors w !! a = Some d ->
     is_method d = false ->
     fst (__new__ name bases namespace interface_name serving_enabled w)
     = Raise (TypeError ""))
  ∧ (∀ v,
       first_base_with key bases = Some v ->
       is_dbus v = false ->
       fst (__new__ name bases namespace interface_name serving_enabled w)
       = Raise AssertionError).
Proof.
  intros Hnodup Hexist Hbases Hmarker Hdeclared Honly.
  destruct (stamp_loop_run namespace interface_name serving_enabled ∅ w Hexist)
    as (ds & Hstamp & Hlen & Hin & Hout).
  assert (Hkeys : filter (λ k, k ∈ super_declared bases) namespace.*1
                  = [key]).
  { apply filter_only; try assumption.
    now apply MetaFacts.ns_lookup_key in Hmarker. }
  assert (Hrun : __new__ name bases namespace interface_name serving_enabled w
    = ('(namespace, declared_interfaces) ←
         overload_loop bases [key] namespace
           (∅ ∪ list_to_set (declared_keys namespace)) None;
       mret {| cls_name := name; cls_bases := bases; cls_dict := namespace;
               _dbus_declared_interfaces := Some declared_interfaces;
               _dbus_interface_name := interface_name;
               _dbus_serving_enabled := serving_enabled |})
        (set_descriptors ds w)).
  { unfold __new__.
    rewrite (bind_ok _ _ _ _ _ Hstamp).
    rewrite (bind_ok _ _ _ _ _ (super_loop_declared bases _ Hbases)).
    now rewrite Hkeys. }
  rewrite Hrun. clear Hrun. split.
  - intros a d Hfirst Hd Hkind.
    assert (Hd1 : ∃ d1, ds !! a = Some d1 ∧ is_method d1 = false).
    { destruct (decide (a ∈ declared_addrs namespace)) as [Ha|Ha].
      - exists (stamp interface_name serving_enabled d).
        rewrite (Hin a Ha), Hd. split; [reflexivity|].
        now rewrite is_method_stamp.
      - exists d. now rewrite (Hout a Ha). }
    destruct Hd1 as (d1 & Hd1 & Hkind1).
    cbn [overload_loop]. rewrite Hmarker.
    unfold dbus_overload. cbn beta iota. rewrite Hfirst.
    unfold mbind, M_bind, descriptor_at, new_descriptor.
    cbn [descriptors set_descriptors]. rewrite Hd1.
    destruct d1 as [m|p|s]; [discriminate Hkind1 | reflexivity | reflexivity].
  - intros v Hfirst Hkind.
    cbn [overload_loop]. rewrite Hmarker.
    unfold dbus_overload. cbn beta iota. rewrite Hfirst.
    destruct v as [a|g|g|x|l|t]; [discriminate Hkind | reflexivity..].
Qed.

Lemma misplaced_marker_rejected_witness :
  fst (ClassSamples.quiet_property Samples.declared_world)
  = Raise (TypeError "")
  ∧ fst (__new__ "Quiet" [ClassSamples.Mixin_class; Samples.ServedBase_class]
           ClassSamples.quiet_body None true Samples.declared_world)
    = Raise AssertionError.
Proof.
  split.
  - refine (proj1 (misplaced_marker_rejected Samples.declared_world "Quiet"
              [Samples.ServedBase_class]
              [("test_property",
                dbus_overload (Samples.plain "test_property"))]
              None true "test_property" (Samples.plain "test_property")
              _ _ ServedBase_built eq_refl _ _)
              3%nat (Property Samples.read_only_property)
              eq_refl eq_refl eq_refl).
    + apply NoDup_singleton.
    + constructor.
    + apply ServedBase_declares. right. right. left.
    + intros k Hk _. now apply list_elem_of_singleton in Hk.
  - refine (proj2 (misplaced_marker_rejected Samples.declared_world "Quiet"
              [ClassSamples.Mixin_class; Samples.ServedBase_class]
              ClassSamples.quiet_body None true "double"
              (Samples.plain "double") _ _ _ eq_refl _ _)
              (NsFunction (Samples.plain "double")) eq_refl eq_refl).
    + apply NoDup_singleton.
    + constructor.
    + constructor; [discriminate | apply ServedBase_built].
    + apply (ServedBase_declares "double"). left.
    + intros k Hk _. now apply list_elem_of_singleton in Hk.
Defined.

(** X22: a class body none of whose keys was declared by a direct
    base goes through the hook as it is.  When the class statement
    returns a class, the class has the body's bindings unchanged (a
    [dbus_overload] marker on such a key stays in the class as the
    marker object), its declared keys are exactly the keys bound to
    dbus objects, and these objects have the interface name and
    serving flag, no descriptor being created or otherwise changed. *)
Theorem fresh_keys_accepted (w w' : World) (name : string)
    (bases : list PyClass) (namespace : list (string * NsValue))
    (interface_name : option string) (serving_enabled : bool)
    (cls : PyClass) :
  built_by_hook bases ->
  (∀ k, k ∈ namespace.*1 -> k ∉ super_declared bases) ->
  __new__ name bases namespace interface_name serving_enabled w
  = (Ok cls, w') ->
  cls_dict cls = namespace
  ∧ _dbus_declared_interfaces cls
    = Some (list_to_set (declared_keys namespace))
  ∧ length (descriptors w') = length (descriptors w)
  ∧ (∀ a, a ∈ declared_addrs namespace ->
          descriptors w' !! a
          = stamp interface_name serving_enabled <$> descriptors w !! a)
  ∧ (∀ a, a ∉ declared_addrs namespace ->
          descriptors w' !! a = descriptors w !! a).
Proof.
  intros Hbases Hfresh Hreturned.
  assert (Hexist : objects_exist w namespace).
  { unfold __new__ in Hreturned.
    apply bind_inv_ok in Hreturned as (declared & w1 & Hstamp & _).
    exact (stamp_loop_exist _ _ _ _ _ _ _ Hstamp). }
  destruct (stamp_loop_run namespace interface_name serving_enabled ∅ w Hexist)
    as (ds & Hstamp & Hrest).
  rewrite (left_id_L ∅ (∪)) in Hstamp.
  rewrite (MetaFacts.new_members_accepted w _ name bases namespace
             interface_name serving_enabled _ (super_declared bases) Hstamp
             (super_loop_declared bases _ Hbases) Hfresh) in Hreturned.
  injection Hreturned as <- <-.
  split; [reflexivity|]. split; [reflexivity|]. exact Hrest.
Qed.

Lemma fresh_keys_accepted_witness :
  length (descriptors
            (snd (__new__ "Served" [Samples.ServedBase_class]
                    ClassSamples.extra_body (Some "org.example.Extra") true
                    Samples.declared_world))) = 4%nat.
Proof.
  refine (proj1 (proj2 (proj2
            (fresh_keys_accepted Samples.declared_world
               (snd (__new__ "Served" [Samples.ServedBase_class]
                       ClassSamples.extra_body (Some "org.example.Extra")
                       true Samples.declared_world))
               "Served" [Samples.ServedBase_class] ClassSamples.extra_body
               (Some "org.example.Extra") true _ ServedBase_built _ _)))).
  - intros k Hk Hdeclared. apply ServedBase_declares_only in Hdeclared.
    cbn in Hk. rewrite !elem_of_cons, elem_of_nil in Hk.
    rewrite !elem_of_cons, elem_of_nil in Hdeclared.
    destruct Hk as [->|[->|[]]];
      destruct Hdeclared as [?|[?|[?|[]]]]; discriminate.
  - vm_compute. reflexivity.
Defined.

(** X23: a class body that binds a key declared by a direct base,
    without the marker on any such key, is rejected with the
    [TypeError] of the hook; but the first loop has run by then: the
    dbus objects the body names keep the interface name and serving
    flag of the failed class statement. *)
Theorem redeclaration_rejected_after_stamping (w : World) (name : string)
    (bases : list PyClass) (namespace : list (string * NsValue))
    (interface_name : option string) (serving_enabled : bool)
    (key : string) (v : NsValue) :
  objects_exist w namespace ->
  built_by_hook bases ->
  (∀ k x, k ∈ super_declared bases -> ns_lookup k namespace = Some x ->
          is_overload x = false) ->
  key ∈ super_declared bases ->
  ns_lookup key namespace = Some v ->
  ∃ w',
    __new__ name bases namespace interface_name serving_enabled w
    = (Raise (TypeError overload_message), w')
    ∧ length (descriptors w') = length (descriptors w)
    ∧ (∀ a, a ∈ declared_addrs namespace ->
            descriptors w' !! a
            = stamp interface_name serving_enabled <$> descriptors w !! a)
    ∧ (∀ a, a ∉ declared_addrs namespace ->
            descriptors w' !! a = descriptors w !! a).
Proof.
  intros Hexist Hbases Hplain Hkey Hv.
  destruct (stamp_loop_run namespace interface_name serving_enabled ∅ w Hexist)
    as (ds & Hstamp & Hrest).
  exists (set_descriptors ds w). split; [|exact Hrest].
  apply (MetaFacts.redeclaration_of_base_member_rejected w _ name bases
           namespace interface_name serving_enabled _ (super_declared bases)
           key v Hstamp); try assumption.
  now apply super_loop_declared.
Qed.

Lemma redeclaration_rejected_after_stamping_witness :
  ∃ w',
    __new__ "Clash" [Samples.ServedBase_class] ClassSamples.clash_body
      (Some "org.example.Clash") false Samples.declared_world
    = (Raise (TypeError overload_message), w')
    ∧ length (descriptors w') = 4%nat
    ∧ (∀ a, a ∈ declared_addrs ClassSamples.clash_body ->
            descriptors w' !! a
            = stamp (Some "org.example.Clash") false
                <$> descriptors Samples.declared_world !! a)
    ∧ (∀ a, a ∉ declared_addrs ClassSamples.clash_body ->
            descriptors w' !! a = descriptors Samples.declared_world !! a).
Proof.
  refine (redeclaration_rejected_after_stamping Samples.declared_world
            "Clash" [Samples.ServedBase_class] ClassSamples.clash_body
            (Some "org.example.Clash") false "double" (NsDbus 2)
            _ ServedBase_built _ _ eq_refl).
  - constructor; [now eexists | constructor].
  - intros k x _ Hx. unfold ClassSamples.clash_body in Hx.
    cbn [ns_lookup] in Hx.
    destruct (String.eqb "double" k); [|discriminate].
    injection Hx as <-. reflexivity.
  - apply ServedBase_declares. left.
Defined.

End ClassFacts.

(** ** Serving, member by member *)

Module ServeGroupFacts.
Import DbusInterfaceBase ServeShape.

(** [getmembers] on attributes that exist reads the descriptors and
    changes nothing. *)
Lemma getmembers_run (attrs : list (string * NsValue)) (obj : addr) :
  ∀ w,
    attrs_exist (descriptors w) attrs ->
    getmembers attrs obj w = (Ok (members_of (descriptors w) obj attrs), w).
Proof.
  induction attrs as [|[key v] attrs IH]; intros w Hexist; [reflexivity|].
  assert (Hrest : attrs_exist (descriptors w) attrs).
  { intros k a Hk. apply (Hexist k a). now right. }
  cbn [getmembers members_of map fst snd].
  destruct v as [a|f|f|x|l|t];
    try (rewrite (bind_ok _ _ _ _ _ (IH w Hrest)); reflexivity).
  destruct (Hexist key a) as [d Hd]; [left|].
  assert (Hget : __get__ a obj w
                 = (Ok (member_of (descriptors w) obj (NsDbus a)), w)).
  { unfold __get__, descriptor_at, mbind, M_bind, member_of. rewrite Hd.
    now destruct d. }
  rewrite (bind_ok _ _ _ _ _ Hget), (bind_ok _ _ _ _ _ (IH w Hrest)).
  reflexivity.
Qed.

(** A [getmembers] that returns found every dbus object. *)
Lemma getmembers_exist (attrs : list (string * NsValue)) (obj : addr) :
  ∀ w members w',
    getmembers attrs obj w = (Ok members, w') ->
    attrs_exist (descriptors w) attrs.
Proof.
  induction attrs as [|[key v] attrs IH]; intros w members w' Hrun k a Hk.
  - inversion Hk.
  - cbn [getmembers] in Hrun. destruct v as [a'|f|f|x|l|t].
    + apply bind_inv_ok in Hrun as (value & w1 & Hget & Hrun).
      unfold __get__, descriptor_at, mbind, M_bind in Hget.
      destruct (descriptors w !! a') as [d|] eqn:Hd; [|discriminate].
      injection Hget as _ <-.
      apply bind_inv_ok in Hrun as (rest & w2 & Hrest & _).
      apply elem_of_cons in Hk as [Hk|Hk].
      * injection Hk as -> ->. now exists d.
      * exact (IH _ _ _ Hrest k a Hk).
    + apply bind_inv_ok in Hrun as (rest & w2 & Hrest & _).
      apply elem_of_cons in Hk as [Hk|Hk]; [discriminate|].
      exact (IH _ _ _ Hrest k a Hk).
    + apply bind_inv_ok in Hrun as (rest & w2 & Hrest & _).
      apply elem_of_cons in Hk as [Hk|Hk]; [discriminate|].
      exact (IH _ _ _ Hrest k a Hk).
    + apply bind_inv_ok in Hrun as (rest & w2 & Hrest & _).
      apply elem_of_cons in Hk as [Hk|Hk]; [discriminate|].
      exact (IH _ _ _ Hrest k a Hk).
    + apply bind_inv_ok in Hrun as (rest & w2 & Hrest & _).
      apply elem_of_cons in Hk as [Hk|Hk]; [discriminate|].
      exact (IH _ _ _ Hrest k a Hk).
    + apply bind_inv_ok in Hrun as (rest & w2 & Hrest & _).
      apply elem_of_cons in Hk as [Hk|Hk]; [discriminate|].
      exact (IH _ _ _ Hrest k a Hk).
Qed.

(** One step of the first loop, by what the attribute is. *)
Lemma group_loop_step (w : World) (obj : addr) (key : string) (v : NsValue)
    (members : list (string * Member))
    (interface_map : list (string * list Member)) :
  (∀ a, v = NsDbus a -> is_Some (descriptors w !! a)) ->
  group_loop ((key, member_of (descriptors w) obj v) :: members)
             interface_map w
  = match v with
    | NsDbus a =>
        match serving_name <$> descriptors w !! a with
        | Some (Some (Some name)) =>
            group_loop members
              (map_append name (member_of (descriptors w) obj v)
                          interface_map) w
        | Some (Some None) => (Raise AssertionError, w)
        | _ => group_loop members interface_map w
        end
    | _ => group_loop members interface_map w
    end.
Proof.
  intros Hexist. destruct v as [a|f|f|x|l|t]; try reflexivity.
  destruct (Hexist a eq_refl) as [d Hd].
  cbn [group_loop member_of]. rewrite Hd. cbn [fmap option_fmap option_map].
  destruct d as [m|p|s]; cbn [serving_name].
  - rewrite (bind_ok _ _ _ _ _ (method_at_ok _ _ _ Hd)).
    destruct (DbusMethod.serving_enabled m); cbn [negb]; [|reflexivity].
    now destruct (DbusMethod.interface_name m).
  - rewrite (bind_ok _ _ _ _ _ (property_at_ok _ _ _ Hd)).
    destruct (DbusProperty.serving_enabled p); cbn [negb]; [|reflexivity].
    now destruct (DbusProperty.interface_name p).
  - reflexivity.
Qed.

(** The first loop over members none of which is served. *)
Lemma group_loop_unserved (w : World) (obj : addr)
    (attrs : list (string * NsValue)) :
  ∀ interface_map,
    (∀ key a, (key, NsDbus a) ∈ attrs ->
              ∃ d, descriptors w !! a = Some d ∧ serving_name d = None) ->
    group_loop (members_of (descriptors w) obj attrs) interface_map w
    = (Ok interface_map, w).
Proof.
  induction attrs as [|[key v] attrs IH]; intros interface_map Hnone;
    [reflexivity|].
  cbn [members_of map fst snd]. fold (members_of (descriptors w) obj attrs).
  rewrite group_loop_step.
  - assert (Hrest : group_loop (members_of (descriptors w) obj attrs)
                               interface_map w = (Ok interface_map, w)).
    { apply IH. intros k a Hk. apply (Hnone k a). now right. }
    destruct v as [a|f|f|x|l|t]; try exact Hrest.
    destruct (Hnone key a) as (d & Hd & Hname); [left|].
    now rewrite Hd; cbn; rewrite Hname.
  - intros a ->. destruct (Hnone key a) as (d & Hd & _); [left|].
    now exists d.
Qed.

(** X24: on an object none of whose dbus methods and properties has
    serving enabled, as with the standard interfaces of the library,
    [start_serving] returns normally having registered nothing: no
    request goes to the bus and [activated_interfaces] is as it was;
    the object just records the bus and the object path. *)
Theorem unserved_members_register_nothing (w : World) (self : addr)
    (i : Instance) (attrs : list (string * NsValue)) (bus : addr)
    (object_path : string) :
  instances w !! self = Some i ->
  (∀ key a, (key, NsDbus a) ∈ attrs ->
            ∃ d, descriptors w !! a = Some d ∧ serving_name d = None) ->
  start_serving self attrs bus object_path w
  = (Ok tt,
     set_instances (<[self := attached bus object_path i]> (instances w)) w).
Proof.
  intros Hi Hnone. unfold start_serving.
  set (w1 := set_instances
               (<[self := attached bus object_path i]> (instances w)) w).
  assert (Hset : ∀ f, f i = attached bus object_path i ->
                      update_instance self f w = (Ok tt, w1)).
  { intros f Hf. unfold update_instance. now rewrite Hi, Hf. }
  rewrite (bind_ok _ _ _ _ _ (Hset _ eq_refl)).
  assert (Hexist : attrs_exist (descriptors w1) attrs).
  { intros key a Hk. destruct (Hnone key a Hk) as (d & Hd & _).
    now exists d. }
  rewrite (bind_ok _ _ _ _ _ (getmembers_run attrs self w1 Hexist)).
  rewrite (bind_ok _ _ _ _ _
             (group_loop_unserved w1 self attrs [] Hnone)).
  reflexivity.
Qed.

Lemma unserved_members_register_nothing_witness :
  start_serving 0 ServeSamples.common_attrs 7 "/obj" ServeSamples.common_world
  = (Ok tt,
     set_instances
       (<[0%nat := attached 7 "/obj" ServeSamples.common_object]>
          (instances ServeSamples.common_world))
       ServeSamples.common_world).
Proof.
  apply unserved_members_register_nothing.
  - vm_compute. reflexivity.
  - intros key a Hk. unfold ServeSamples.common_attrs in Hk.
    rewrite !elem_of_cons, elem_of_nil in Hk.
    destruct Hk as [Hk|[Hk|[Hk|[Hk|[]]]]]; try discriminate Hk;
      injection Hk as _ ->; eexists; (split; [vm_compute; reflexivity|]);
      reflexivity.
Defined.


(** The first loop stops at a served member that has no interface
    name. *)
Lemma group_loop_nameless (w : World) (obj : addr)
    (attrs : list (string * NsValue)) :
  ∀ interface_map,
    attrs_exist (descriptors w) attrs ->
    (∃ key a d, (key, NsDbus a) ∈ attrs
                ∧ descriptors w !! a = Some d
                ∧ serving_name d = Some None) ->
    group_loop (members_of (descriptors w) obj attrs) interface_map w
    = (Raise AssertionError, w).
Proof.
  induction attrs as [|[key v] attrs IH];
    intros interface_map Hexist (k & a & d & Hk & Hd & Hname).
  - inversion Hk.
  - assert (Hrest : attrs_exist (descriptors w) attrs).
    { intros k' a' Hk'. apply (Hexist k' a'). now right. }
    cbn [members_of map fst snd]. fold (members_of (descriptors w) obj attrs).
    rewrite group_loop_step
      by (intros a' ->; apply (Hexist key a'); left).
    apply elem_of_cons in Hk as [Hk|Hk].
    + injection Hk as <- <-. now rewrite Hd; cbn; rewrite Hname.
    + assert (Hgo : ∀ interface_map,
                group_loop (members_of (descriptors w) obj attrs)
                           interface_map w = (Raise AssertionError, w)).
      { intros m. apply IH; [exact Hrest|]. now exists k, a, d. }
      destruct v as [a'|f|f|x|l|t]; try apply Hgo.
      destruct (serving_name <$> descriptors w !! a') as [[[name|]|]|];
        first [apply Hgo | reflexivity].
Qed.

(** X25: on an object one of whose dbus methods or properties has
    serving enabled but no interface name, its class having been given
    none, [start_serving] fails an assertion; nothing has been
    registered and [activated_interfaces] is as it was, but the object
    has the bus and the object path recorded. *)
Theorem serving_without_interface_name_fails (w : World) (self : addr)
    (i : Instance) (attrs : list (string * NsValue)) (bus : addr)
    (object_path : string) :
  instances w !! self = Some i ->
  attrs_exist (descriptors w) attrs ->
  (∃ key a d, (key, NsDbus a) ∈ attrs
              ∧ descriptors w !! a = Some d
              ∧ serving_name d = Some None) ->
  start_serving self attrs bus object_path w
  = (Raise AssertionError,
     set_instances (<[self := attached bus object_path i]> (instances w)) w).
Proof.
  intros Hi Hexist Hnameless. unfold start_serving.
  set (w1 := set_instances
               (<[self := attached bus object_path i]> (instances w)) w).
  assert (Hset : ∀ f, f i = attached bus object_path i ->
                      update_instance self f w = (Ok tt, w1)).
  { intros f Hf. unfold update_instance. now rewrite Hi, Hf. }
  rewrite (bind_ok _ _ _ _ _ (Hset _ eq_refl)).
  rewrite (bind_ok _ _ _ _ _ (getmembers_run attrs self w1 Hexist)).
  now rewrite (bind_raise _ _ _ _ _
                 (group_loop_nameless w1 self attrs [] Hexist Hnameless)).
Qed.

Lemma serving_without_interface_name_fails_witness :
  start_serving 0 ServeSamples.nameless_attrs 7 "/obj"
    ServeSamples.nameless_world
  = (Raise AssertionError,
     set_instances
       (<[0%nat := attached 7 "/obj" ServeSamples.constructed_object]>
          (instances ServeSamples.nameless_world))
       ServeSamples.nameless_world).
Proof.
  apply serving_without_interface_name_fails.
  - vm_compute. reflexivity.
  - intros key a Hk. unfold ServeSamples.nameless_attrs in Hk.
    rewrite !elem_of_cons, elem_of_nil in Hk.
    destruct Hk as [Hk|[Hk|[]]]; injection Hk as _ ->;
      eexists; vm_compute; reflexivity.
  - exists "nameless", 4%nat. eexists.
    split; [right; left|]. split; [vm_compute; reflexivity | reflexivity].
Defined.

Lemma listed_cons k l rest name member :
  listed ((k, l) :: rest) name member
  ↔ (name = k ∧ member ∈ l) ∨ listed rest name member.
Proof.
  unfold listed. split.
  - intros (member_list & Hin & Hmember).
    apply elem_of_cons in Hin as [Hin|Hin].
    + injection Hin as -> ->. now left.
    + right. now exists member_list.
  - intros [[-> Hmember]|(member_list & Hin & Hmember)].
    + exists l. split; [left | exact Hmember].
    + exists member_list. split; [now right | exact Hmember].
Qed.

Lemma listed_map_append key value interface_map name member :
  listed (map_append key value interface_map) name member
  ↔ listed interface_map name member ∨ (name = key ∧ member = value).
Proof.
  induction interface_map as [|[k l] rest IH]; cbn [map_append].
  - rewrite listed_cons. unfold listed. split.
    + intros [[-> Hmember]|(x & Hx & _)]; [|inversion Hx].
      apply list_elem_of_singleton in Hmember. now right.
    + intros [(x & Hx & _)|[-> ->]]; [inversion Hx|].
      left. split; [reflexivity | left].
  - destruct (String.eqb_spec k key) as [->|Hne].
    + rewrite !listed_cons, elem_of_app, list_elem_of_singleton. tauto.
    + rewrite !listed_cons, IH. tauto.
Qed.

Lemma map_append_key key value interface_map k :
  k ∈ (map_append key value interface_map).*1
  ↔ k ∈ interface_map.*1 ∨ k = key.
Proof.
  induction interface_map as [|[k' l] rest IH]; cbn [map_append].
  - cbn. rewrite list_elem_of_singleton, elem_of_nil. tauto.
  - destruct (String.eqb_spec k' key) as [->|Hne].
    + cbn. rewrite !elem_of_cons. tauto.
    + cbn [fmap list_fmap fst] in *. rewrite !elem_of_cons, IH. tauto.
Qed.

Lemma map_append_NoDup key value interface_map :
  NoDup interface_map.*1 -> NoDup (map_append key value interface_map).*1.
Proof.
  induction interface_map as [|[k l] rest IH]; cbn [map_append]; intros Hnodup.
  - apply NoDup_singleton.
  - destruct (String.eqb_spec k key) as [->|Hne]; [exact Hnodup|].
    cbn [fmap list_fmap fst] in *.
    apply NoDup_cons in Hnodup as [Hk Hrest].
    apply NoDup_cons. split; [|now apply IH].
    rewrite map_append_key. tauto.
Qed.

(** What the first loop leaves in the interface map. *)
Lemma group_loop_members (w : World) (obj : addr)
    (attrs : list (string * NsValue)) :
  ∀ interface_map result w',
    attrs_exist (descriptors w) attrs ->
    group_loop (members_of (descriptors w) obj attrs) interface_map w
    = (Ok result, w') ->
    w' = w
    ∧ (NoDup interface_map.*1 -> NoDup result.*1)
    ∧ ∀ name member,
        listed result name member
        ↔ listed interface_map name member
          ∨ ∃ key a d,
              (key, NsDbus a) ∈ attrs
              ∧ descriptors w !! a = Some d
              ∧ serving_name d = Some (Some name)
              ∧ member = member_of (descriptors w) obj (NsDbus a).
Proof.
  induction attrs as [|[key v] attrs IH];
    intros interface_map result w' Hexist Hrun.
  - injection Hrun as <- <-. split; [reflexivity|]. split; [auto|].
    intros name member. split; [now left|].
    intros [H|(k & a & d & Hk & _)]; [exact H | inversion Hk].
  - assert (Hrest : attrs_exist (descriptors w) attrs).
    { intros k' a' Hk'. apply (Hexist k' a'). now right. }
    cbn [members_of map fst snd] in Hrun.
    fold (members_of (descriptors w) obj attrs) in Hrun.
    rewrite group_loop_step in Hrun
      by (intros a' ->; apply (Hexist key a'); left).
    assert (Hskip :
      (∀ name d a, v = NsDbus a -> descriptors w !! a = Some d ->
                   serving_name d ≠ Some (Some name)) ->
      group_loop (members_of (descriptors w) obj attrs) interface_map w
      = (Ok result, w') ->
      w' = w
      ∧ (NoDup interface_map.*1 -> NoDup result.*1)
      ∧ ∀ name member,
          listed result name member
          ↔ listed interface_map name member
            ∨ ∃ k a d,
                (k, NsDbus a) ∈ (key, v) :: attrs
                ∧ descriptors w !! a = Some d
                ∧ serving_name d = Some (Some name)
                ∧ member = member_of (descriptors w) obj (NsDbus a)).
    { intros Hnot Hgo.
      destruct (IH _ _ _ Hrest Hgo) as (-> & Hnodup & Hiff).
      split; [reflexivity|]. split; [exact Hnodup|].
      intros name member. rewrite Hiff. split.
      - intros [H|(k & a & d & Hk & H)]; [now left|].
        right. exists k, a, d. split; [now right | exact H].
      - intros [H|(k & a & d & Hk & Hd & Hname & H)]; [now left|].
        apply elem_of_cons in Hk as [Hk|Hk].
        + injection Hk as -> <-. now destruct (Hnot name d a eq_refl Hd).
        + right. now exists k, a, d. }
    destruct v as [a|f|f|x|l|t];
      try (apply Hskip; [discriminate | exact Hrun]).
    destruct (Hexist key a) as [d Hd]; [left|].
    rewrite Hd in Hrun. cbn [fmap option_fmap option_map] in Hrun.
    destruct (serving_name d) as [[name|]|] eqn:Hname.
    + destruct (IH _ _ _ Hrest Hrun) as (-> & Hnodup & Hiff).
      split; [reflexivity|]. split.
      * intros H. now apply Hnodup, map_append_NoDup.
      * intros name' member. rewrite Hiff, listed_map_append. split.
        -- intros [[H|[-> ->]]|(k & a' & d' & Hk & H)].
           ++ now left.
           ++ right. exists key, a, d. split; [left | auto].
           ++ right. exists k, a', d'. split; [now right | exact H].
        -- intros [H|(k & a' & d' & Hk & Hd' & Hname' & ->)].
           ++ now left; left.
           ++ apply elem_of_cons in Hk as [Hk|Hk].
              ** injection Hk as -> ->. left. right.
                 rewrite Hd in Hd'. injection Hd' as <-.
                 rewrite Hname in Hname'. now injection Hname' as <-.
              ** right. now exists k, a', d'.
    + discriminate Hrun.
    + apply Hskip; [|exact Hrun].
      intros name d' a' Ha' Hd'. injection Ha' as <-.
      rewrite Hd in Hd'. injection Hd' as <-. now rewrite Hname.
Qed.

Lemma method_at_inv a w m w' :
  method_at a w = (Ok m, w') -> w' = w ∧ descriptors w !! a = Some (Method m).
Proof.
  unfold_monad. destruct (descriptors w !! a) as [[]|]; intros H;
    try discriminate H. now injection H as <- <-.
Qed.

Lemma property_at_inv a w p w' :
  property_at a w = (Ok p, w') ->
  w' = w ∧ descriptors w !! a = Some (Property p).
Proof.
  unfold_monad. destruct (descriptors w !! a) as [[]|]; intros H;
    try discriminate H. now injection H as <- <-.
Qed.

Lemma signal_at_inv a w s w' :
  signal_at a w = (Ok s, w') -> w' = w ∧ descriptors w !! a = Some (Signal s).
Proof.
  unfold_monad. destruct (descriptors w !! a) as [[]|]; intros H;
    try discriminate H. now injection H as <- <-.
Qed.

(** The inner loop makes the registration of each member, in order. *)
Lemma fill_interface_entries (member_list : list Member) :
  ∀ new_interface w result w',
    fill_interface member_list new_interface w = (Ok result, w') ->
    w' = w
    ∧ ∃ entries,
        result = (new_interface ++ entries)%list
        ∧ Forall2 (λ member entry,
                     entry_of (descriptors w) member = Some entry)
                  member_list entries.
Proof.
  induction member_list as [|member member_list IH];
    intros new_interface w result w' Hrun.
  - injection Hrun as <- <-. split; [reflexivity|].
    exists []. split; [now rewrite app_nil_r | constructor].
  - cbn [fill_interface] in Hrun. destruct member as [b|b|b|].
    + apply bind_inv_ok in Hrun as (m & w1 & Hm & Hrun).
      apply method_at_inv in Hm as [-> Hm].
      apply IH in Hrun as (-> & entries & -> & Hentries).
      split; [reflexivity|]. eexists (_ :: entries).
      split; [now rewrite <- app_assoc|].
      constructor; [|exact Hentries]. cbn [entry_of]. now rewrite Hm.
    + apply bind_inv_ok in Hrun as (p & w1 & Hp & Hrun).
      apply property_at_inv in Hp as [-> Hp].
      apply IH in Hrun as (-> & entries & -> & Hentries).
      split; [reflexivity|]. eexists (_ :: entries).
      split; [now rewrite <- app_assoc|].
      constructor; [|exact Hentries]. cbn [entry_of]. now rewrite Hp.
    + apply bind_inv_ok in Hrun as (s & w1 & Hs & Hrun).
      apply signal_at_inv in Hs as [-> Hs].
      apply IH in Hrun as (-> & entries & -> & Hentries).
      split; [reflexivity|]. eexists (_ :: entries).
      split; [now rewrite <- app_assoc|].
      constructor; [|exact Hentries]. cbn [entry_of]. now rewrite Hs.
    + discriminate Hrun.
Qed.

(** The second loop registers one interface per entry of the map, in
    order, and records each. *)
Lemma register_loop_entries (self bus : addr) (object_path : string)
    (interface_map : list (string * list Member)) :
  ∀ w w',
    register_loop self bus object_path interface_map w = (Ok tt, w') ->
    descriptors w' = descriptors w
    ∧ queues w' = queues w
    ∧ ∃ regs : list (string * list InterfaceEntry),
        Forall2 (λ group reg,
                   reg.1 = group.1
                   ∧ Forall2 (λ member entry,
                                entry_of (descriptors w) member = Some entry)
                             group.2 reg.2)
                interface_map regs
        ∧ bus_log w'
          = (bus_log w
             ++ map (λ reg, add_interface bus reg.2 object_path reg.1) regs)%list
        ∧ ∀ i acts,
            instances w !! self = Some i ->
            activated_interfaces i = Some acts ->
            ∃ i', instances w' !! self = Some i'
                  ∧ activated_interfaces i' = Some (acts ++ regs.*2)%list.
Proof.
  induction interface_map as [|[name member_list] rest IH]; intros w w' Hrun.
  - injection Hrun as <-. repeat split. exists [].
    split; [constructor|]. split; [now rewrite app_nil_r|].
    intros i acts Hi Hacts. exists i. now rewrite app_nil_r.
  - cbn [register_loop] in Hrun.
    apply bind_inv_ok in Hrun as (new_interface & w1 & Hfill & Hrun).
    apply fill_interface_entries in Hfill as (-> & entries & -> & Hentries).
    apply bind_inv_ok in Hrun as ([] & w2 & Hbus & Hrun).
    unfold bus_do in Hbus. injection Hbus as <-.
    apply bind_inv_ok in Hrun as ([] & w3 & Happend & Hrun).
    unfold append_activated in Happend.
    apply bind_inv_ok in Happend as (activated & w4 & Hget & Happend).
    unfold getattr, instance_at, mbind, M_bind in Hget.
    cbn [instances set_bus_log] in Hget.
    destruct (instances w !! self) as [i0|] eqn:Hi0; [|discriminate].
    unfold mret, M_ret, raise in Hget.
    destruct (activated_interfaces i0) as [acts0|] eqn:Hacts0;
      [|discriminate].
    injection Hget as <- <-.
    unfold update_instance in Happend. cbn [instances set_bus_log] in Happend.
    rewrite Hi0 in Happend. injection Happend as <-.
    apply IH in Hrun as (Hds & Hqs & regs & Hregs & Hlog & Hacts).
    cbn [descriptors queues bus_log instances set_instances set_bus_log]
      in Hds, Hqs, Hregs, Hlog, Hacts.
    split; [exact Hds|]. split; [exact Hqs|].
    exists ((name, entries) :: regs).
    split; [constructor; [split; [reflexivity | exact Hentries] | exact Hregs]|].
    split.
    + rewrite Hlog. cbn [map fst snd]. now rewrite <- app_assoc.
    + intros i acts Hi Hact. injection Hi as <-.
      rewrite Hacts0 in Hact. injection Hact as <-.
      assert (Hlt : (self < length (instances w))%nat)
        by now apply lookup_lt_Some in Hi0.
      destruct (Hacts _ _ (list_lookup_insert_eq _ _ _ Hlt) eq_refl)
        as (i' & Hi' & Hact').
      exists i'. split; [exact Hi'|]. rewrite Hact'.
      cbn [fmap list_fmap snd]. now rewrite <- app_assoc.
Qed.

Lemma entry_of_member ds obj a d :
  ds !! a = Some d ->
  entry_of ds (member_of ds obj (NsDbus a)) = Some (registration obj a d).
Proof.
  intros Hd. cbn [member_of]. rewrite Hd.
  destruct d; cbn [entry_of DbusMethodBinded.dbus_method
                   DbusPropertyBinded.dbus_property
                   DbusSignalBinded.dbus_signal]; now rewrite Hd.
Qed.

(** X26: what a [start_serving] that returns has registered.  It
    made one [add_interface] request per interface name, in one
    sequence after what the bus had seen, all for the given bus and
    object path; an entry is in the interface registered under a name
    exactly when it is the [add_method] or [add_property] call, with
    the wire name, signatures and flags of the descriptor and the
    callbacks of the object, of an attribute of the object that is a
    dbus method or property with serving enabled and that interface
    name; and the object's [activated_interfaces] grew by these
    interfaces, in the same order. *)
Theorem start_serving_groups_by_interface (w w' : World) (self : addr)
    (attrs : list (string * NsValue)) (bus : addr) (object_path : string) :
  start_serving self attrs bus object_path w = (Ok tt, w') ->
  ∃ regs : list (string * list InterfaceEntry),
    bus_log w'
    = (bus_log w
       ++ map (λ reg, add_interface bus reg.2 object_path reg.1) regs)%list
    ∧ NoDup regs.*1
    ∧ (∀ name entry,
         (∃ interface, (name, interface) ∈ regs ∧ entry ∈ interface)
         ↔ served_under (descriptors w) self attrs name entry)
    ∧ (∀ i acts,
         instances w !! self = Some i ->
         activated_interfaces i = Some acts ->
         ∃ i', instances w' !! self = Some i'
               ∧ activated_interfaces i' = Some (acts ++ regs.*2)%list)
    ∧ descriptors w' = descriptors w
    ∧ queues w' = queues w.
Proof.
  unfold start_serving. intros Hrun.
  apply bind_inv_ok in Hrun as ([] & w1 & Hset & Hrun).
  unfold update_instance in Hset.
  destruct (instances w !! self) as [i0|] eqn:Hi0; [|discriminate].
  injection Hset as <-.
  set (w1 := set_instances _ w) in *.
  apply bind_inv_ok in Hrun as (members & w2 & Hmembers & Hrun).
  pose proof (getmembers_exist _ _ _ _ _ Hmembers) as Hexist.
  rewrite (getmembers_run attrs self w1 Hexist) in Hmembers.
  injection Hmembers as <- <-.
  apply bind_inv_ok in Hrun as (interface_map & w3 & Hgroup & Hrun).
  apply (group_loop_members w1 self attrs [] interface_map w3 Hexist)
    in Hgroup as (-> & Hnodup & Hlisted).
  apply register_loop_entries in Hrun
    as (Hds & Hqs & regs & Hregs & Hlog & Hacts).
  exists regs. split; [exact Hlog|]. split; [|split; [|split]].
  - replace (regs.*1) with (interface_map.*1);
      [apply Hnodup; constructor|].
    clear -Hregs. induction Hregs as [|[k l] [k' l'] ? ? [Hk _] _ IH];
      [reflexivity|]. cbn in *. now rewrite Hk, IH.
  - intros name entry. split.
    + intros (interface & Hin & Hentry).
      apply list_elem_of_lookup in Hin as [n Hn].
      destruct (Forall2_lookup_r _ _ _ _ _ Hregs Hn)
        as ([k member_list] & Hgroup & Hk & Hmembers).
      cbn [fst snd] in Hk, Hmembers. subst k.
      apply list_elem_of_lookup in Hentry as [j Hj].
      destruct (Forall2_lookup_r _ _ _ _ _ Hmembers Hj)
        as (member & Hmember & Hentry).
      assert (Hl : listed interface_map name member).
      { exists member_list. split; apply list_elem_of_lookup; eauto. }
      apply Hlisted in Hl as [(x & Hx & _)|(key & a & d & Hk & Hd & Hname & ->)];
        [inversion Hx|].
      exists key, a, d. repeat split; try assumption.
      cbn [descriptors w1 set_instances] in Hentry, Hd.
      rewrite (entry_of_member _ _ _ _ Hd) in Hentry. congruence.
    + intros (key & a & d & Hk & Hd & Hname & ->).
      assert (Hl : listed interface_map name
                          (member_of (descriptors w1) self (NsDbus a))).
      { apply Hlisted. right. now exists key, a, d. }
      destruct Hl as (member_list & Hin & Hmember).
      apply list_elem_of_lookup in Hin as [n Hn].
      destruct (Forall2_lookup_l _ _ _ _ _ Hregs Hn)
        as ([k interface] & Hreg & Hk' & Hentries).
      cbn [fst snd] in Hk', Hentries. subst k.
      apply list_elem_of_lookup in Hmember as [j Hj].
      destruct (Forall2_lookup_l _ _ _ _ _ Hentries Hj)
        as (entry & Hentry & Hof).
      cbn [descriptors w1 set_instances] in Hof.
      rewrite (entry_of_member _ _ _ _ Hd) in Hof. injection Hof as <-.
      exists interface. split; apply list_elem_of_lookup; eauto.
  - intros i acts Hi Hact. injection Hi as <-.
    assert (Hlt : (self < length (instances w))%nat)
      by now apply lookup_lt_Some in Hi0.
    apply (Hacts _ acts (list_lookup_insert_eq _ _ _ Hlt)). exact Hact.
  - split; [exact Hds | exact Hqs].
Qed.

Lemma start_serving_groups_by_interface_witness :
  ∃ regs : list (string * list InterfaceEntry),
    bus_log (snd (start_serving 0 Samples.served_attrs 0 "/obj"
                    ServeSamples.constructed_world))
    = (bus_log ServeSamples.constructed_world
       ++ map (λ reg, add_interface 0 reg.2 "/obj" reg.1) regs)%list
    ∧ NoDup regs.*1
    ∧ (∀ name entry,
         (∃ interface, (name, interface) ∈ regs ∧ entry ∈ interface)
         ↔ served_under (descriptors ServeSamples.constructed_world) 0
             Samples.served_attrs name entry)
    ∧ (∀ i acts,
         instances ServeSamples.constructed_world !! 0%nat = Some i ->
         activated_interfaces i = Some acts ->
         ∃ i', instances (snd (start_serving 0 Samples.served_attrs 0 "/obj"
                                 ServeSamples.constructed_world)) !! 0%nat
               = Some i'
               ∧ activated_interfaces i' = Some (acts ++ regs.*2)%list)
    ∧ descriptors (snd (start_serving 0 Samples.served_attrs 0 "/obj"
                          ServeSamples.constructed_world))
      = descriptors ServeSamples.constructed_world
    ∧ queues (snd (start_serving 0 Samples.served_attrs 0 "/obj"
                     ServeSamples.constructed_world))
      = queues ServeSamples.constructed_world.
Proof.
  apply (start_serving_groups_by_interface ServeSamples.constructed_world
           _ 0 Samples.served_attrs 0 "/obj").
  vm_compute. reflexivity.
Defined.

End ServeGroupFacts.
